(** * Featrix model-card renderers: a shallow embedding

    The repository renders a model-card JSON document twice over:
    - [javascript/model-card.js], a stand-alone renderer that concatenates
      an HTML string ([FeatrixModelCard.renderHTML]);
    - [react/src/ModelCard.tsx], a React component that derives three chart
      series and returns an element tree.

    Both are embedded here as functions over one data model.  Evaluation
    that can throw ([TypeError] on a property of [null], [RangeError] of
    [toFixed]) lives in a small error monad.  [Standalone] and [Component]
    are the two renderers on the documents whose list entries are objects;
    [Raw] adds the entries that are [null]. *)

From Stdlib Require Import ZArith QArith Qround List String Ascii Bool Lia.
From Stdlib Require Import Sorting.Sorted Sorting.Permutation.
From Stdlib Require Import Floats.SpecFloat.
Import ListNotations.

Set Warnings "-register-all".

Local Open Scope string_scope.
Local Open Scope Z_scope.

(** ** Outcomes of evaluation *)

Inductive exn : Type :=
| TypeError
| RangeError.

Inductive result (A : Type) : Type :=
| Ok (a : A)
| Throw (e : exn).

Arguments Ok {A} a.
Arguments Throw {A} e.

Definition bind {A B : Type} (r : result A) (k : A -> result B) : result B :=
  match r with
  | Ok a => k a
  | Throw e => Throw e
  end.

Notation "x <- c ;; k" := (bind c (fun x => k))
  (at level 61, c at next level, right associativity).

Fixpoint mapM {A B : Type} (f : A -> result B) (l : list A) : result (list B) :=
  match l with
  | [] => Ok []
  | a :: l' => b <- f a ;; bs <- mapM f l' ;; Ok (b :: bs)
  end.

Definition returns {A : Type} (r : result A) : Prop := exists a, r = Ok a.

(** ** Strings

    JavaScript strings are modelled by [string]; the model is exact on
    ASCII text (case mapping leaves other bytes alone, and lengths count
    bytes). *)

Definition dq : string := String (ascii_of_nat 34) EmptyString.

Definition is_upper (c : ascii) : bool :=
  let n := nat_of_ascii c in (Nat.leb 65 n && Nat.leb n 90)%bool.
Definition is_lower (c : ascii) : bool :=
  let n := nat_of_ascii c in (Nat.leb 97 n && Nat.leb n 122)%bool.

Definition lower_char (c : ascii) : ascii :=
  if is_upper c then ascii_of_nat (nat_of_ascii c + 32) else c.
Definition upper_char (c : ascii) : ascii :=
  if is_lower c then ascii_of_nat (nat_of_ascii c - 32) else c.

Fixpoint map_string (f : ascii -> ascii) (s : string) : string :=
  match s with
  | EmptyString => EmptyString
  | String c s' => String (f c) (map_string f s')
  end.

Definition toLowerCase : string -> string := map_string lower_char.
Definition toUpperCase : string -> string := map_string upper_char.

(** [s.substring(0, n)] *)
Fixpoint substring0 (n : nat) (s : string) : string :=
  match n, s with
  | O, _ => EmptyString
  | _, EmptyString => EmptyString
  | S n', String c s' => String c (substring0 n' s')
  end.

Fixpoint repeat_char (c : ascii) (n : nat) : string :=
  match n with
  | O => EmptyString
  | S n' => String c (repeat_char c n')
  end.

(** [s.padStart(n, '0')] *)
Definition padStart0 (n : nat) (s : string) : string :=
  repeat_char "0"%char (n - String.length s) ++ s.

Fixpoint join (sep : string) (l : list string) : string :=
  match l with
  | [] => ""
  | [s] => s
  | s :: l' => s ++ sep ++ join sep l'
  end.

Fixpoint all_chars (p : ascii -> bool) (s : string) : bool :=
  match s with
  | EmptyString => true
  | String c s' => (p c && all_chars p s')%bool
  end.

Definition is_zero_char (c : ascii) : bool := Ascii.eqb c "0"%char.
Definition is_digit (c : ascii) : bool :=
  let n := nat_of_ascii c in (Nat.leb 48 n && Nat.leb n 57)%bool.

(** *** Decimal numerals of integers *)

Definition digit_char (d : Z) : ascii := ascii_of_nat (48 + Z.to_nat d).

Fixpoint digits_aux (fuel : nat) (n : Z) (acc : string) : string :=
  match fuel with
  | O => acc
  | S k =>
      let acc' := String (digit_char (n mod 10)) acc in
      if n <? 10 then acc' else digits_aux k (n / 10) acc'
  end.

(** The decimal numeral of [n >= 0], most significant digit first. *)
Definition decimal (n : Z) : string :=
  digits_aux (S (Z.to_nat (Z.log2 n))) n "".

(** [String(n)] for an integral number [n]. *)
Definition decimal_int (n : Z) : string :=
  if n <? 0 then "-" ++ decimal (- n) else decimal n.

(** ** Numbers

    A JavaScript number is an IEEE 754 binary64 value: [spec_float] of the
    Standard Library at precision 53.  Products and quotients round as
    [SFmul] and [SFdiv] do.  Formatting and comparison read the exact
    value of the operand. *)

Definition prec : Z := 53.
Definition emax : Z := 1024.

Definition number : Type := spec_float.

Definition num_mul : number -> number -> number := SFmul prec emax.
Definition num_div : number -> number -> number := SFdiv prec emax.

(** The double nearest to the integer [z]. *)
Definition num_of_Z (z : Z) : number := binary_normalize prec emax z 0 false.

(** The double a decimal literal [digits]e-[scale] denotes, for literals
    whose digits and power of ten are below 2^53 (division of two exact
    doubles rounds correctly, as the literal does). *)
Definition num_of_decimal (digits : Z) (scale : nat) : number :=
  num_div (num_of_Z digits) (num_of_Z (10 ^ Z.of_nat scale)).

Definition num_is_nan (x : number) : bool :=
  match x with S754_nan => true | _ => false end.

Definition num_is_zero (x : number) : bool :=
  match x with S754_zero _ => true | _ => false end.

(** ToBoolean on a number: false for 0, -0 and NaN. *)
Definition num_truthy (x : number) : bool :=
  negb (num_is_nan x || num_is_zero x).

Definition pow2 (e : Z) : Q :=
  if 0 <=? e then inject_Z (2 ^ e) else 1 # (Z.to_pos (2 ^ (- e))).

(** Magnitude of a finite double with mantissa [m] and exponent [e]. *)
Definition magnitude (m : positive) (e : Z) : Q := inject_Z (Zpos m) * pow2 e.

Definition pow10 (n : Z) : Q :=
  if 0 <=? n then inject_Z (10 ^ n) else 1 # (Z.to_pos (10 ^ (- n))).

(** *** Number::toString

    ECMAScript picks the shortest digit string [s] (with [k] digits) and
    the exponent [n] such that [s * 10^(n-k)] rounds to the double. *)

(** The reals that round to the double [m * 2^e] under round-to-nearest,
    ties-to-even: its neighbours are [2^e] away, or [2^(e-1)] below a power
    of two. *)
Definition rounds_to (m : positive) (e : Z) (q : Q) : bool :=
  let x := magnitude m e in
  let up := pow2 (e - 1) in
  let down :=
    if (Zpos m =? 2 ^ (prec - 1)) && (3 - emax - prec <? e)
    then pow2 (e - 2) else pow2 (e - 1) in
  if Z.even (Zpos m)
  then Qle_bool (x - down) q && Qle_bool q (x + up)
  else negb (Qle_bool q (x - down)) && negb (Qle_bool (x + up) q).

Fixpoint exp_up (fuel : nat) (x : Q) (p : Z) : Z :=
  match fuel with
  | O => p
  | S k => if Qle_bool (pow10 p) x then exp_up k x (p + 1) else p
  end.

Fixpoint exp_down (fuel : nat) (x : Q) (p : Z) : Z :=
  match fuel with
  | O => p
  | S k => if Qle_bool (pow10 (p - 1)) x then p else exp_down k x (p - 1)
  end.

(** The [p] with [10^(p-1) <= x < 10^p]. *)
Definition decimal_exponent (m : positive) (e : Z) : Z :=
  let x := magnitude m e in
  let guess := ((Z.log2 (Zpos m) + e) * 30103) / 100000 in
  exp_down 8 x (exp_up 8 x guess).

(** The [k]-digit candidate for [s], if one rounds to the double. *)
Definition candidate (m : positive) (e : Z) (p : Z) (k : Z) : option Z :=
  let x := magnitude m e in
  let unit := pow10 (p - k) in
  let lo := Qfloor (x / unit) in
  let hi := lo + 1 in
  let ok_lo := rounds_to m e (inject_Z lo * unit) in
  let ok_hi := rounds_to m e (inject_Z hi * unit) in
  match ok_lo, ok_hi with
  | false, false => None
  | true, false => Some lo
  | false, true => Some hi
  | true, true =>
      match Qcompare (x - inject_Z lo * unit) (inject_Z hi * unit - x) with
      | Lt => Some lo
      | Gt => Some hi
      | Eq => Some (if Z.even lo then lo else hi)
      end
  end.

Fixpoint shortest (fuel : nat) (m : positive) (e : Z) (p : Z) (k : Z) : Z * Z :=
  match fuel with
  | O => (Zpos m, k)
  | S f =>
      match candidate m e p k with
      | Some s => (s, k)
      | None => shortest f m e p (k + 1)
      end
  end.

(** Steps 5 to 12 of Number::toString for a positive finite double. *)
Definition positive_to_string (m : positive) (e : Z) : string :=
  let p := decimal_exponent m e in
  let '(s0, k) := shortest 17 m e p 1 in
  let '(s, n) := if s0 =? 10 ^ k then (10 ^ (k - 1), p + 1) else (s0, p) in
  let ds := decimal s in
  let kn := Z.to_nat k in
  if (-5 <=? n) && (n <=? 21) then
    if k <=? n then ds ++ repeat_char "0"%char (Z.to_nat (n - k))
    else if 0 <? n then
      substring0 (Z.to_nat n) ds ++ "." ++
      String.substring (Z.to_nat n) (kn - Z.to_nat n) ds
    else "0." ++ repeat_char "0"%char (Z.to_nat (- n)) ++ ds
  else
    let ex := n - 1 in
    let c := if ex <? 0 then "-" else "+" in
    let tail := "e" ++ c ++ decimal (Z.abs ex) in
    if k =? 1 then ds ++ tail
    else substring0 1 ds ++ "." ++ String.substring 1 (kn - 1) ds ++ tail.

Definition num_to_string (x : number) : string :=
  match x with
  | S754_nan => "NaN"
  | S754_zero _ => "0"
  | S754_infinity false => "Infinity"
  | S754_infinity true => "-Infinity"
  | S754_finite false m e => positive_to_string m e
  | S754_finite true m e => "-" ++ positive_to_string m e
  end.

(** *** Number.prototype.toFixed *)

(** Places the decimal point [f] digits from the right of the numeral of
    [n], padding with zeros on the left (step 11 of toFixed). *)
Definition fixed_digits (n : Z) (f : nat) : string :=
  let m := decimal n in
  match f with
  | O => m
  | _ =>
      let k := String.length m in
      let m' := if Nat.leb k f then repeat_char "0"%char (f + 1 - k) ++ m else m in
      let k' := String.length m' in
      substring0 (k' - f) m' ++ "." ++ String.substring (k' - f) f m'
  end.

(** The integer [n] for which [n / 10^f - x] is closest to zero, the
    larger one when two are as close. *)
Definition nearest_scaled (x : Q) (f : nat) : Z :=
  Qfloor (x * inject_Z (10 ^ Z.of_nat f) + (1 # 2)).

Definition toFixed (x : number) (digits : Z) : result string :=
  if (digits <? 0) || (100 <? digits) then Throw RangeError
  else
    let f := Z.to_nat digits in
    match x with
    | S754_zero _ => Ok (fixed_digits 0 f)
    | S754_finite s m e =>
        let sign := if s then "-" else "" in
        if Qle_bool (pow10 21) (magnitude m e)
        then Ok (sign ++ positive_to_string m e)
        else Ok (sign ++ fixed_digits (nearest_scaled (magnitude m e) f) f)
    | _ => Ok (num_to_string x)
    end.

(** *** Comparison of numbers

    [x > 0], and the sign of a difference [b - a] as [Array.prototype.sort]
    reads it.  The sign of an IEEE difference of two doubles is the sign
    of their exact difference (a difference of distinct doubles does not
    round to zero), so the comparison is made on exact values; the
    difference of two equal infinities is NaN. *)

Inductive ext : Type :=
| NegInf
| Finite (q : Q)
| PosInf.

(** The exact value of a number other than NaN. *)
Definition num_value (x : number) : option ext :=
  match x with
  | S754_nan => None
  | S754_zero _ => Some (Finite 0)
  | S754_infinity false => Some PosInf
  | S754_infinity true => Some NegInf
  | S754_finite false m e => Some (Finite (magnitude m e))
  | S754_finite true m e => Some (Finite (- magnitude m e))
  end.

Definition ext_compare (a b : ext) : comparison :=
  match a, b with
  | NegInf, NegInf => Eq
  | NegInf, _ => Lt
  | Finite _, NegInf => Gt
  | Finite p, Finite q => Qcompare p q
  | Finite _, PosInf => Lt
  | PosInf, PosInf => Eq
  | PosInf, _ => Gt
  end.

(** [x > y]: false when either side is NaN. *)
Definition num_gt (x y : number) : bool :=
  match num_value x, num_value y with
  | Some a, Some b => match ext_compare a b with Gt => true | _ => false end
  | _, _ => false
  end.

(** The sign of [x - y]: [None] when the difference is NaN. *)
Definition num_sub_sign (x y : number) : option comparison :=
  match num_value x, num_value y with
  | Some NegInf, Some NegInf => None
  | Some PosInf, Some PosInf => None
  | Some a, Some b => Some (ext_compare a b)
  | _, _ => None
  end.

Definition num_zero : number := S754_zero false.

(** ** Documents

    A property of a parsed document is [Undefined] (the key is missing),
    [Null], or holds a value of the type the schema ([ModelCardData] in
    ModelCard.tsx) declares.  TypeScript types are erased at run time, so
    every property is modelled with all three cases, whatever nullability
    the interface gives it.  Properties the interface types [any]
    ([details], [version_info]) are read by no renderer and left out.
    The entries of a list are held as the schema declares them, objects or
    strings; the section on entries that are null holds them as properties
    too. *)

Inductive field (A : Type) : Type :=
| Undefined
| Null
| Val (a : A).

Arguments Undefined {A}.
Arguments Null {A}.
Arguments Val {A} a.

Record ModelIdentification : Type := {
  mi_session_id : field string;
  mi_job_id : field string;
  mi_name : field string;
  mi_target_column : field string;
  mi_target_column_type : field string;
  mi_compute_cluster : field string;
  mi_training_date : field string;
  mi_status : field string;
  mi_model_type : field string;
  mi_framework : field string
}.

Record TrainingDataset : Type := {
  td_train_rows : field number;
  td_val_rows : field number;
  td_total_rows : field number;
  td_total_features : field number;
  td_feature_names : field (list string);
  td_target_column : field string
}.

Record Statistics : Type := {
  st_min : field number;
  st_max : field number;
  st_mean : field number;
  st_std : field number;
  st_median : field number
}.

Record Feature : Type := {
  feat_name : field string;
  feat_type : field string;
  feat_encoder_type : field string;
  feat_unique_values : field number;
  feat_sample_values : field (list string);
  feat_statistics : field Statistics
}.

Record DropoutSchedule : Type := {
  ds_enabled : field bool;
  ds_initial : field number;
  ds_final : field number
}.

Record TrainingConfiguration : Type := {
  tc_epochs_total : field number;
  tc_best_epoch : field number;
  tc_d_model : field number;
  tc_batch_size : field number;
  tc_learning_rate : field number;
  tc_optimizer : field string;
  tc_dropout_schedule : field DropoutSchedule
}.

Record BestEpoch : Type := {
  be_epoch : field number;
  be_validation_loss : field number;
  be_train_loss : field number;
  be_spread_loss : field number;
  be_joint_loss : field number;
  be_marginal_loss : field number
}.

Record ClassificationMetrics : Type := {
  cm_accuracy : field number;
  cm_precision : field number;
  cm_recall : field number;
  cm_f1 : field number;
  cm_auc : field number;
  cm_is_binary : field bool
}.

Record OptimalThreshold : Type := {
  ot_optimal_threshold : field number;
  ot_pos_label : field string;
  ot_optimal_threshold_f1 : field number;
  ot_accuracy_at_optimal_threshold : field number
}.

Record ArgmaxMetrics : Type := {
  am_accuracy : field number;
  am_precision : field number;
  am_recall : field number;
  am_f1 : field number
}.

Record FinalEpoch : Type := {
  fe_epoch : field number;
  fe_train_loss : field number;
  fe_val_loss : field number
}.

Record LossProgression : Type := {
  lp_initial_train : field number;
  lp_initial_val : field number;
  lp_improvement_pct : field number
}.

Record TrainingMetrics : Type := {
  tm_best_epoch : field BestEpoch;
  tm_classification_metrics : field ClassificationMetrics;
  tm_optimal_threshold : field OptimalThreshold;
  tm_argmax_metrics : field ArgmaxMetrics;
  tm_final_epoch : field FinalEpoch;
  tm_loss_progression : field LossProgression
}.

Record ModelArchitecture : Type := {
  ma_predictor_layers : field number;
  ma_predictor_parameters : field number;
  ma_embedding_space_d_model : field number
}.

Record Recommendation : Type := {
  rec_issue : field string;
  rec_suggestion : field string
}.

Record Warning : Type := {
  warn_type : field string;
  warn_severity : field string;
  warn_message : field string;
  warn_recommendation : field string
}.

Record ModelQuality : Type := {
  mq_assessment : field string;
  mq_recommendations : field (list Recommendation);
  mq_warnings : field (list Warning);
  mq_training_quality_warning : field string
}.

Record TechnicalDetails : Type := {
  tech_pytorch_version : field string;
  tech_device : field string;
  tech_precision : field string;
  tech_normalization : field string;
  tech_loss_function : field string
}.

Record Provenance : Type := {
  prov_created_at : field string;
  prov_training_duration_minutes : field number
}.

Record ColumnStats : Type := {
  cs_mutual_information_bits : field number;
  cs_marginal_loss : field number
}.

(** [column_statistics] is an object used as a map; it is held as the list
    [Object.entries] returns, in the object's property order. *)
Record ModelCardData : Type := {
  model_identification : field ModelIdentification;
  training_dataset : field TrainingDataset;
  feature_inventory : field (list Feature);
  training_configuration : field TrainingConfiguration;
  training_metrics : field TrainingMetrics;
  model_architecture : field ModelArchitecture;
  model_quality : field ModelQuality;
  technical_details : field TechnicalDetails;
  provenance : field Provenance;
  column_statistics : field (list (string * ColumnStats))
}.

(** *** Reading properties *)

(** [o.p]: a [TypeError] when [o] is [undefined] or [null]. *)
Definition get {R A : Type} (o : field R) (p : R -> field A) : result (field A) :=
  match o with
  | Val r => Ok (p r)
  | _ => Throw TypeError
  end.

(** The property that holds [f] of the value of [o], when [o] has one. *)
Definition field_map {A B : Type} (f : A -> B) (o : field A) : field B :=
  match o with
  | Undefined => Undefined
  | Null => Null
  | Val a => Val (f a)
  end.

(** The receiver of a method call or an unguarded property read. *)
Definition deref {A : Type} (o : field A) : result A :=
  match o with
  | Val a => Ok a
  | _ => Throw TypeError
  end.

Definition is_nullish {A : Type} (o : field A) : bool :=
  match o with Val _ => false | _ => true end.

(** ToBoolean of a string, number or boolean property. *)
Definition truthy_string (o : field string) : bool :=
  match o with
  | Val s => negb (String.eqb s "")
  | _ => false
  end.

Definition truthy_number (o : field number) : bool :=
  match o with
  | Val n => num_truthy n
  | _ => false
  end.

(** ToBoolean of an object or array property: every object is truthy. *)
Definition truthy_object {A : Type} (o : field A) : bool := negb (is_nullish o).

(** [o || d] *)
Definition or_string (o : field string) (d : string) : string :=
  match o with
  | Val s => if String.eqb s "" then d else s
  | _ => d
  end.

Definition or_number (o : field number) (d : number) : number :=
  match o with
  | Val n => if num_truthy n then n else d
  | _ => d
  end.

(** [o || {}]: the properties of the empty object are all [undefined]. *)
Definition or_empty {R : Type} (o : field R) (empty : R) : R :=
  match o with
  | Val r => r
  | _ => empty
  end.

Definition no_ModelIdentification : ModelIdentification :=
  {| mi_session_id := Undefined; mi_job_id := Undefined; mi_name := Undefined;
     mi_target_column := Undefined; mi_target_column_type := Undefined;
     mi_compute_cluster := Undefined; mi_training_date := Undefined;
     mi_status := Undefined; mi_model_type := Undefined;
     mi_framework := Undefined |}.

Definition no_TrainingDataset : TrainingDataset :=
  {| td_train_rows := Undefined; td_val_rows := Undefined;
     td_total_rows := Undefined; td_total_features := Undefined;
     td_feature_names := Undefined; td_target_column := Undefined |}.

Definition no_TrainingMetrics : TrainingMetrics :=
  {| tm_best_epoch := Undefined; tm_classification_metrics := Undefined;
     tm_optimal_threshold := Undefined; tm_argmax_metrics := Undefined;
     tm_final_epoch := Undefined; tm_loss_progression := Undefined |}.

Definition no_ModelQuality : ModelQuality :=
  {| mq_assessment := Undefined; mq_recommendations := Undefined;
     mq_warnings := Undefined; mq_training_quality_warning := Undefined |}.

(** The reading of the clock by [new Date()], as its getters return it. *)
Record Date : Type := {
  getFullYear : Z;
  getMonth : Z;
  getDate : Z;
  getHours : Z;
  getMinutes : Z;
  getSeconds : Z;
  getMilliseconds : Z
}.

(** ** The stand-alone renderer: javascript/model-card.js

    The template literals of the script, each a function of the values
    interpolated into it. *)

Module Templates.

Definition model_identification_section (sessionIdShort compute_cluster training_date statusColor status job_id model_type target_column target_column_type framework : string) : string :=
"
    <div class=" ++ dq ++ "section" ++ dq ++ ">
        <div class=" ++ dq ++ "section-title" ++ dq ++ ">Model Identification</div>
        <div class=" ++ dq ++ "grid" ++ dq ++ ">
            <div class=" ++ dq ++ "metric" ++ dq ++ ">
                <div class=" ++ dq ++ "metric-label" ++ dq ++ ">Session ID</div>
                <div class=" ++ dq ++ "metric-value" ++ dq ++ " style=" ++ dq ++ "font-size: 18px;" ++ dq ++ ">" ++ sessionIdShort ++ "</div>
            </div>
            <div class=" ++ dq ++ "metric" ++ dq ++ ">
                <div class=" ++ dq ++ "metric-label" ++ dq ++ ">Compute Cluster</div>
                <div class=" ++ dq ++ "metric-value" ++ dq ++ ">" ++ compute_cluster ++ "</div>
            </div>
            <div class=" ++ dq ++ "metric" ++ dq ++ ">
                <div class=" ++ dq ++ "metric-label" ++ dq ++ ">Training Date</div>
                <div class=" ++ dq ++ "metric-value" ++ dq ++ " style=" ++ dq ++ "font-size: 18px;" ++ dq ++ ">" ++ training_date ++ "</div>
            </div>
            <div class=" ++ dq ++ "metric" ++ dq ++ ">
                <div class=" ++ dq ++ "metric-label" ++ dq ++ ">Status</div>
                <div class=" ++ dq ++ "metric-value" ++ dq ++ "><span class=" ++ dq ++ "status-badge" ++ dq ++ " style=" ++ dq ++ "background-color: " ++ statusColor ++ dq ++ ">" ++ status ++ "</span></div>
            </div>
        </div>
        <table>
            <tr>
                <th style=" ++ dq ++ "width: 250px;" ++ dq ++ ">Job ID</th>
                <td><code>" ++ job_id ++ "</code></td>
            </tr>
            <tr>
                <th>Model Type</th>
                <td>" ++ model_type ++ "</td>
            </tr>
            <tr>
                <th>Target Column</th>
                <td>" ++ target_column ++ "</td>
            </tr>
            <tr>
                <th>Target Type</th>
                <td>" ++ target_column_type ++ "</td>
            </tr>
            <tr>
                <th>Framework</th>
                <td>" ++ framework ++ "</td>
            </tr>
        </table>
    </div>
      ".

Definition training_dataset_section (train_rows total_features target_column target_column_type : string) : string :=
"
    <div class=" ++ dq ++ "section" ++ dq ++ ">
        <div class=" ++ dq ++ "section-title" ++ dq ++ ">Training Dataset</div>
        <div class=" ++ dq ++ "grid" ++ dq ++ ">
            <div class=" ++ dq ++ "metric" ++ dq ++ ">
                <div class=" ++ dq ++ "metric-label" ++ dq ++ ">Training Rows</div>
                <div class=" ++ dq ++ "metric-value" ++ dq ++ ">" ++ train_rows ++ "</div>
            </div>
            <div class=" ++ dq ++ "metric" ++ dq ++ ">
                <div class=" ++ dq ++ "metric-label" ++ dq ++ ">Total Features</div>
                <div class=" ++ dq ++ "metric-value" ++ dq ++ ">" ++ total_features ++ "</div>
            </div>
            <div class=" ++ dq ++ "metric" ++ dq ++ ">
                <div class=" ++ dq ++ "metric-label" ++ dq ++ ">Target Column</div>
                <div class=" ++ dq ++ "metric-value" ++ dq ++ " style=" ++ dq ++ "font-size: 18px;" ++ dq ++ ">" ++ target_column ++ "</div>
            </div>
            <div class=" ++ dq ++ "metric" ++ dq ++ ">
                <div class=" ++ dq ++ "metric-label" ++ dq ++ ">Target Type</div>
                <div class=" ++ dq ++ "metric-value" ++ dq ++ ">" ++ target_column_type ++ "</div>
            </div>
        </div>
    </div>
      ".

Definition training_metrics_open : string :=
"
    <div class=" ++ dq ++ "section" ++ dq ++ ">
        <div class=" ++ dq ++ "section-title" ++ dq ++ ">Model Performance Metrics</div>
      ".

Definition classification_metrics_grid (precision recall f1 auc : string) : string :=
"
        <div class=" ++ dq ++ "grid" ++ dq ++ ">
            <div class=" ++ dq ++ "metric" ++ dq ++ ">
                <div class=" ++ dq ++ "metric-label" ++ dq ++ ">Precision</div>
                <div class=" ++ dq ++ "metric-value" ++ dq ++ ">" ++ precision ++ "</div>
            </div>
            <div class=" ++ dq ++ "metric" ++ dq ++ ">
                <div class=" ++ dq ++ "metric-label" ++ dq ++ ">Recall</div>
                <div class=" ++ dq ++ "metric-value" ++ dq ++ ">" ++ recall ++ "</div>
            </div>
            <div class=" ++ dq ++ "metric" ++ dq ++ ">
                <div class=" ++ dq ++ "metric-label" ++ dq ++ ">F1 Score</div>
                <div class=" ++ dq ++ "metric-value" ++ dq ++ ">" ++ f1 ++ "</div>
            </div>
            <div class=" ++ dq ++ "metric" ++ dq ++ ">
                <div class=" ++ dq ++ "metric-label" ++ dq ++ ">AUC</div>
                <div class=" ++ dq ++ "metric-value" ++ dq ++ ">" ++ auc ++ "</div>
            </div>
        </div>
        ".

Definition section_close : string :=
"
    </div>
      ".

Definition model_quality_open : string :=
"
    <div class=" ++ dq ++ "section" ++ dq ++ ">
        <div class=" ++ dq ++ "section-title" ++ dq ++ ">Model Quality</div>
      ".

Definition assessment_table (qualityColor assessment : string) : string :=
"
        <table>
            <tr>
                <th style=" ++ dq ++ "width: 250px;" ++ dq ++ ">Assessment</th>
                <td><span class=" ++ dq ++ "quality-badge" ++ dq ++ " style=" ++ dq ++ "background-color: " ++ qualityColor ++ dq ++ ">" ++ assessment ++ "</span></td>
            </tr>
        </table>
        ".

Definition warning_item (severityColor severity type message : string) : string :=
"
            <div class=" ++ dq ++ "warning-item" ++ dq ++ ">
                <div class=" ++ dq ++ "warning-header" ++ dq ++ ">
                    <span class=" ++ dq ++ "severity-badge" ++ dq ++ " style=" ++ dq ++ "background-color: " ++ severityColor ++ dq ++ ">" ++ severity ++ "</span>
                    <strong>" ++ type ++ "</strong>
                </div>
                <div class=" ++ dq ++ "warning-message" ++ dq ++ ">" ++ message ++ "</div>
            </div>
          ".

Definition html_document (modelName modelNameUpper dateStr sections : string) : string :=
"<!DOCTYPE html>
<html>
<head>
    <meta charset=" ++ dq ++ "UTF-8" ++ dq ++ ">
    <title>Model Card - " ++ modelName ++ "</title>
    <style>
        * { margin: 0; padding: 0; box-sizing: border-box; }
        body { font-family: 'Courier New', monospace; background: #fff; color: #000; line-height: 1.4; }
        .page { max-width: 1400px; margin: 0 auto; padding: 40px; }
        
        .header { border-bottom: 4px solid #000; padding-bottom: 20px; margin-bottom: 30px; }
        .header h1 { font-size: 36px; font-weight: bold; letter-spacing: -1px; }
        .header .meta { font-size: 14px; margin-top: 8px; }
        
        .section { margin: 30px 0; page-break-inside: avoid; }
        .section-title { font-size: 18px; font-weight: bold; text-transform: uppercase; border-bottom: 2px solid #000; padding-bottom: 5px; margin-bottom: 15px; letter-spacing: 1px; }
        
        .grid { display: grid; grid-template-columns: repeat(4, 1fr); gap: 15px; margin: 15px 0; }
        .metric { border: 1px solid #000; padding: 12px; }
        .metric-label { font-size: 12px; text-transform: uppercase; letter-spacing: 0.5px; margin-bottom: 4px; }
        .metric-value { font-size: 24px; font-weight: bold; }
        
        table { width: 100%; border-collapse: collapse; font-size: 14px; margin: 15px 0; }
        th { background: #000; color: #fff; padding: 10px; text-align: left; font-weight: bold; font-size: 13px; text-transform: uppercase; }
        td { border-bottom: 1px solid #ccc; padding: 8px 10px; }
        tr:hover { background: #f5f5f5; }
        
        .controls {
            margin-bottom: 20px;
            padding: 15px;
            background: #fff;
            border: 1px solid #000;
            display: flex;
            gap: 10px;
            flex-wrap: wrap;
        }
        
        .btn {
            padding: 8px 16px;
            background: #000;
            color: #fff;
            border: 1px solid #000;
            cursor: pointer;
            font-size: 14px;
            font-family: 'Courier New', monospace;
        }
        
        .btn:hover {
            background: #333;
        }
        
        .btn-secondary {
            background: #fff;
            color: #000;
        }
        
        .btn-secondary:hover {
            background: #f5f5f5;
        }
        
        .status-badge, .quality-badge, .severity-badge {
            display: inline-block;
            padding: 4px 12px;
            color: white;
            font-size: 12px;
            font-weight: 600;
        }
        
        .warning-item {
            padding: 15px;
            margin-bottom: 15px;
            background: #fff3cd;
            border-left: 4px solid #ffc107;
        }
        
        .warning-header {
            display: flex;
            align-items: center;
            gap: 10px;
            margin-bottom: 10px;
        }
        
        code {
            background: #fff;
            padding: 2px 6px;
            border: 1px solid #000;
            font-family: 'Courier New', monospace;
            font-size: 13px;
        }
        
        @media print { 
            @page { size: letter; margin: 0.75in; }
            .page { padding: 0; max-width: 100%; }
            .section { page-break-inside: avoid; }
            .header { page-break-after: always; }
            .controls { display: none; }
            table { font-size: 10pt; }
            .grid { grid-template-columns: repeat(2, 1fr) !important; }
        }
    </style>
</head>
<body>
    <div class=" ++ dq ++ "page" ++ dq ++ ">
        <div class=" ++ dq ++ "header" ++ dq ++ ">
            <h1>MODEL CARD: " ++ modelNameUpper ++ "</h1>
            <div class=" ++ dq ++ "meta" ++ dq ++ ">
                <strong>Generated:</strong> " ++ dateStr ++ " UTC
            </div>
        </div>
        
        <div class=" ++ dq ++ "controls" ++ dq ++ ">
            <button class=" ++ dq ++ "btn" ++ dq ++ " id=" ++ dq ++ "expand-all-btn" ++ dq ++ ">Expand All</button>
            <button class=" ++ dq ++ "btn btn-secondary" ++ dq ++ " id=" ++ dq ++ "collapse-all-btn" ++ dq ++ ">Collapse All</button>
        </div>
        
        " ++ sections ++ "
    </div>
    
    <script>
        (function() {
            function expandAll() {
                var sections = document.querySelectorAll('.section');
                sections.forEach(function(section) {
                    var table = section.querySelector('#feature-table');
                    if (table) {
                        table.style.display = 'block';
                        var icon = section.querySelector('#toggle-icon');
                        if (icon) icon.textContent = '▲';
                    }
                });
            }
            
            function collapseAll() {
                var sections = document.querySelectorAll('.section');
                sections.forEach(function(section) {
                    var table = section.querySelector('#feature-table');
                    if (table) {
                        table.style.display = 'none';
                        var icon = section.querySelector('#toggle-icon');
                        if (icon) icon.textContent = '▼';
                    }
                });
            }
            
            function toggleFeatures() {
                var table = document.getElementById('feature-table');
                var icon = document.getElementById('toggle-icon');
                if (table && icon) {
                    if (table.style.display === 'none') {
                        table.style.display = 'block';
                        icon.textContent = '▲';
                    } else {
                        table.style.display = 'none';
                        icon.textContent = '▼';
                    }
                }
            }
            
            // Attach event listeners when DOM is ready
            function attachListeners() {
                var expandBtn = document.getElementById('expand-all-btn');
                var collapseBtn = document.getElementById('collapse-all-btn');
                
                if (expandBtn) {
                    expandBtn.addEventListener('click', expandAll);
                }
                if (collapseBtn) {
                    collapseBtn.addEventListener('click', collapseAll);
                }
                
                // Make toggleFeatures available globally
                window.toggleFeatures = toggleFeatures;
            }
            
            if (document.readyState === 'loading') {
                document.addEventListener('DOMContentLoaded', attachListeners);
            } else {
                attachListeners();
            }
        })();
    </script>
</body>
</html>".

End Templates.

(** The argument of [formatValue]: [undefined], [null], a number, a
    boolean, a string, or an array or object.  Of an array or object the
    renderers use nothing but the text the host makes of it, so it is held
    as the outcomes of the two conversions: [json], of
    [JSON.stringify(value, null, 2)] joined to a string, which the
    stand-alone script writes, and [text], of [String(value)], which the
    component shows.  Both return for the arrays and objects of a parsed
    document; [JSON.stringify] throws on a cyclic structure, [String] on
    an object that has no conversion to a primitive.  A symbol, a BigInt
    or a function is formatted as the string [String] makes of it. *)
Inductive any : Type :=
| AnyUndefined
| AnyNull
| AnyNumber (n : number)
| AnyBoolean (b : bool)
| AnyString (s : string)
| AnyObject (json text : result string).

Definition any_of_number (o : field number) : any :=
  match o with
  | Undefined => AnyUndefined
  | Null => AnyNull
  | Val n => AnyNumber n
  end.

Definition string_of_bool (b : bool) : string := if b then "true" else "false".

(** [s.replace(/\.?0+$/, '')]: the match is the leftmost suffix made of an
    optional point and one or more zeros; it is removed. *)
Definition zeros_suffix (s : string) : bool :=
  match s with
  | EmptyString => false
  | String c s' =>
      (is_zero_char c && all_chars is_zero_char s')
      || (Ascii.eqb c "."%char && negb (String.eqb s' "") && all_chars is_zero_char s')
  end.

Fixpoint strip_zeros (s : string) : string :=
  match s with
  | EmptyString => EmptyString
  | String c s' => if zeros_suffix s then EmptyString else String c (strip_zeros s')
  end.

(** [o.toFixed(d)] on a property. *)
Definition toFixed_of (o : field number) (d : Z) : result string :=
  n <- deref o ;; toFixed n d.

Definition hundred : number := num_of_Z 100.

Module Standalone.

(** [precision = precision || 4]: an omitted or zero precision is 4. *)
Definition formatValue (value : any) (precision : option Z) : result string :=
  let precision :=
    match precision with
    | None => 4
    | Some p => if p =? 0 then 4 else p
    end in
  match value with
  | AnyNull | AnyUndefined => Ok "<em>N/A</em>"
  | AnyNumber n =>
      formatted <- toFixed n precision ;;
      Ok (strip_zeros formatted)
  | AnyBoolean b => Ok (string_of_bool b)
  | AnyObject json _ =>
      json <- json ;;
      Ok ("<pre>" ++ json ++ "</pre>")
  | AnyString s => Ok s
  end.

Definition formatPercentage (value : field number) : result string :=
  match value with
  | Null | Undefined => Ok "<em>N/A</em>"
  | Val v => s <- toFixed (num_mul v hundred) 2 ;; Ok (s ++ "%")
  end.

Definition getStatusColor (status : field string) : string :=
  let statusLower := toLowerCase (or_string status "") in
  if String.eqb statusLower "done" then "#28a745"
  else if String.eqb statusLower "training" then "#ffc107"
  else if String.eqb statusLower "failed" then "#dc3545"
  else "#6c757d".

Definition getQualityColor (assessment : field string) : result string :=
  if negb (truthy_string assessment) then Ok "#6c757d"
  else
    a <- deref assessment ;;
    let assessmentLower := toLowerCase a in
    if String.eqb assessmentLower "excellent" then Ok "#28a745"
    else if String.eqb assessmentLower "good" then Ok "#007bff"
    else if String.eqb assessmentLower "fair" then Ok "#ffc107"
    else if String.eqb assessmentLower "poor" then Ok "#fd7e14"
    else Ok "#6c757d".

Definition getSeverityColor (severity : field string) : string :=
  let severityLower := toLowerCase (or_string severity "") in
  if String.eqb severityLower "high" then "#dc3545"
  else if String.eqb severityLower "moderate" then "#ffc107"
  else if String.eqb severityLower "low" then "#007bff"
  else "#6c757d".

Definition renderModelIdentification (data : field ModelCardData) : result string :=
  mi <- get data model_identification ;;
  let mi := or_empty mi no_ModelIdentification in
  let statusColor := getStatusColor (mi_status mi) in
  sessionIdShort <-
    (if truthy_string (mi_session_id mi)
     then s <- deref (mi_session_id mi) ;; Ok (substring0 20 s)
     else Ok "N/A") ;;
  Ok (Templates.model_identification_section
        sessionIdShort
        (toUpperCase (or_string (mi_compute_cluster mi) "N/A"))
        (or_string (mi_training_date mi) "N/A")
        statusColor
        (toUpperCase (or_string (mi_status mi) "N/A"))
        (or_string (mi_job_id mi) "N/A")
        (or_string (mi_model_type mi) "N/A")
        (or_string (mi_target_column mi) "N/A")
        (or_string (mi_target_column_type mi) "N/A")
        (or_string (mi_framework mi) "N/A")).

(** [toLocaleString] formats by the host's locale; it is a parameter. *)
Definition renderTrainingDataset (toLocaleString : number -> string)
    (data : field ModelCardData) : result string :=
  td <- get data training_dataset ;;
  let td := or_empty td no_TrainingDataset in
  mi <- get data model_identification ;;
  let mi := or_empty mi no_ModelIdentification in
  Ok (Templates.training_dataset_section
        (toLocaleString (or_number (td_train_rows td) num_zero))
        (num_to_string (or_number (td_total_features td) num_zero))
        (or_string (td_target_column td) "N/A")
        (toUpperCase (or_string (mi_target_column_type mi) "N/A"))).

(** [x !== null && x !== undefined ? x.toFixed(3) : 'N/A'] *)
Definition metric_cell (x : field number) : result string :=
  if negb (is_nullish x) then toFixed_of x 3 else Ok "N/A".

Definition renderTrainingMetrics (data : field ModelCardData) : result string :=
  tm <- get data training_metrics ;;
  let tm := or_empty tm no_TrainingMetrics in
  mi <- get data model_identification ;;
  let modelType := or_string (mi_model_type (or_empty mi no_ModelIdentification)) "" in
  let html := Templates.training_metrics_open in
  html <-
    (if String.eqb modelType "Single Predictor"
        && truthy_object (tm_classification_metrics tm)
     then
       cm <- deref (tm_classification_metrics tm) ;;
       precision <- metric_cell (cm_precision cm) ;;
       recall <- metric_cell (cm_recall cm) ;;
       f1 <- metric_cell (cm_f1 cm) ;;
       auc <- metric_cell (cm_auc cm) ;;
       Ok (html ++ Templates.classification_metrics_grid precision recall f1 auc)
     else Ok html) ;;
  Ok (html ++ Templates.section_close).

(** The body of the loop over the warnings, on a warning that is an
    object; [Raw.render_warning] is the body on any entry. *)
Definition render_warning (html : string) (warning : Warning) : string :=
  let severityColor := getSeverityColor (warn_severity warning) in
  html ++ Templates.warning_item
            severityColor
            (or_string (warn_severity warning) "UNKNOWN")
            (or_string (warn_type warning) "N/A")
            (or_string (warn_message warning) "N/A").

Definition nonempty {A : Type} (o : field (list A)) : bool :=
  match o with
  | Val (_ :: _) => true
  | _ => false
  end.

Definition renderModelQuality (data : field ModelCardData) : result string :=
  mq <- get data model_quality ;;
  let mq := or_empty mq no_ModelQuality in
  let html := Templates.model_quality_open in
  html <-
    (if truthy_string (mq_assessment mq)
     then
       qualityColor <- getQualityColor (mq_assessment mq) ;;
       assessment <- deref (mq_assessment mq) ;;
       Ok (html ++ Templates.assessment_table qualityColor assessment)
     else Ok html) ;;
  html <-
    (if truthy_object (mq_warnings mq) && nonempty (mq_warnings mq)
     then
       warnings <- deref (mq_warnings mq) ;;
       let html :=
         html ++ "<h3 style=" ++ dq ++ "margin: 15px 0 10px 0; font-size: 16px;"
              ++ dq ++ ">Warnings</h3><div class=" ++ dq ++ "warnings-list" ++ dq ++ ">" in
       Ok (fold_left render_warning warnings html ++ "</div>")
     else Ok html) ;;
  Ok (html ++ Templates.section_close).

Definition two_digits (n : Z) : string := padStart0 2 (decimal_int n).

Definition dateStr (now : Date) : string :=
  decimal_int (getFullYear now) ++ "-" ++
  two_digits (getMonth now + 1) ++ "-" ++
  two_digits (getDate now) ++ " " ++
  two_digits (getHours now) ++ ":" ++
  two_digits (getMinutes now) ++ ":" ++
  two_digits (getSeconds now).

(** [renderHTML] reads the clock ([new Date()]); the reading is an input
    of the model. *)
Definition renderHTML (toLocaleString : number -> string) (now : Date)
    (modelCardJson : field ModelCardData) : result string :=
  mi <- get modelCardJson model_identification ;;
  let modelName := or_string (mi_name (or_empty mi no_ModelIdentification)) "Model Card" in
  s1 <- renderModelIdentification modelCardJson ;;
  s2 <- renderTrainingDataset toLocaleString modelCardJson ;;
  s3 <- renderTrainingMetrics modelCardJson ;;
  s4 <- renderModelQuality modelCardJson ;;
  let sections := join "" [s1; s2; s3; s4] in
  Ok (Templates.html_document modelName (toUpperCase modelName) (dateStr now) sections).

End Standalone.

(** ** Generic pieces of the JavaScript run time *)

(** [Array.prototype.sort(compare)].  The sort is stable, and [compare a b]
    is read by its sign: negative puts [a] first, positive puts [b] first,
    zero and NaN leave the two as they are.  For a comparator that is a
    consistent ordering the sorted array is unique, and it is the one
    this insertion sort computes. *)
Section Sort.
Context {A : Type}.
Variable compare : A -> A -> option comparison.

(** [b] has to come strictly before [a]. *)
Definition after (a b : A) : bool :=
  match compare a b with
  | Some Gt => true
  | _ => false
  end.

Fixpoint insert (x : A) (l : list A) : list A :=
  match l with
  | [] => [x]
  | y :: l' => if after x y then y :: insert x l' else x :: y :: l'
  end.

Definition sort (l : list A) : list A := fold_right insert [] l.
End Sort.

(** [a.slice(0, n)] *)
Definition slice0 {A : Type} (n : nat) (l : list A) : list A := firstn n l.

(** *** Objects used as maps

    The own properties of an ordinary object enumerate with the array
    indices first, in ascending numeric order, then the other string keys
    in the order they were created. *)

Fixpoint read_decimal_aux (s : string) (acc : Z) : Z :=
  match s with
  | EmptyString => acc
  | String c s' => read_decimal_aux s' (10 * acc + (Z.of_nat (nat_of_ascii c) - 48))
  end.

Definition read_decimal (s : string) : Z := read_decimal_aux s 0.

(** A canonical numeric string below 2^32 - 1. *)
Definition array_index (k : string) : option Z :=
  match k with
  | EmptyString => None
  | String c rest =>
      if all_chars is_digit k
         && (negb (Ascii.eqb c "0"%char) || String.eqb rest "")
         && (Nat.leb (String.length k) 10)
         && (read_decimal k <? 2 ^ 32 - 1)
      then Some (read_decimal k)
      else None
  end.

(** The names [Object.prototype] defines: an object literal inherits
    them, so reading one of them as a key does not give [undefined]. *)
Definition object_prototype_keys : list string :=
  [ "constructor"; "hasOwnProperty"; "isPrototypeOf"; "propertyIsEnumerable";
    "toLocaleString"; "toString"; "valueOf"; "__defineGetter__";
    "__defineSetter__"; "__lookupGetter__"; "__lookupSetter__"; "__proto__" ].

Definition inherited (k : string) : bool :=
  existsb (String.eqb k) object_prototype_keys.

Section Properties.
Context {V : Type}.

Fixpoint own (o : list (string * V)) (k : string) : option V :=
  match o with
  | [] => None
  | (k', v) :: o' => if String.eqb k k' then Some v else own o' k
  end.

Fixpoint replace (o : list (string * V)) (k : string) (v : V) : list (string * V) :=
  match o with
  | [] => []
  | (k', v') :: o' =>
      if String.eqb k k' then (k', v) :: o' else (k', v') :: replace o' k v
  end.

(** Places a new array index [n] among the indices. *)
Fixpoint create_index (o : list (string * V)) (n : Z) (k : string) (v : V)
  : list (string * V) :=
  match o with
  | [] => [(k, v)]
  | (k', v') :: o' =>
      match array_index k' with
      | Some n' =>
          if n' <? n then (k', v') :: create_index o' n k v
          else (k, v) :: (k', v') :: o'
      | None => (k, v) :: (k', v') :: o'
      end
  end.

(** [o[k] = v] on an own data property, or creating one. *)
Definition define (o : list (string * V)) (k : string) (v : V) : list (string * V) :=
  match own o k with
  | Some _ => replace o k v
  | None =>
      match array_index k with
      | Some n => create_index o n k v
      | None => o ++ [(k, v)]
      end
  end.
End Properties.

(** The property key a value converts to. *)
Definition property_key (o : field string) : string :=
  match o with
  | Undefined => "undefined"
  | Null => "null"
  | Val s => s
  end.

(** ** The React component: react/src/ModelCard.tsx *)

Module Component.

Definition COLORS_primary : string := "#333".
Definition COLORS_secondary : string := "#666".
Definition COLORS_success : string := "#28a745".
Definition COLORS_warning : string := "#ffc107".
Definition COLORS_danger : string := "#dc3545".
Definition COLORS_info : string := "#17a2b8".
Definition COLORS_dark : string := "#000".

Definition getStatusColor (status : field string) : result string :=
  s <- deref status ;;
  let statusLower := toLowerCase s in
  if String.eqb statusLower "done" then Ok COLORS_success
  else if String.eqb statusLower "training" then Ok COLORS_warning
  else if String.eqb statusLower "failed" then Ok COLORS_danger
  else Ok COLORS_dark.

Definition getQualityColor (assessment : field string) : result string :=
  if negb (truthy_string assessment) then Ok COLORS_dark
  else
    a <- deref assessment ;;
    let assessmentLower := toLowerCase a in
    if String.eqb assessmentLower "excellent" then Ok COLORS_success
    else if String.eqb assessmentLower "good" then Ok COLORS_info
    else if String.eqb assessmentLower "fair" then Ok COLORS_warning
    else if String.eqb assessmentLower "poor" then Ok "#fd7e14"
    else Ok COLORS_dark.

Definition getSeverityColor (severity : field string) : result string :=
  s <- deref severity ;;
  let severityLower := toLowerCase s in
  if String.eqb severityLower "high" then Ok COLORS_danger
  else if String.eqb severityLower "moderate" then Ok COLORS_warning
  else if String.eqb severityLower "low" then Ok COLORS_info
  else Ok COLORS_dark.

(** [precision] defaults to 4 when the argument is omitted. *)
Definition formatValue (value : any) (precision : option Z) : result string :=
  let precision := match precision with None => 4 | Some p => p end in
  match value with
  | AnyNull | AnyUndefined => Ok "N/A"
  | AnyNumber n =>
      formatted <- toFixed n precision ;;
      Ok (strip_zeros formatted)
  | AnyBoolean b => Ok (string_of_bool b)
  | AnyString s => Ok s
  | AnyObject _ text => text
  end.

(** Only [null] is tested; [undefined * 100] is NaN. *)
Definition formatPercentage (value : field number) : result string :=
  match value with
  | Null => Ok "N/A"
  | Undefined => s <- toFixed (num_mul S754_nan hundred) 2 ;; Ok (s ++ "%")
  | Val v => s <- toFixed (num_mul v hundred) 2 ;; Ok (s ++ "%")
  end.

Definition getModelTypeDisplay (modelType targetType : field string) : result string :=
  if negb (truthy_string modelType) then Ok "N/A"
  else
    m <- deref modelType ;;
    let modelTypeLower := toLowerCase m in
    let targetTypeLower := toLowerCase (or_string targetType "") in
    if String.eqb modelTypeLower "embedding space" || String.eqb modelTypeLower "es"
    then Ok "Foundational Embedding Space"
    else if String.eqb modelTypeLower "single predictor" || String.eqb modelTypeLower "sp"
    then
      if String.eqb targetTypeLower "set" then Ok "Classifier"
      else if String.eqb targetTypeLower "scalar" then Ok "Regression"
      else Ok "Single Predictor"
    else Ok m.

(** *** Chart data *)

Record MetricPoint : Type := {
  metric_name : string;
  metric_value : number
}.

(** [x !== 'Single Predictor'] *)
Definition is_not (x : field string) (s : string) : bool :=
  match x with
  | Val x' => negb (String.eqb x' s)
  | _ => true
  end.

Definition metricsChartData (data : field ModelCardData)
  : result (option (list MetricPoint)) :=
  mi <- get data model_identification ;;
  model_type <- get mi mi_model_type ;;
  if is_not model_type "Single Predictor" then Ok None
  else
    tm <- get data training_metrics ;;
    cm <- get tm tm_classification_metrics ;;
    match cm with
    | Val cm =>
        Ok (Some (filter (fun item => num_gt (metric_value item) num_zero)
          [ {| metric_name := "Accuracy"; metric_value := or_number (cm_accuracy cm) num_zero |};
            {| metric_name := "Precision"; metric_value := or_number (cm_precision cm) num_zero |};
            {| metric_name := "Recall"; metric_value := or_number (cm_recall cm) num_zero |};
            {| metric_name := "F1"; metric_value := or_number (cm_f1 cm) num_zero |};
            {| metric_name := "AUC"; metric_value := or_number (cm_auc cm) num_zero |} ]))
    | _ => Ok None
    end.

(** A value held by [typeCounts]: a count, or the text that [+ 1] makes of
    an inherited property.  Counts stay below the array length, where
    [+ 1] on doubles is exact, and are kept as integers. *)
Inductive tally : Type :=
| Count (n : Z)
| Junk (s : string).

(** [typeCounts[k]], [(v || 0) + 1] and the assignment back.  Reading an
    inherited name gives a function (an object for [__proto__]), which
    [+ 1] turns into a string: [source k] is the text the engine prints
    for it.  Assigning to [__proto__] a value that is not an object does
    nothing. *)
Definition increment (source : string -> string) (typeCounts : list (string * tally))
    (k : string) : list (string * tally) :=
  match own typeCounts k with
  | Some (Count n) => define typeCounts k (Count (n + 1))
  | Some (Junk s) => define typeCounts k (Junk (s ++ "1"))
  | None =>
      if inherited k then
        if String.eqb k "__proto__" then typeCounts
        else define typeCounts k (Junk (source k ++ "1"))
      else define typeCounts k (Count 1)
  end.

Record TypePoint : Type := {
  type_name : string;
  type_value : tally
}.

Definition featureTypeDistribution (source : string -> string)
    (data : field ModelCardData) : result (list TypePoint) :=
  inventory <- get data feature_inventory ;;
  inventory <- deref inventory ;;
  let typeCounts :=
    fold_left (fun typeCounts feat => increment source typeCounts (property_key (feat_type feat)))
      inventory [] in
  Ok (map (fun '(name, value) => {| type_name := name; type_value := value |}) typeCounts).

Record ColumnPoint : Type := {
  column_name : string;
  mutualInfo : number;
  marginalLoss : number
}.

(** [(a, b) => b.mutualInfo - a.mutualInfo] *)
Definition by_mutual_info (a b : ColumnPoint) : option comparison :=
  num_sub_sign (mutualInfo b) (mutualInfo a).

Definition columnStatisticsData (data : field ModelCardData)
  : result (option (list ColumnPoint)) :=
  cs <- get data column_statistics ;;
  match cs with
  | Val entries =>
      Ok (Some (slice0 10 (sort by_mutual_info
        (map (fun '(name, stats) =>
                {| column_name := name;
                   mutualInfo := or_number (cs_mutual_information_bits stats) num_zero;
                   marginalLoss := or_number (cs_marginal_loss stats) num_zero |})
             entries))))
  | _ => Ok None
  end.
(** The style sheet of the component, a template over two colours. *)
Definition style_sheet (primary warning : string) : string :=
"
        .model-card {
          font-family: -apple-system, BlinkMacSystemFont, 'Segoe UI', Roboto, 'Helvetica Neue', Arial, sans-serif;
          max-width: 1400px;
          margin: 0 auto;
          padding: 20px;
          background: #f5f5f5;
          color: #000;
        }
        
        .model-card * {
          color: #000;
        }
        
        .model-card-header {
          background: #000;
          color: white;
          padding: 30px;
          border-radius: 8px;
          margin-bottom: 20px;
        }
        
        .model-card-header h1 {
          margin: 0 0 10px 0;
          font-size: 32px;
          color: white;
        }
        
        .model-card-header div {
          color: white;
        }
        
        .model-card-controls {
          display: flex;
          gap: 10px;
          margin-bottom: 20px;
          color: #000;
        }
        
        .model-card-controls button {
          padding: 8px 16px;
          background: " ++ primary ++ ";
          color: white;
          border: none;
          border-radius: 4px;
          cursor: pointer;
          font-size: 14px;
        }
        
        .model-card-controls button:hover {
          background: #5568d3;
          color: white;
        }
        
        .model-card-section {
          background: white;
          border-radius: 8px;
          margin-bottom: 20px;
          box-shadow: 0 2px 4px rgba(0,0,0,0.1);
          border: 3px double " ++ primary ++ ";
          color: #000;
        }
        
        .section-header {
          padding: 20px;
          display: flex;
          justify-content: space-between;
          align-items: center;
          border-bottom: 2px solid " ++ primary ++ ";
          color: #000;
        }
        
        .section-header h2 {
          margin: 0;
          font-size: 20px;
          color: #000;
        }
        
        .toggle-icon {
          font-size: 12px;
          color: #000;
        }
        
        .section-content {
          padding: 20px;
          color: #000;
        }
        
        .metrics-grid {
          display: grid;
          grid-template-columns: repeat(auto-fit, minmax(200px, 1fr));
          gap: 15px;
          margin: 20px 0;
          color: #000;
        }
        
        .metric-card {
          background: #f8f9fa;
          padding: 15px;
          border-radius: 5px;
          border-left: 4px solid " ++ primary ++ ";
          color: #000;
        }
        
        .metric-label {
          font-size: 12px;
          color: #000;
          text-transform: uppercase;
          letter-spacing: 0.5px;
          margin-bottom: 5px;
        }
        
        .metric-value {
          font-size: 24px;
          font-weight: bold;
          color: #000;
        }
        
        .info-table {
          width: 100%;
          border-collapse: collapse;
          margin: 15px 0;
          color: #000;
        }
        
        .info-table th {
          text-align: left;
          padding: 10px;
          background: #f8f9fa;
          font-weight: 600;
          width: 200px;
          border-bottom: 1px solid #ddd;
          color: #000;
        }
        
        .info-table td {
          padding: 10px;
          border-bottom: 1px solid #ddd;
          color: #000;
        }
        
        .data-table {
          width: 100%;
          border-collapse: collapse;
          margin: 15px 0;
          font-size: 14px;
          color: #000;
        }
        
        .data-table th {
          background: #333;
          color: white;
          padding: 12px;
          text-align: left;
          font-weight: 600;
        }
        
        .data-table td {
          padding: 10px 12px;
          border-bottom: 1px solid #ddd;
          color: #000;
        }
        
        .data-table tr:hover {
          background: #f8f9fa;
          color: #000;
        }
        
        .tag-list {
          display: flex;
          flex-wrap: wrap;
          gap: 8px;
          margin-top: 10px;
          color: #000;
        }
        
        .tag {
          display: inline-block;
          padding: 4px 12px;
          background: #f0f0f0;
          color: #000;
          border: 1px solid #ccc;
          border-radius: 12px;
          font-size: 12px;
        }
        
        .badge {
          display: inline-block;
          padding: 4px 12px;
          color: white;
          border-radius: 12px;
          font-size: 12px;
          font-weight: 600;
        }
        
        .warning-item {
          padding: 15px;
          margin-bottom: 15px;
          background: #fff3cd;
          border-left: 4px solid " ++ warning ++ ";
          border-radius: 4px;
          color: #000;
        }
        
        .warning-header {
          display: flex;
          align-items: center;
          gap: 10px;
          margin-bottom: 10px;
          color: #000;
        }
        
        .warning-message {
          color: #000;
        }
        
        .chart-container {
          margin: 20px 0;
          padding: 20px;
          background: #f8f9fa;
          border-radius: 5px;
          color: #000;
        }
        
        h3 {
          color: #000;
        }
        
        strong {
          color: #000;
        }
        
        em {
          color: #000;
        }
        
        code {
          color: #000;
        }
        
        li {
          color: #000;
        }
        
        ul {
          color: #000;
        }
      ".

(** *** The element tree

    What the component function returns.  Function-valued props are kept
    by name: the three click handlers as the state change they make, the
    two chart callbacks as [PFormat]. *)

Inductive action : Type :=
| ToggleSection (sectionId : string)
| ExpandAll
| CollapseAll.

Inductive callback : Type :=
| TooltipPercentage
| PieLabel.

Inductive prop : Type :=
| PStr (s : string)
| PNum (n : number)
| PBool (b : bool)
| PNums (l : list number)
| PStyle (declarations : list (string * prop))
| PClick (a : action)
| PFormat (f : callback)
| PMetrics (points : list MetricPoint)
| PTypes (points : list TypePoint)
| PColumns (points : list ColumnPoint).

(** A child that is [false], [null] or [undefined] renders nothing:
    [Nothing].  [Items] is an array of children or a fragment. *)
Inductive node : Type :=
| Element (tag : string) (props : list (string * prop)) (children : list node)
| Text (s : string)
| Num (n : number)
| Nothing
| Items (l : list node).

Definition el (tag className : string) (children : list node) : node :=
  Element tag [("className", PStr className)] children.

Definition tag (name : string) (children : list node) : node :=
  Element name [] children.

(** A property used as a child. *)
Definition text_of (o : field string) : node :=
  match o with
  | Val s => Text s
  | _ => Nothing
  end.

Definition num_of (o : field number) : node :=
  match o with
  | Val n => Num n
  | _ => Nothing
  end.

(** [o || 'N/A'] as a child *)
Definition text_or (o : field string) (d : string) : node := Text (or_string o d).

(** [o ?? 'N/A'] as a child *)
Definition num_or (o : field number) (d : string) : node :=
  match o with
  | Val n => Num n
  | _ => Text d
  end.

(** [s && (...)] for a string [s]: the block when [s] is truthy; a falsy
    [s] is itself the child, and renders nothing. *)
Definition when_string (s : field string) (block : node) : node :=
  if truthy_string s then block else text_of s.

Fixpoint mapi_from {A B : Type} (i : nat) (f : nat -> A -> B) (l : list A) : list B :=
  match l with
  | [] => []
  | a :: l' => f i a :: mapi_from (S i) f l'
  end.

(** [l.map((x, idx) => ...)] *)
Definition mapi {A B : Type} (f : nat -> A -> B) (l : list A) : list B :=
  mapi_from 0 f l.

Definition sequence {A : Type} (l : list (result A)) : result (list A) :=
  mapM (fun r => r) l.

Definition row (th : list (string * prop)) (label : string) (cell : list node) : node :=
  tag "tr" [Element "th" th [Text label]; tag "td" cell].

(** *** State: the set of expanded sections *)

Definition initial_expanded : list string :=
  ["model-identification"; "training-metrics"; "model-quality"].

Definition all_sections : list string :=
  [ "model-identification"; "training-dataset"; "feature-inventory";
    "training-configuration"; "training-metrics"; "model-architecture";
    "model-quality"; "technical-details"; "provenance"; "column-statistics" ].

Definition has (set : list string) (k : string) : bool := existsb (String.eqb k) set.

Definition toggleSection (prev : list string) (sectionId : string) : list string :=
  if has prev sectionId
  then filter (fun k => negb (String.eqb k sectionId)) prev
  else prev ++ [sectionId].

Definition perform (a : action) (expandedSections : list string) : list string :=
  match a with
  | ToggleSection sectionId => toggleSection expandedSections sectionId
  | ExpandAll => all_sections
  | CollapseAll => []
  end.

Definition renderSection (expandedSections : list string)
    (id title : string) (content : node) (defaultOpen : bool) : node :=
  let isOpen := has expandedSections id in
  Element "div" [("className", PStr "model-card-section"); ("key", PStr id)]
    [ Element "div"
        [ ("className", PStr "section-header");
          ("onClick", PClick (ToggleSection id));
          ("style", PStyle [("cursor", PStr "pointer")]) ]
        [ tag "h2" [Text title];
          el "span" "toggle-icon" [Text (if isOpen then "▼" else "▶")] ];
      if isOpen then el "div" "section-content" [content] else Nothing ].

(** *** Arithmetic of the training duration *)

(** [Math.floor(x)] *)
Definition num_floor (x : number) : number :=
  match x with
  | S754_finite s m e =>
      let q := if s then Qopp (magnitude m e) else magnitude m e in
      match Qfloor q with
      | Z0 => S754_zero s
      | z => num_of_Z z
      end
  | _ => x
  end.

(** [x % 60]: the remainder has the sign of [x] and is exact. *)
Definition num_mod60 (x : number) : number :=
  match x with
  | S754_finite s m e =>
      let r :=
        if 0 <=? e then binary_normalize prec emax ((Zpos m * 2 ^ e) mod 60) 0 s
        else binary_normalize prec emax (Zpos m mod (60 * 2 ^ (- e))) e s in
      match r with
      | S754_finite _ m' e' => S754_finite s m' e'
      | S754_zero _ => S754_zero s
      | other => other
      end
  | S754_zero _ => x
  | _ => S754_nan
  end.

Definition sixty : number := num_of_Z 60.

Definition get2 {R S A : Type} (o : field R) (p : R -> field S) (q : S -> field A)
  : result (field A) :=
  x <- get o p ;; get x q.

Definition get3 {R S T A : Type} (o : field R) (p : R -> field S) (q : S -> field T)
    (r : T -> field A) : result (field A) :=
  x <- get2 o p q ;; get x r.

Definition metric_card (label : list (string * prop)) (name : string)
    (value : list (string * prop)) (content : list node) : node :=
  el "div" "metric-card"
    [ Element "div" (("className", PStr "metric-label") :: label) [Text name];
      Element "div" (("className", PStr "metric-value") :: value) content ].

Definition header (data : field ModelCardData) : result node :=
  name <- get2 data model_identification mi_name ;;
  model_type <- get2 data model_identification mi_model_type ;;
  status <- get2 data model_identification mi_status ;;
  training_date <- get2 data model_identification mi_training_date ;;
  Ok (el "div" "model-card-header"
        [ tag "h1" [Text "Model Card: "; text_of name];
          Element "div" [("style", PStyle [("opacity", PNum (num_of_decimal 9 1))])]
            [ text_of model_type; Text " • "; text_of status; Text " •"; Text " ";
              text_of training_date ] ]).

Definition controls : node :=
  el "div" "model-card-controls"
    [ Element "button" [("onClick", PClick ExpandAll)] [Text "Expand All"];
      Element "button" [("onClick", PClick CollapseAll)] [Text "Collapse All"] ].

Definition big_bold : list (string * prop) :=
  [("style", PStyle [("fontSize", PStr "20px"); ("fontWeight", PStr "bold")])].

Definition model_identification_content (data : field ModelCardData) : result node :=
  target_column <- get2 data model_identification mi_target_column ;;
  model_type <- get2 data model_identification mi_model_type ;;
  target_column_type <- get2 data model_identification mi_target_column_type ;;
  display <- getModelTypeDisplay model_type target_column_type ;;
  status <- get2 data model_identification mi_status ;;
  statusColor <- getStatusColor status ;;
  training_date <- get2 data model_identification mi_training_date ;;
  session_id <- get2 data model_identification mi_session_id ;;
  session_id <- deref session_id ;;
  compute_cluster <- get2 data model_identification mi_compute_cluster ;;
  job_id <- get2 data model_identification mi_job_id ;;
  framework <- get2 data model_identification mi_framework ;;
  Ok (tag "div"
    [ el "div" "metrics-grid"
        [ metric_card [] "Target Column" big_bold [text_or target_column "N/A"];
          metric_card [] "Model Type" big_bold [Text display];
          metric_card [] "Status" []
            [ Element "span"
                [ ("className", PStr "badge");
                  ("style", PStyle [("backgroundColor", PStr statusColor)]) ]
                [text_of status] ];
          metric_card [] "Training Date" [("style", PStyle [("fontSize", PStr "18px")])]
            [text_of training_date] ];
      el "table" "info-table"
        [ tag "tbody"
            [ row [("style", PStyle [("width", PStr "250px")])] "Session ID"
                [tag "code" [Text (substring0 20 session_id)]];
              row [] "Compute Cluster" [text_of compute_cluster];
              row [] "Job ID" [tag "code" [text_of job_id]];
              row [] "Target Type" [Text (toUpperCase (or_string target_column_type "N/A"))];
              row [] "Framework" [text_of framework] ] ] ]).

Definition bar_chart_of_metrics (points : list MetricPoint) : node :=
  el "div" "chart-container"
    [ tag "h3" [Text "Metrics Visualization"];
      Element "ResponsiveContainer" [("width", PStr "100%"); ("height", PNum (num_of_Z 300))]
        [ Element "BarChart" [("data", PMetrics points)]
            [ Element "CartesianGrid" [("strokeDasharray", PStr "3 3")] [];
              Element "XAxis" [("dataKey", PStr "name")] [];
              Element "YAxis" [("domain", PNums [num_of_Z 0; num_of_Z 1])] [];
              Element "Tooltip" [("formatter", PFormat TooltipPercentage)] [];
              Element "Bar" [("dataKey", PStr "value"); ("fill", PStr "#333")] [] ] ] ].

Definition classification_metrics_block (metricsChartData : option (list MetricPoint))
    (cm : ClassificationMetrics) : result node :=
  precision <- formatValue (any_of_number (cm_precision cm)) (Some 3) ;;
  recall <- formatValue (any_of_number (cm_recall cm)) (Some 3) ;;
  f1 <- formatValue (any_of_number (cm_f1 cm)) (Some 3) ;;
  auc <- formatValue (any_of_number (cm_auc cm)) (Some 3) ;;
  Ok (tag "div"
    [ tag "h3" [Text "Classification Metrics"];
      el "div" "metrics-grid"
        [ metric_card [("title", PStr "How often we are correct when we raise an alert")]
            "Precision" [] [Text precision];
          metric_card [("title", PStr "How many true rare events we catch")]
            "Recall" [] [Text recall];
          metric_card [] "F1 Score" [] [Text f1];
          metric_card [] "AUC" [] [Text auc] ];
      match metricsChartData with
      | Some (p :: points) => bar_chart_of_metrics (p :: points)
      | _ => Nothing
      end ]).

Definition optimal_threshold_block (ot : OptimalThreshold) : result node :=
  threshold <- formatValue (any_of_number (ot_optimal_threshold ot)) None ;;
  f1 <- formatPercentage (ot_optimal_threshold_f1 ot) ;;
  accuracy <- formatPercentage (ot_accuracy_at_optimal_threshold ot) ;;
  Ok (tag "div"
    [ tag "h3" [Text "Optimal Threshold"];
      el "table" "info-table"
        [ tag "tbody"
            [ row [] "Optimal Threshold" [Text threshold];
              row [] "Positive Label" [text_or (ot_pos_label ot) "N/A"];
              row [] "F1 at Optimal Threshold" [Text f1];
              row [] "Accuracy at Optimal Threshold" [Text accuracy] ] ] ]).

(** [o && (...)] for an object [o]: the block when [o] is an object, and
    nothing to render otherwise. *)
Definition when_object {A : Type} (o : field A) (block : A -> result node) : result node :=
  match o with
  | Val a => block a
  | _ => Ok Nothing
  end.

Definition training_metrics_content (metricsChartData : option (list MetricPoint))
    (data : field ModelCardData) : result node :=
  epoch <- get3 data training_metrics tm_best_epoch be_epoch ;;
  validation_loss <- get3 data training_metrics tm_best_epoch be_validation_loss ;;
  validation_loss <- formatValue (any_of_number validation_loss) None ;;
  train_loss <- get3 data training_metrics tm_best_epoch be_train_loss ;;
  train_loss <- formatValue (any_of_number train_loss) None ;;
  cm <- get2 data training_metrics tm_classification_metrics ;;
  classification <- when_object cm (classification_metrics_block metricsChartData) ;;
  ot <- get2 data training_metrics tm_optimal_threshold ;;
  threshold <- when_object ot optimal_threshold_block ;;
  Ok (tag "div"
    [ tag "div"
        [ tag "h3" [Text "Best Epoch"];
          el "table" "info-table"
            [ tag "tbody"
                [ row [] "Epoch" [num_of epoch];
                  row [] "Validation Loss" [Text validation_loss];
                  row [] "Train Loss" [Text train_loss] ] ] ];
      classification;
      threshold ]).

Definition badge (color : string) (content : node) : node :=
  Element "span"
    [("className", PStr "badge"); ("style", PStyle [("backgroundColor", PStr color)])]
    [content].

Definition recommendation_item (idx : nat) (rec : Recommendation) : node :=
  Element "li"
    [ ("key", PNum (num_of_Z (Z.of_nat idx)));
      ("style", PStyle [("marginBottom", PStr "10px")]) ]
    [ tag "strong" [Text "Issue:"]; Text " "; text_of (rec_issue rec);
      tag "br" [];
      tag "strong" [Text "Suggestion:"]; Text " "; text_of (rec_suggestion rec) ].

Definition warning_item (idx : nat) (warning : Warning) : result node :=
  severityColor <- getSeverityColor (warn_severity warning) ;;
  Ok (Element "div"
    [("key", PNum (num_of_Z (Z.of_nat idx))); ("className", PStr "warning-item")]
    [ el "div" "warning-header"
        [ badge severityColor (text_of (warn_severity warning));
          tag "strong" [text_of (warn_type warning)] ];
      tag "div" [text_of (warn_message warning)];
      when_string (warn_recommendation warning)
        (Element "div" [("style", PStyle [("marginTop", PStr "10px")])]
           [ tag "strong" [Text "Recommendation:"]; Text " ";
             text_of (warn_recommendation warning) ]) ]).

Definition model_quality_content (data : field ModelCardData) : result node :=
  assessment <- get2 data model_quality mq_assessment ;;
  assessment_block <-
    (if truthy_string assessment
     then
       color <- getQualityColor assessment ;;
       Ok (tag "div" [tag "h3" [Text "Assessment"]; badge color (text_of assessment)])
     else Ok (text_of assessment)) ;;
  recommendations <- get2 data model_quality mq_recommendations ;;
  let recommendations_block :=
    match recommendations with
    | Val (r :: rs) =>
        tag "div"
          [ tag "h3" [Text "Recommendations"];
            tag "ul" [Items (mapi recommendation_item (r :: rs))] ]
    | _ => Nothing
    end in
  warnings <- get2 data model_quality mq_warnings ;;
  warnings <- deref warnings ;;
  warnings_block <-
    match warnings with
    | w :: ws =>
        items <- sequence (mapi warning_item (w :: ws)) ;;
        Ok (tag "div" [tag "h3" [Text "Warnings"]; Items items])
    | [] => Ok Nothing
    end ;;
  Ok (tag "div" [assessment_block; recommendations_block; warnings_block]).

Definition pie_fills : list string := ["#333"; "#666"; "#999"; COLORS_warning].

Definition cell (index : nat) (entry : TypePoint) : node :=
  Element "Cell"
    [ ("key", PStr ("cell-" ++ decimal (Z.of_nat index)));
      ("fill", PStr (nth (index mod 4) pie_fills "")) ]
    [].

Definition pie_chart (featureTypeDistribution : list TypePoint) : node :=
  el "div" "chart-container"
    [ tag "h3" [Text "Feature Type Distribution"];
      Element "ResponsiveContainer" [("width", PStr "100%"); ("height", PNum (num_of_Z 300))]
        [ tag "PieChart"
            [ Element "Pie"
                [ ("data", PTypes featureTypeDistribution);
                  ("cx", PStr "50%"); ("cy", PStr "50%");
                  ("labelLine", PBool false);
                  ("label", PFormat PieLabel);
                  ("outerRadius", PNum (num_of_Z 80));
                  ("fill", PStr "#8884d8");
                  ("dataKey", PStr "value") ]
                [Items (mapi cell featureTypeDistribution)];
              tag "Tooltip" [] ] ] ].

(** [key={name}]: an [undefined] key is no key. *)
Definition key_of (o : field string) : list (string * prop) :=
  match o with
  | Undefined => []
  | Null => [("key", PStr "null")]
  | Val s => [("key", PStr s)]
  end.

Definition training_dataset_content (toLocaleString : number -> string)
    (featureTypeDistribution : list TypePoint) (data : field ModelCardData)
  : result node :=
  train_rows <- get2 data training_dataset td_train_rows ;;
  train_rows <- deref train_rows ;;
  val_rows <- get2 data training_dataset td_val_rows ;;
  val_rows <- deref val_rows ;;
  total_rows <- get2 data training_dataset td_total_rows ;;
  total_rows <- deref total_rows ;;
  total_features <- get2 data training_dataset td_total_features ;;
  feature_names <- get2 data training_dataset td_feature_names ;;
  feature_names <- deref feature_names ;;
  Ok (tag "div"
    [ el "div" "metrics-grid"
        [ metric_card [] "Training Rows" [] [Text (toLocaleString train_rows)];
          metric_card [] "Validation Rows" [] [Text (toLocaleString val_rows)];
          metric_card [] "Total Rows" [] [Text (toLocaleString total_rows)];
          metric_card [] "Total Features" [] [num_of total_features] ];
      tag "div"
        [ tag "h3" [Text "Feature Names"];
          el "div" "tag-list"
            [Items (map (fun name =>
                      Element "span" [("key", PStr name); ("className", PStr "tag")]
                        [Text name]) feature_names)] ];
      match featureTypeDistribution with
      | _ :: _ => pie_chart featureTypeDistribution
      | [] => Nothing
      end ]).

(** [values.slice(0, 3).join(', ')] and the count of the rest *)
Definition sample_text (values : list string) : string :=
  join ", " (slice0 3 values) ++
  (if Nat.ltb 3 (List.length values)
   then " (+" ++ decimal (Z.of_nat (List.length values - 3)) ++ " more)"
   else "").

Definition statistics_cell (st : Statistics) : result node :=
  vmin <- formatValue (any_of_number (st_min st)) None ;;
  vmax <- formatValue (any_of_number (st_max st)) None ;;
  vmean <- formatValue (any_of_number (st_mean st)) None ;;
  vstd <- formatValue (any_of_number (st_std st)) None ;;
  vmedian <- formatValue (any_of_number (st_median st)) None ;;
  Ok (tag "div"
    [ Text "Min: "; Text vmin; Text ", Max: "; Text vmax;
      tag "br" [];
      Text "Mean: "; Text vmean; Text ", Std: "; Text vstd;
      tag "br" [];
      Text "Median: "; Text vmedian ]).

Definition feature_row (feat : Feature) : result node :=
  statistics <-
    match feat_statistics feat with
    | Val st => statistics_cell st
    | _ => Ok (Text "N/A")
    end ;;
  Ok (Element "tr" (key_of (feat_name feat))
    [ tag "td" [tag "strong" [text_of (feat_name feat)]];
      tag "td" [text_of (feat_type feat)];
      tag "td" [text_of (feat_encoder_type feat)];
      tag "td" [num_or (feat_unique_values feat) "N/A"];
      tag "td"
        [ match feat_sample_values feat with
          | Val values => Text (sample_text values)
          | _ => Text "N/A"
          end ];
      tag "td" [statistics] ]).

Definition table_head (columns : list string) : node :=
  tag "thead" [tag "tr" (map (fun c => tag "th" [Text c]) columns)].

Definition feature_inventory_content (data : field ModelCardData) : result node :=
  inventory <- get data feature_inventory ;;
  inventory <- deref inventory ;;
  rows <- mapM feature_row inventory ;;
  Ok (tag "div"
    [ el "table" "data-table"
        [ table_head ["Name"; "Type"; "Encoder"; "Unique Values"; "Sample Values"; "Statistics"];
          tag "tbody" [Items rows] ] ]).

(** [String(b)] *)
Definition String_of_bool (o : field bool) : string :=
  match o with
  | Undefined => "undefined"
  | Null => "null"
  | Val b => string_of_bool b
  end.

Definition dropout_rows (ds : DropoutSchedule) : result node :=
  initial <- formatValue (any_of_number (ds_initial ds)) None ;;
  final <- formatValue (any_of_number (ds_final ds)) None ;;
  Ok (Items
    [ row [] "Dropout Enabled" [Text (String_of_bool (ds_enabled ds))];
      row [] "Dropout Initial" [Text initial];
      row [] "Dropout Final" [Text final] ]).

Definition training_configuration_content (data : field ModelCardData) : result node :=
  epochs_total <- get2 data training_configuration tc_epochs_total ;;
  best_epoch <- get2 data training_configuration tc_best_epoch ;;
  d_model <- get2 data training_configuration tc_d_model ;;
  batch_size <- get2 data training_configuration tc_batch_size ;;
  learning_rate <- get2 data training_configuration tc_learning_rate ;;
  learning_rate <- formatValue (any_of_number learning_rate) None ;;
  optimizer <- get2 data training_configuration tc_optimizer ;;
  dropout_schedule <- get2 data training_configuration tc_dropout_schedule ;;
  dropout <- when_object dropout_schedule dropout_rows ;;
  Ok (tag "div"
    [ el "table" "info-table"
        [ tag "tbody"
            [ row [] "Total Epochs" [num_of epochs_total];
              row [] "Best Epoch" [num_of best_epoch];
              row [] "d_model" [num_of d_model];
              row [] "Batch Size" [num_or batch_size "N/A"];
              row [] "Learning Rate" [Text learning_rate];
              row [] "Optimizer" [text_of optimizer];
              dropout ] ] ]).

(** [x !== null && (...)]: only [null] is tested, [undefined] passes. *)
Definition unless_null {A : Type} (o : field A) (block : field A -> result node)
  : result node :=
  match o with
  | Null => Ok Nothing
  | _ => block o
  end.

Definition model_architecture_content (toLocaleString : number -> string)
    (data : field ModelCardData) : result node :=
  predictor_layers <- get2 data model_architecture ma_predictor_layers ;;
  layers <- unless_null predictor_layers
              (fun o => Ok (row [] "Predictor Layers" [num_of o])) ;;
  predictor_parameters <- get2 data model_architecture ma_predictor_parameters ;;
  parameters <- unless_null predictor_parameters
                  (fun o => n <- deref o ;;
                            Ok (row [] "Predictor Parameters" [Text (toLocaleString n)])) ;;
  embedding_space_d_model <- get2 data model_architecture ma_embedding_space_d_model ;;
  d_model <- unless_null embedding_space_d_model
               (fun o => Ok (row [] "Embedding Space d_model" [num_of o])) ;;
  Ok (tag "div"
    [el "table" "info-table" [tag "tbody" [layers; parameters; d_model]]]).

Definition technical_details_content (data : field ModelCardData) : result node :=
  pytorch_version <- get2 data technical_details tech_pytorch_version ;;
  device <- get2 data technical_details tech_device ;;
  precision <- get2 data technical_details tech_precision ;;
  loss_function <- get2 data technical_details tech_loss_function ;;
  normalization <- get2 data technical_details tech_normalization ;;
  Ok (tag "div"
    [ el "table" "info-table"
        [ tag "tbody"
            [ row [] "PyTorch Version" [text_of pytorch_version];
              row [] "Device" [text_of device];
              row [] "Precision" [text_of precision];
              row [] "Loss Function" [text_of loss_function];
              when_string normalization (row [] "Normalization" [text_of normalization]) ] ] ]).

Definition duration_row (o : field number) : result node :=
  let hours :=
    match o with
    | Val x => num_floor (num_div x sixty)
    | _ => S754_nan
    end in
  let minutes :=
    match o with
    | Val x => num_floor (num_mod60 x)
    | _ => S754_nan
    end in
  total <- toFixed_of o 2 ;;
  Ok (row [] "Training Duration"
        [Num hours; Text "h"; Text " "; Num minutes; Text "m ("; Text total; Text " minutes)"]).

Definition provenance_content (data : field ModelCardData) : result node :=
  created_at <- get2 data provenance prov_created_at ;;
  training_duration_minutes <- get2 data provenance prov_training_duration_minutes ;;
  duration <- unless_null training_duration_minutes duration_row ;;
  Ok (tag "div"
    [ el "table" "info-table"
        [tag "tbody" [row [] "Created At" [text_of created_at]; duration]] ]).

Definition bar_chart_of_columns (points : list ColumnPoint) : node :=
  Element "ResponsiveContainer" [("width", PStr "100%"); ("height", PNum (num_of_Z 400))]
    [ Element "BarChart" [("data", PColumns points)]
        [ Element "CartesianGrid" [("strokeDasharray", PStr "3 3")] [];
          Element "XAxis"
            [ ("dataKey", PStr "name"); ("angle", PNum (num_of_Z (-45)));
              ("textAnchor", PStr "end"); ("height", PNum (num_of_Z 100)) ] [];
          tag "YAxis" [];
          tag "Tooltip" [];
          tag "Legend" [];
          Element "Bar"
            [ ("dataKey", PStr "mutualInfo"); ("fill", PStr "#333");
              ("name", PStr "Mutual Information (bits)") ] [] ] ].

Definition column_row (entry : string * ColumnStats) : result node :=
  let '(name, stats) := entry in
  mutual_information_bits <- formatValue (any_of_number (cs_mutual_information_bits stats)) None ;;
  marginal_loss <- formatValue (any_of_number (cs_marginal_loss stats)) None ;;
  Ok (Element "tr" [("key", PStr name)]
    [ tag "td" [tag "strong" [Text name]];
      tag "td" [Text mutual_information_bits];
      tag "td" [Text marginal_loss] ]).

Definition column_statistics_content (columnStatisticsData : option (list ColumnPoint))
    (entries : list (string * ColumnStats)) : result node :=
  rows <- mapM column_row entries ;;
  Ok (tag "div"
    [ el "div" "chart-container"
        [ tag "h3" [Text "Mutual Information by Column"];
          match columnStatisticsData with
          | Some points => bar_chart_of_columns points
          | None => Nothing
          end ];
      el "table" "data-table"
        [ table_head ["Column"; "Mutual Information (bits)"; "Marginal Loss"];
          tag "tbody" [Items rows] ] ]).

(** [data.column_statistics && Object.keys(data.column_statistics).length > 0
    && renderSection(...)] *)
Definition column_statistics_section (expandedSections : list string)
    (columnStatisticsData : option (list ColumnPoint)) (data : field ModelCardData)
  : result node :=
  cs <- get data column_statistics ;;
  match cs with
  | Val (e :: entries) =>
      content <- column_statistics_content columnStatisticsData (e :: entries) ;;
      Ok (renderSection expandedSections "column-statistics" "Column Statistics" content false)
  | _ => Ok Nothing
  end.

(** The component.  [useState] holds [expandedSections]; the three
    [useMemo] values are computed first.  [source] and [toLocaleString]
    belong to the host. *)
Definition ModelCard (source : string -> string) (toLocaleString : number -> string)
    (expandedSections : list string) (data : field ModelCardData)
    (className : option string) : result node :=
  let className := match className with Some c => c | None => "" end in
  metricsChartData <- metricsChartData data ;;
  featureTypeDistribution <- featureTypeDistribution source data ;;
  columnStatisticsData <- columnStatisticsData data ;;
  let section := renderSection expandedSections in
  head <- header data ;;
  c1 <- model_identification_content data ;;
  c2 <- training_metrics_content metricsChartData data ;;
  c3 <- model_quality_content data ;;
  c4 <- training_dataset_content toLocaleString featureTypeDistribution data ;;
  c5 <- feature_inventory_content data ;;
  c6 <- training_configuration_content data ;;
  c7 <- model_architecture_content toLocaleString data ;;
  c8 <- technical_details_content data ;;
  c9 <- provenance_content data ;;
  c10 <- column_statistics_section expandedSections columnStatisticsData data ;;
  Ok (el "div" ("model-card " ++ className)
    [ tag "style" [Text (style_sheet COLORS_primary COLORS_warning)];
      head;
      controls;
      section "model-identification" "Model Identification" c1 true;
      section "training-metrics" "Model Performance Metrics" c2 true;
      section "model-quality" "Model Quality" c3 true;
      section "training-dataset" "Training Dataset" c4 false;
      section "feature-inventory" "Feature Inventory" c5 false;
      section "training-configuration" "Training Configuration" c6 false;
      section "model-architecture" "Model Architecture" c7 false;
      section "technical-details" "Technical Details" c8 false;
      section "provenance" "Provenance" c9 false;
      c10 ]).

End Component.

(** ** Entries that are null

    JSON lets an entry of an array, and the value under a key of an object
    used as a map, be [null].  The records of the section on documents
    hold the entries of [feature_inventory], [recommendations] and
    [warnings], and the values of [column_statistics], as objects, which
    is what the schema declares; the two records below hold them as
    properties, so that an entry may be [null] (or [undefined], which a
    caller in JavaScript can put there).  Both renderers read a property
    of each entry without a test: on an entry that is [null] the read
    throws.  (The entries of [feature_names] and [sample_values] are shown
    as they are; no property of them is read.)

    The functions of [Standalone] and [Component] are the renderers on
    the documents whose entries are objects; the functions of [Raw] below
    are the same lines of the sources on all documents. *)

Record RawModelQuality : Type := {
  raw_assessment : field string;
  raw_recommendations : field (list (field Recommendation));
  raw_warnings : field (list (field Warning));
  raw_training_quality_warning : field string
}.

Record RawModelCardData : Type := {
  raw_model_identification : field ModelIdentification;
  raw_training_dataset : field TrainingDataset;
  raw_feature_inventory : field (list (field Feature));
  raw_training_configuration : field TrainingConfiguration;
  raw_training_metrics : field TrainingMetrics;
  raw_model_architecture : field ModelArchitecture;
  raw_model_quality : field RawModelQuality;
  raw_technical_details : field TechnicalDetails;
  raw_provenance : field Provenance;
  raw_column_statistics : field (list (string * field ColumnStats))
}.

Definition no_RawModelQuality : RawModelQuality :=
  {| raw_assessment := Undefined; raw_recommendations := Undefined;
     raw_warnings := Undefined; raw_training_quality_warning := Undefined |}.

(** The entries that are objects. *)
Definition objects {A : Type} (entries : list (field A)) : list A :=
  flat_map (fun entry => match entry with Val a => [a] | _ => [] end) entries.

Definition object_values {A : Type} (entries : list (string * field A))
  : list (string * A) :=
  flat_map (fun '(name, value) =>
              match value with Val a => [(name, a)] | _ => [] end) entries.

(** The document without its null entries: every property outside the
    four lists is as it was. *)
Definition without_null_entries (r : RawModelCardData) : ModelCardData :=
  {| model_identification := raw_model_identification r;
     training_dataset := raw_training_dataset r;
     feature_inventory := field_map objects (raw_feature_inventory r);
     training_configuration := raw_training_configuration r;
     training_metrics := raw_training_metrics r;
     model_architecture := raw_model_architecture r;
     model_quality :=
       field_map
         (fun mq =>
            {| mq_assessment := raw_assessment mq;
               mq_recommendations := field_map objects (raw_recommendations mq);
               mq_warnings := field_map objects (raw_warnings mq);
               mq_training_quality_warning := raw_training_quality_warning mq |})
         (raw_model_quality r);
     technical_details := raw_technical_details r;
     provenance := raw_provenance r;
     column_statistics := field_map object_values (raw_column_statistics r) |}.

(** A document whose entries are objects, among all documents. *)
Definition with_entries (d : ModelCardData) : RawModelCardData :=
  {| raw_model_identification := model_identification d;
     raw_training_dataset := training_dataset d;
     raw_feature_inventory := field_map (map Val) (feature_inventory d);
     raw_training_configuration := training_configuration d;
     raw_training_metrics := training_metrics d;
     raw_model_architecture := model_architecture d;
     raw_model_quality :=
       field_map
         (fun mq =>
            {| raw_assessment := mq_assessment mq;
               raw_recommendations := field_map (map Val) (mq_recommendations mq);
               raw_warnings := field_map (map Val) (mq_warnings mq);
               raw_training_quality_warning := mq_training_quality_warning mq |})
         (model_quality d);
     raw_technical_details := technical_details d;
     raw_provenance := provenance d;
     raw_column_statistics :=
       field_map (map (fun '(name, stats) => (name, Val stats))) (column_statistics d) |}.

(** A loop that updates [b] with each entry in turn, and stops at the
    first throw. *)
Fixpoint foldM {A B : Type} (f : B -> A -> result B) (l : list A) (b : B) : result B :=
  match l with
  | [] => Ok b
  | a :: l' => b' <- f b a ;; foldM f l' b'
  end.

Module Raw.

(** In each function on an entry below, [deref] is the first read of a
    property of the entry ([warning.severity], [feat.type], [feat.name],
    [rec.issue], [stats.mutual_information_bits]); past it the entry is an
    object, and the lines are those of the function on objects. *)

(** *** javascript/model-card.js *)

Definition render_warning (html : string) (warning : field Warning) : result string :=
  warning <- deref warning ;;
  Ok (Standalone.render_warning html warning).

Definition renderModelQuality (data : field RawModelCardData) : result string :=
  mq <- get data raw_model_quality ;;
  let mq := or_empty mq no_RawModelQuality in
  let html := Templates.model_quality_open in
  html <-
    (if truthy_string (raw_assessment mq)
     then
       qualityColor <- Standalone.getQualityColor (raw_assessment mq) ;;
       assessment <- deref (raw_assessment mq) ;;
       Ok (html ++ Templates.assessment_table qualityColor assessment)
     else Ok html) ;;
  html <-
    (if truthy_object (raw_warnings mq) && Standalone.nonempty (raw_warnings mq)
     then
       warnings <- deref (raw_warnings mq) ;;
       let html :=
         html ++ "<h3 style=" ++ dq ++ "margin: 15px 0 10px 0; font-size: 16px;"
              ++ dq ++ ">Warnings</h3><div class=" ++ dq ++ "warnings-list" ++ dq ++ ">" in
       html <- foldM render_warning warnings html ;;
       Ok (html ++ "</div>")
     else Ok html) ;;
  Ok (html ++ Templates.section_close).

(** The three sections that read no entry of a list are rendered as on
    the document without its null entries. *)
Definition renderHTML (toLocaleString : number -> string) (now : Date)
    (modelCardJson : field RawModelCardData) : result string :=
  let plain := field_map without_null_entries modelCardJson in
  mi <- get modelCardJson raw_model_identification ;;
  let modelName := or_string (mi_name (or_empty mi no_ModelIdentification)) "Model Card" in
  s1 <- Standalone.renderModelIdentification plain ;;
  s2 <- Standalone.renderTrainingDataset toLocaleString plain ;;
  s3 <- Standalone.renderTrainingMetrics plain ;;
  s4 <- renderModelQuality modelCardJson ;;
  let sections := join "" [s1; s2; s3; s4] in
  Ok (Templates.html_document modelName (toUpperCase modelName)
        (Standalone.dateStr now) sections).

(** *** react/src/ModelCard.tsx *)

Definition featureTypeDistribution (source : string -> string)
    (data : field RawModelCardData) : result (list Component.TypePoint) :=
  inventory <- get data raw_feature_inventory ;;
  inventory <- deref inventory ;;
  typeCounts <-
    foldM (fun typeCounts feat =>
             feat <- deref feat ;;
             Ok (Component.increment source typeCounts (property_key (feat_type feat))))
      inventory [] ;;
  Ok (map (fun '(name, value) =>
             {| Component.type_name := name; Component.type_value := value |})
        typeCounts).

Definition columnStatisticsData (data : field RawModelCardData)
  : result (option (list Component.ColumnPoint)) :=
  cs <- get data raw_column_statistics ;;
  match cs with
  | Val entries =>
      points <-
        mapM (fun '(name, stats) =>
                stats <- deref stats ;;
                Ok {| Component.column_name := name;
                      Component.mutualInfo :=
                        or_number (cs_mutual_information_bits stats) num_zero;
                      Component.marginalLoss :=
                        or_number (cs_marginal_loss stats) num_zero |})
          entries ;;
      Ok (Some (slice0 10 (sort Component.by_mutual_info points)))
  | _ => Ok None
  end.

Definition recommendation_item (idx : nat) (rec : field Recommendation)
  : result Component.node :=
  rec <- deref rec ;;
  Ok (Component.recommendation_item idx rec).

Definition warning_item (idx : nat) (warning : field Warning) : result Component.node :=
  warning <- deref warning ;;
  Component.warning_item idx warning.

Definition model_quality_content (data : field RawModelCardData)
  : result Component.node :=
  assessment <- Component.get2 data raw_model_quality raw_assessment ;;
  assessment_block <-
    (if truthy_string assessment
     then
       color <- Component.getQualityColor assessment ;;
       Ok (Component.tag "div"
             [ Component.tag "h3" [Component.Text "Assessment"];
               Component.badge color (Component.text_of assessment) ])
     else Ok (Component.text_of assessment)) ;;
  recommendations <- Component.get2 data raw_model_quality raw_recommendations ;;
  recommendations_block <-
    match recommendations with
    | Val (r :: rs) =>
        items <- Component.sequence (Component.mapi recommendation_item (r :: rs)) ;;
        Ok (Component.tag "div"
              [ Component.tag "h3" [Component.Text "Recommendations"];
                Component.tag "ul" [Component.Items items] ])
    | _ => Ok Component.Nothing
    end ;;
  warnings <- Component.get2 data raw_model_quality raw_warnings ;;
  warnings <- deref warnings ;;
  warnings_block <-
    match warnings with
    | w :: ws =>
        items <- Component.sequence (Component.mapi warning_item (w :: ws)) ;;
        Ok (Component.tag "div"
              [Component.tag "h3" [Component.Text "Warnings"]; Component.Items items])
    | [] => Ok Component.Nothing
    end ;;
  Ok (Component.tag "div" [assessment_block; recommendations_block; warnings_block]).

Definition feature_row (feat : field Feature) : result Component.node :=
  feat <- deref feat ;;
  Component.feature_row feat.

Definition feature_inventory_content (data : field RawModelCardData)
  : result Component.node :=
  inventory <- get data raw_feature_inventory ;;
  inventory <- deref inventory ;;
  rows <- mapM feature_row inventory ;;
  Ok (Component.tag "div"
    [ Component.el "table" "data-table"
        [ Component.table_head
            ["Name"; "Type"; "Encoder"; "Unique Values"; "Sample Values"; "Statistics"];
          Component.tag "tbody" [Component.Items rows] ] ]).

Definition column_row (entry : string * field ColumnStats) : result Component.node :=
  let '(name, stats) := entry in
  stats <- deref stats ;;
  Component.column_row (name, stats).

Definition column_statistics_content
    (columnStatisticsData : option (list Component.ColumnPoint))
    (entries : list (string * field ColumnStats)) : result Component.node :=
  rows <- mapM column_row entries ;;
  Ok (Component.tag "div"
    [ Component.el "div" "chart-container"
        [ Component.tag "h3" [Component.Text "Mutual Information by Column"];
          match columnStatisticsData with
          | Some points => Component.bar_chart_of_columns points
          | None => Component.Nothing
          end ];
      Component.el "table" "data-table"
        [ Component.table_head ["Column"; "Mutual Information (bits)"; "Marginal Loss"];
          Component.tag "tbody" [Component.Items rows] ] ]).

Definition column_statistics_section (expandedSections : list string)
    (columnStatisticsData : option (list Component.ColumnPoint))
    (data : field RawModelCardData) : result Component.node :=
  cs <- get data raw_column_statistics ;;
  match cs with
  | Val (e :: entries) =>
      content <- column_statistics_content columnStatisticsData (e :: entries) ;;
      Ok (Component.renderSection expandedSections "column-statistics"
            "Column Statistics" content false)
  | _ => Ok Component.Nothing
  end.

(** The component.  The parts that read no entry of a list are computed
    as on the document without its null entries. *)
Definition ModelCard (source : string -> string) (toLocaleString : number -> string)
    (expandedSections : list string) (data : field RawModelCardData)
    (className : option string) : result Component.node :=
  let plain := field_map without_null_entries data in
  let className := match className with Some c => c | None => "" end in
  metricsChartData <- Component.metricsChartData plain ;;
  featureTypeDistribution <- featureTypeDistribution source data ;;
  columnStatisticsData <- columnStatisticsData data ;;
  let section := Component.renderSection expandedSections in
  head <- Component.header plain ;;
  c1 <- Component.model_identification_content plain ;;
  c2 <- Component.training_metrics_content metricsChartData plain ;;
  c3 <- model_quality_content data ;;
  c4 <- Component.training_dataset_content toLocaleString featureTypeDistribution plain ;;
  c5 <- feature_inventory_content data ;;
  c6 <- Component.training_configuration_content plain ;;
  c7 <- Component.model_architecture_content toLocaleString plain ;;
  c8 <- Component.technical_details_content plain ;;
  c9 <- Component.provenance_content plain ;;
  c10 <- column_statistics_section expandedSections columnStatisticsData data ;;
  Ok (Component.el "div" ("model-card " ++ className)
    [ Component.tag "style"
        [Component.Text (Component.style_sheet Component.COLORS_primary
                           Component.COLORS_warning)];
      head;
      Component.controls;
      section "model-identification" "Model Identification" c1 true;
      section "training-metrics" "Model Performance Metrics" c2 true;
      section "model-quality" "Model Quality" c3 true;
      section "training-dataset" "Training Dataset" c4 false;
      section "feature-inventory" "Feature Inventory" c5 false;
      section "training-configuration" "Training Configuration" c6 false;
      section "model-architecture" "Model Architecture" c7 false;
      section "technical-details" "Technical Details" c8 false;
      section "provenance" "Provenance" c9 false;
      c10 ]).

End Raw.

(** * Specifications and examples

    The notions the properties are stated with, and the documents they
    are tried on. *)

(** ** Example documents *)

Definition no_document : ModelCardData :=
  {| model_identification := Undefined; training_dataset := Undefined;
     feature_inventory := Undefined; training_configuration := Undefined;
     training_metrics := Undefined; model_architecture := Undefined;
     model_quality := Undefined; technical_details := Undefined;
     provenance := Undefined; column_statistics := Undefined |}.

Definition example_metrics : ClassificationMetrics :=
  {| cm_accuracy := Val (num_of_decimal 925 3);
     cm_precision := Val (num_of_decimal 912 3);
     cm_recall := Val (num_of_decimal 887 3);
     cm_f1 := Val (num_of_decimal 899 3);
     cm_auc := Val (num_of_decimal 967 3);
     cm_is_binary := Val true |}.

Definition identified_as (model_type : string) : ModelIdentification :=
  {| mi_session_id := Val "public-alphafreight-mini-8c482fa5-1304-442d-8875-4263d5bf79d6";
     mi_job_id := Val "cadab2-20251118-010809";
     mi_name := Val "alphafreight-mini";
     mi_target_column := Val "has_fuel_card_Comdata";
     mi_target_column_type := Val "set";
     mi_compute_cluster := Val "BURRITO";
     mi_training_date := Val "2025-11-18";
     mi_status := Val "DONE";
     mi_model_type := Val model_type;
     mi_framework := Val "FeatrixSphere v0.2.968" |}.

Definition metrics_of (cm : ClassificationMetrics) : TrainingMetrics :=
  {| tm_best_epoch :=
       Val {| be_epoch := Val (num_of_Z 28);
              be_validation_loss := Val (num_of_decimal 1334 4);
              be_train_loss := Val (num_of_decimal 1256 4);
              be_spread_loss := Undefined; be_joint_loss := Undefined;
              be_marginal_loss := Undefined |};
     tm_classification_metrics := Val cm;
     tm_optimal_threshold := Undefined; tm_argmax_metrics := Undefined;
     tm_final_epoch := Undefined; tm_loss_progression := Undefined |}.

(** A document with an identification and classification metrics only. *)
Definition classifier_document (model_type : string) : ModelCardData :=
  {| model_identification := Val (identified_as model_type);
     training_dataset := Undefined;
     feature_inventory := Undefined; training_configuration := Undefined;
     training_metrics := Val (metrics_of example_metrics);
     model_architecture := Undefined;
     model_quality := Undefined; technical_details := Undefined;
     provenance := Undefined; column_statistics := Undefined |}.

(** ** Model-type display *)

(** The raw model type is none of the four recognised names. *)
Definition unrecognised (modelType : string) : Prop :=
  toLowerCase modelType <> "embedding space" /\ toLowerCase modelType <> "es" /\
  toLowerCase modelType <> "single predictor" /\ toLowerCase modelType <> "sp".

(** ** The classification-metric series *)

Definition present_nonzero (o : field number) : Prop :=
  exists n, o = Val n /\ num_truthy n = true.

Definition present_positive (o : field number) : Prop :=
  exists n, o = Val n /\ num_gt n num_zero = true.

Definition all_metrics (P : field number -> Prop) (cm : ClassificationMetrics) : Prop :=
  P (cm_accuracy cm) /\ P (cm_precision cm) /\ P (cm_recall cm) /\
  P (cm_f1 cm) /\ P (cm_auc cm).

(** The point a metric contributes to the series: one when its value is a
    number above zero, none otherwise. *)
Definition kept (name : string) (o : field number) : list Component.MetricPoint :=
  match o with
  | Val n =>
      if num_gt n num_zero
      then [ {| Component.metric_name := name; Component.metric_value := n |} ]
      else []
  | _ => []
  end.

Definition metric_names : list string :=
  ["Accuracy"; "Precision"; "Recall"; "F1"; "AUC"].

(** The five metrics under the names of the series. *)
Definition named_metrics (cm : ClassificationMetrics) : list (string * field number) :=
  [ ("Accuracy", cm_accuracy cm); ("Precision", cm_precision cm);
    ("Recall", cm_recall cm); ("F1", cm_f1 cm); ("AUC", cm_auc cm) ].

(** ** The model-type gate of the classification metrics *)

(** The model type is the string "Single Predictor", letter for letter. *)
Definition exactly_single_predictor (data : field ModelCardData) : Prop :=
  exists d mi, data = Val d /\ model_identification d = Val mi /\
               mi_model_type mi = Val "Single Predictor".

(** What [renderTrainingMetrics] emits without the metrics grid. *)
Definition metrics_shell : string :=
  Templates.training_metrics_open ++ Templates.section_close.

(** ** Sorting *)

(** [a] may stay before [b]. *)
Definition before {A : Type} (compare : A -> A -> option comparison) (a b : A) : Prop :=
  after compare a b = false.

(** Neither has to come strictly before the other. *)
Definition tied {A : Type} (compare : A -> A -> option comparison) (a b : A) : bool :=
  negb (after compare a b) && negb (after compare b a).

(** *** The order of numbers *)

Definition ext_le (a b : ext) : Prop := ext_compare a b <> Gt.

(** [x <= y] on numbers, neither of them NaN. *)
Definition num_le (x y : number) : Prop :=
  exists a b, num_value x = Some a /\ num_value y = Some b /\ ext_le a b.

(** ** The column-statistics series *)

Definition column_point (entry : string * ColumnStats) : Component.ColumnPoint :=
  {| Component.column_name := fst entry;
     Component.mutualInfo := or_number (cs_mutual_information_bits (snd entry)) num_zero;
     Component.marginalLoss := or_number (cs_marginal_loss (snd entry)) num_zero |}.

(** The mutual information of [b] is not above that of [a]. *)
Definition descending (a b : Component.ColumnPoint) : Prop :=
  num_le (Component.mutualInfo b) (Component.mutualInfo a).

Definition has_value (p : Component.ColumnPoint) : Prop :=
  exists a, num_value (Component.mutualInfo p) = Some a.

Definition column (name : string) (tenths : Z) : string * ColumnStats :=
  (name, {| cs_mutual_information_bits := Val (num_of_decimal tenths 1);
            cs_marginal_loss := Null |}).

(** Twelve columns, two ties and one [null]. *)
Definition twelve_columns : list (string * ColumnStats) :=
  [ column "fleet_size" 5; column "annual_revenue" 9;
    ("primary_operation", {| cs_mutual_information_bits := Null; cs_marginal_loss := Null |});
    column "vehicle_types" 9; column "operating_regions" 1;
    column "insurance_provider" 7; column "fuel_program" 3;
    column "maintenance_program" 5; column "driver_count" 2;
    column "years_in_business" 8; column "fleet_age_avg" 4;
    column "miles_per_year" 6 ].

Definition embedding_document : ModelCardData :=
  {| model_identification := Val (identified_as "Embedding Space");
     training_dataset := Undefined;
     feature_inventory := Undefined; training_configuration := Undefined;
     training_metrics := Undefined; model_architecture := Undefined;
     model_quality := Undefined; technical_details := Undefined;
     provenance := Undefined; column_statistics := Val twelve_columns |}.

(** ** The feature-type histogram *)

(** The keys the inventory counts under. *)
Definition type_keys (inventory : list Feature) : list string :=
  map (fun feat => property_key (feat_type feat)) inventory.

(** The distinct strings of a list, in the order of their first
    occurrence. *)
Fixpoint first_seen (l : list string) : list string :=
  match l with
  | [] => []
  | k :: l' => k :: filter (fun k' => negb (String.eqb k' k)) (first_seen l')
  end.

Definition occurrences (k : string) (l : list string) : Z :=
  Z.of_nat (List.length (filter (String.eqb k) l)).

(** The histogram in the words of the specification: each distinct type
    with the count of its occurrences, in first-seen order. *)
Definition histogram_spec (l : list string) : list Component.TypePoint :=
  map (fun k => {| Component.type_name := k;
                   Component.type_value := Component.Count (occurrences k l) |})
      (first_seen l).

(** A key that is neither an array index nor a name every object
    inherits. *)
Definition ordinary (k : string) : Prop :=
  array_index k = None /\ inherited k = false.

(** The text V8 prints for the built-in function an object inherits
    under the name [k]: the function is named as the key is, but for
    [constructor], which is [Object]. *)
Definition v8_source (k : string) : string :=
  "function " ++ (if String.eqb k "constructor" then "Object" else k)
    ++ "() { [native code] }".

Definition counts (l : list string) : list (string * Component.tally) :=
  map (fun k => (k, Component.Count (occurrences k l))) (first_seen l).

(** The object whose keys are [ks], each holding [f] of it. *)
Definition pairs {V : Type} (f : string -> V) (ks : list string) : list (string * V) :=
  map (fun k => (k, f k)) ks.

Definition mem (k : string) (l : list string) : bool := existsb (String.eqb k) l.

Definition typed (t : string) : Feature :=
  {| feat_name := Val ("feature_" ++ t); feat_type := Val t;
     feat_encoder_type := Undefined; feat_unique_values := Null;
     feat_sample_values := Null; feat_statistics := Null |}.

Definition inventory_document (inventory : list Feature) : ModelCardData :=
  {| model_identification := Undefined; training_dataset := Undefined;
     feature_inventory := Val inventory; training_configuration := Undefined;
     training_metrics := Undefined; model_architecture := Undefined;
     model_quality := Undefined; technical_details := Undefined;
     provenance := Undefined; column_statistics := Undefined |}.

(** ** Number formatting *)

(** The [f] low-order digits of [n]. *)
Fixpoint last_digits (f : nat) (n : Z) : string :=
  match f with
  | O => ""
  | S f' => last_digits f' (n / 10) ++ String (digit_char (n mod 10)) ""
  end.

(** The words of the specification: strip trailing zeros, then a trailing
    decimal point. *)
Fixpoint drop_trailing_zeros (s : string) : string :=
  match s with
  | EmptyString => EmptyString
  | String c s' =>
      if all_chars is_zero_char s then EmptyString
      else String c (drop_trailing_zeros s')
  end.

Fixpoint drop_trailing_point (s : string) : string :=
  match s with
  | EmptyString => EmptyString
  | String c s' =>
      if Ascii.eqb c "."%char && String.eqb s' "" then EmptyString
      else String c (drop_trailing_point s')
  end.

Definition no_point (s : string) : bool :=
  all_chars (fun c => negb (Ascii.eqb c "."%char)) s.

Definition nonempty_string (s : string) : bool := negb (String.eqb s "").

(** The magnitude and the sign of a finite number. *)
Definition abs_value (x : number) : Q :=
  match x with
  | S754_finite _ m e => magnitude m e
  | _ => 0
  end.

Definition sign_of (x : number) : string :=
  match x with
  | S754_finite true _ _ => "-"
  | _ => ""
  end.

(** Fixed-point rendering to [p] digits: the sign, the numeral of the
    integer part, the point, and [p] fraction digits, of the value rounded
    to the nearest multiple of [10^-p]. *)
Definition fixed_point (x : number) (p : nat) : string :=
  let n := nearest_scaled (abs_value x) p in
  sign_of x ++ decimal (n / 10 ^ Z.of_nat p) ++ "." ++ last_digits p n.

(** [formatNumber] in the words of the specification. *)
Definition formatNumber_spec (x : number) (p : nat) : string :=
  drop_trailing_point (drop_trailing_zeros (fixed_point x p)).

(** [toFixed] leaves fixed-point notation at 10^21, and is not defined
    on NaN and the infinities. *)
Definition fixed_range (x : number) : bool :=
  match x with
  | S754_zero _ => true
  | S754_finite _ m e => negb (Qle_bool (pow10 21) (magnitude m e))
  | _ => false
  end.

(** 10^21, a double: the least magnitude at which [toFixed] leaves
    fixed-point notation. *)
Definition ten_to_21 : number := num_of_Z (10 ^ 21).

(** ** The clock and the locale *)

(** A host whose locale writes numbers as [String] does. *)
Definition plain_locale : number -> string := num_to_string.

Definition morning : Date :=
  {| getFullYear := 2025; getMonth := 10; getDate := 18;
     getHours := 9; getMinutes := 5; getSeconds := 7; getMilliseconds := 250 |}.

Definition a_second_later : Date :=
  {| getFullYear := 2025; getMonth := 10; getDate := 18;
     getHours := 9; getMinutes := 5; getSeconds := 8; getMilliseconds := 250 |}.

(** ** The example of react/example/App.tsx *)

Definition example_dataset : TrainingDataset :=
  {| td_train_rows := Val (num_of_Z 431); td_val_rows := Val (num_of_Z 108);
     td_total_rows := Val (num_of_Z 539); td_total_features := Val (num_of_Z 15);
     td_feature_names :=
       Val [ "fleet_size"; "annual_revenue"; "primary_operation"; "vehicle_types";
             "operating_regions"; "insurance_provider"; "fuel_program";
             "maintenance_program"; "driver_count"; "years_in_business";
             "fleet_age_avg"; "miles_per_year"; "fuel_efficiency"; "safety_rating";
             "compliance_score" ];
     td_target_column := Val "has_fuel_card_Comdata" |}.

Definition example_inventory : list Feature :=
  [ {| feat_name := Val "fleet_size"; feat_type := Val "scalar";
       feat_encoder_type := Val "ScalarCodec"; feat_unique_values := Null;
       feat_sample_values := Null;
       feat_statistics :=
         Val {| st_min := Val (num_of_Z 5); st_max := Val (num_of_Z 500);
                st_mean := Val (num_of_decimal 452 1);
                st_std := Val (num_of_decimal 785 1);
                st_median := Val (num_of_Z 25) |} |};
    {| feat_name := Val "primary_operation"; feat_type := Val "set";
       feat_encoder_type := Val "SetCodec"; feat_unique_values := Val (num_of_Z 8);
       feat_sample_values :=
         Val ["long_haul"; "local_delivery"; "regional"; "interstate"; "specialized"];
       feat_statistics := Null |} ].

Definition example_configuration : TrainingConfiguration :=
  {| tc_epochs_total := Val (num_of_Z 32); tc_best_epoch := Val (num_of_Z 28);
     tc_d_model := Val (num_of_Z 512); tc_batch_size := Val (num_of_Z 64);
     tc_learning_rate := Val (num_of_decimal 1 3); tc_optimizer := Val "Adam";
     tc_dropout_schedule := Undefined |}.

Definition example_training_metrics : TrainingMetrics :=
  {| tm_best_epoch :=
       Val {| be_epoch := Val (num_of_Z 28);
              be_validation_loss := Val (num_of_decimal 1334 4);
              be_train_loss := Val (num_of_decimal 1256 4);
              be_spread_loss := Undefined; be_joint_loss := Undefined;
              be_marginal_loss := Undefined |};
     tm_classification_metrics := Val example_metrics;
     tm_optimal_threshold :=
       Val {| ot_optimal_threshold := Val (num_of_decimal 452 3);
              ot_pos_label := Val "true";
              ot_optimal_threshold_f1 := Val (num_of_decimal 899 3);
              ot_accuracy_at_optimal_threshold := Val (num_of_decimal 925 3) |};
     tm_argmax_metrics :=
       Val {| am_accuracy := Val (num_of_decimal 918 3);
              am_precision := Val (num_of_decimal 905 3);
              am_recall := Val (num_of_decimal 875 3);
              am_f1 := Val (num_of_decimal 89 2) |};
     tm_final_epoch := Undefined; tm_loss_progression := Undefined |}.

Definition example_architecture : ModelArchitecture :=
  {| ma_predictor_layers := Val (num_of_Z 5);
     ma_predictor_parameters := Val (num_of_Z 264925317);
     ma_embedding_space_d_model := Val (num_of_Z 512) |}.

Definition example_quality : ModelQuality :=
  {| mq_assessment := Null; mq_recommendations := Null;
     mq_warnings :=
       Val [ {| warn_type := Val "CLASS_IMBALANCE"; warn_severity := Val "MODERATE";
                warn_message :=
                  Val "Class imbalance detected: positive class represents 35% of training data";
                warn_recommendation :=
                  Val "Consider using class weights or oversampling techniques" |} ];
     mq_training_quality_warning := Null |}.

(** No assessment, no recommendations, no warnings. *)
Definition silent_quality : ModelQuality :=
  {| mq_assessment := Null; mq_recommendations := Null; mq_warnings := Val [];
     mq_training_quality_warning := Null |}.

Definition example_details : TechnicalDetails :=
  {| tech_pytorch_version := Val "2.1.0"; tech_device := Val "GPU";
     tech_precision := Val "float32"; tech_normalization := Null;
     tech_loss_function := Val "CrossEntropyLoss" |}.

Definition example_provenance : Provenance :=
  {| prov_created_at := Val "2025-11-18T01:08:09.123456";
     prov_training_duration_minutes := Val (num_of_decimal 452 1) |}.

Definition example_columns : list (string * ColumnStats) :=
  [ ("fleet_size",
     {| cs_mutual_information_bits := Val (num_of_decimal 234 2);
        cs_marginal_loss := Val (num_of_decimal 12 3) |});
    ("annual_revenue",
     {| cs_mutual_information_bits := Val (num_of_decimal 187 2);
        cs_marginal_loss := Val (num_of_decimal 8 3) |}) ].

(** The example, with the parts the properties vary left open. *)
Definition example_with (mi : ModelIdentification) (mq : field ModelQuality)
    (cs : field (list (string * ColumnStats))) : ModelCardData :=
  {| model_identification := Val mi;
     training_dataset := Val example_dataset;
     feature_inventory := Val example_inventory;
     training_configuration := Val example_configuration;
     training_metrics := Val example_training_metrics;
     model_architecture := Val example_architecture;
     model_quality := mq;
     technical_details := Val example_details;
     provenance := Val example_provenance;
     column_statistics := cs |}.

Definition example_document : ModelCardData :=
  example_with (identified_as "Single Predictor") (Val example_quality)
    (Val example_columns).

Definition null_session : ModelIdentification :=
  {| mi_session_id := Null;
     mi_job_id := Val "cadab2-20251118-010809";
     mi_name := Val "alphafreight-mini";
     mi_target_column := Val "has_fuel_card_Comdata";
     mi_target_column_type := Val "set";
     mi_compute_cluster := Val "BURRITO";
     mi_training_date := Val "2025-11-18";
     mi_status := Val "DONE";
     mi_model_type := Val "Single Predictor";
     mi_framework := Val "FeatrixSphere v0.2.968" |}.

(** ** Sections without data *)

(** What [renderModelQuality] emits around the assessment and the
    warnings: the section with its title. *)
Definition quality_shell : string :=
  Templates.model_quality_open ++ Templates.section_close.

(** [needle] occurs in [text]. *)
Definition includes (needle text : string) : bool :=
  match String.index 0 needle text with
  | Some _ => true
  | None => false
  end.

(** The identifier of a section of the component. *)
Definition section_id (n : Component.node) : list string :=
  match n with
  | Component.Element _ props _ =>
      match own props "className", own props "key" with
      | Some (Component.PStr "model-card-section"), Some (Component.PStr id) => [id]
      | _, _ => []
      end
  | _ => []
  end.

(** The sections of a rendered card, in order. *)
Definition section_ids (card : Component.node) : list string :=
  match card with
  | Component.Element _ _ children => flat_map section_id children
  | _ => []
  end.

Definition fixed_sections : list string :=
  [ "model-identification"; "training-metrics"; "model-quality"; "training-dataset";
    "feature-inventory"; "training-configuration"; "model-architecture";
    "technical-details"; "provenance" ].

Definition has_columns (d : ModelCardData) : bool :=
  match column_statistics d with
  | Val (_ :: _) => true
  | _ => false
  end.

(** Neither an assessment nor a warning to show. *)
Definition quality_is_silent (d : ModelCardData) : bool :=
  let mq := or_empty (model_quality d) no_ModelQuality in
  negb (truthy_string (mq_assessment mq)) && negb (Standalone.nonempty (mq_warnings mq)).

Definition silent_document : ModelCardData :=
  example_with (identified_as "Single Predictor") (Val silent_quality) Undefined.

(** ** Documents of the declared type

    [ModelCardData] as the interface of ModelCard.tsx declares it: a
    property typed [T] holds a value, one typed [T | null] a value or
    [null], and an optional one may also be missing. *)

Definition required {A : Type} (p : A -> bool) (o : field A) : bool :=
  match o with
  | Val a => p a
  | _ => false
  end.

Definition nullable {A : Type} (p : A -> bool) (o : field A) : bool :=
  match o with
  | Val a => p a
  | Null => true
  | Undefined => false
  end.

Definition optional {A : Type} (p : A -> bool) (o : field A) : bool :=
  match o with
  | Val a => p a
  | _ => true
  end.

Definition any_value {A : Type} (a : A) : bool := true.

Definition conforms_ModelIdentification (mi : ModelIdentification) : bool :=
  required any_value (mi_session_id mi) && required any_value (mi_job_id mi) &&
  required any_value (mi_name mi) && nullable any_value (mi_target_column mi) &&
  nullable any_value (mi_target_column_type mi) &&
  required any_value (mi_compute_cluster mi) && required any_value (mi_training_date mi) &&
  required any_value (mi_status mi) && required any_value (mi_model_type mi) &&
  required any_value (mi_framework mi).

Definition conforms_TrainingDataset (td : TrainingDataset) : bool :=
  required any_value (td_train_rows td) && required any_value (td_val_rows td) &&
  required any_value (td_total_rows td) && required any_value (td_total_features td) &&
  required any_value (td_feature_names td) && nullable any_value (td_target_column td).

Definition conforms_Statistics (st : Statistics) : bool :=
  required any_value (st_min st) && required any_value (st_max st) &&
  required any_value (st_mean st) && required any_value (st_std st) &&
  required any_value (st_median st).

Definition conforms_Feature (feat : Feature) : bool :=
  required any_value (feat_name feat) && required any_value (feat_type feat) &&
  required any_value (feat_encoder_type feat) &&
  nullable any_value (feat_unique_values feat) &&
  nullable any_value (feat_sample_values feat) &&
  nullable conforms_Statistics (feat_statistics feat).

Definition conforms_DropoutSchedule (ds : DropoutSchedule) : bool :=
  required any_value (ds_enabled ds) && required any_value (ds_initial ds) &&
  required any_value (ds_final ds).

Definition conforms_TrainingConfiguration (tc : TrainingConfiguration) : bool :=
  required any_value (tc_epochs_total tc) && required any_value (tc_best_epoch tc) &&
  required any_value (tc_d_model tc) && nullable any_value (tc_batch_size tc) &&
  nullable any_value (tc_learning_rate tc) && required any_value (tc_optimizer tc) &&
  optional conforms_DropoutSchedule (tc_dropout_schedule tc).

Definition conforms_BestEpoch (be : BestEpoch) : bool :=
  required any_value (be_epoch be) && required any_value (be_validation_loss be) &&
  required any_value (be_train_loss be).

Definition conforms_ClassificationMetrics (cm : ClassificationMetrics) : bool :=
  nullable any_value (cm_accuracy cm) && nullable any_value (cm_precision cm) &&
  nullable any_value (cm_recall cm) && nullable any_value (cm_f1 cm) &&
  nullable any_value (cm_auc cm) && required any_value (cm_is_binary cm).

Definition conforms_OptimalThreshold (ot : OptimalThreshold) : bool :=
  required any_value (ot_optimal_threshold ot) && nullable any_value (ot_pos_label ot) &&
  required any_value (ot_optimal_threshold_f1 ot) &&
  required any_value (ot_accuracy_at_optimal_threshold ot).

Definition conforms_ArgmaxMetrics (am : ArgmaxMetrics) : bool :=
  required any_value (am_accuracy am) && required any_value (am_precision am) &&
  required any_value (am_recall am) && required any_value (am_f1 am).

Definition conforms_FinalEpoch (fe : FinalEpoch) : bool :=
  required any_value (fe_epoch fe) && required any_value (fe_train_loss fe) &&
  required any_value (fe_val_loss fe).

Definition conforms_LossProgression (lp : LossProgression) : bool :=
  required any_value (lp_initial_train lp) && required any_value (lp_initial_val lp) &&
  nullable any_value (lp_improvement_pct lp).

Definition conforms_TrainingMetrics (tm : TrainingMetrics) : bool :=
  required conforms_BestEpoch (tm_best_epoch tm) &&
  optional conforms_ClassificationMetrics (tm_classification_metrics tm) &&
  optional conforms_OptimalThreshold (tm_optimal_threshold tm) &&
  optional conforms_ArgmaxMetrics (tm_argmax_metrics tm) &&
  optional conforms_FinalEpoch (tm_final_epoch tm) &&
  optional conforms_LossProgression (tm_loss_progression tm).

Definition conforms_ModelArchitecture (ma : ModelArchitecture) : bool :=
  nullable any_value (ma_predictor_layers ma) &&
  nullable any_value (ma_predictor_parameters ma) &&
  nullable any_value (ma_embedding_space_d_model ma).

Definition conforms_Recommendation (r : Recommendation) : bool :=
  required any_value (rec_issue r) && required any_value (rec_suggestion r).

Definition conforms_Warning (w : Warning) : bool :=
  required any_value (warn_type w) && required any_value (warn_severity w) &&
  required any_value (warn_message w) && nullable any_value (warn_recommendation w).

Definition conforms_ModelQuality (mq : ModelQuality) : bool :=
  nullable any_value (mq_assessment mq) &&
  nullable (forallb conforms_Recommendation) (mq_recommendations mq) &&
  required (forallb conforms_Warning) (mq_warnings mq) &&
  nullable any_value (mq_training_quality_warning mq).

Definition conforms_TechnicalDetails (t : TechnicalDetails) : bool :=
  required any_value (tech_pytorch_version t) && required any_value (tech_device t) &&
  required any_value (tech_precision t) && nullable any_value (tech_normalization t) &&
  required any_value (tech_loss_function t).

Definition conforms_Provenance (p : Provenance) : bool :=
  required any_value (prov_created_at p) &&
  nullable any_value (prov_training_duration_minutes p).

Definition conforms_ColumnStats (entry : string * ColumnStats) : bool :=
  nullable any_value (cs_mutual_information_bits (snd entry)) &&
  nullable any_value (cs_marginal_loss (snd entry)).

Definition conforms (d : ModelCardData) : bool :=
  required conforms_ModelIdentification (model_identification d) &&
  required conforms_TrainingDataset (training_dataset d) &&
  required (forallb conforms_Feature) (feature_inventory d) &&
  required conforms_TrainingConfiguration (training_configuration d) &&
  required conforms_TrainingMetrics (training_metrics d) &&
  required conforms_ModelArchitecture (model_architecture d) &&
  required conforms_ModelQuality (model_quality d) &&
  required conforms_TechnicalDetails (technical_details d) &&
  required conforms_Provenance (provenance d) &&
  optional (forallb conforms_ColumnStats) (column_statistics d).

(** ** Entries that are objects *)

Definition all_objects {A : Type} (entries : list (field A)) : bool :=
  forallb truthy_object entries.

Definition all_object_values {A : Type} (entries : list (string * field A)) : bool :=
  forallb (fun entry => truthy_object (snd entry)) entries.

(** The warnings of the document, when it lists any, are objects. *)
Definition warnings_are_objects (r : RawModelCardData) : bool :=
  optional (fun mq => optional all_objects (raw_warnings mq)) (raw_model_quality r).

(** No list of the document has a null entry. *)
Definition entries_are_objects (r : RawModelCardData) : bool :=
  optional all_objects (raw_feature_inventory r) &&
  optional (fun mq => optional all_objects (raw_recommendations mq) &&
                      optional all_objects (raw_warnings mq))
    (raw_model_quality r) &&
  optional all_object_values (raw_column_statistics r).

(** A document of the declared type: the type gives a list no null
    entry. *)
Definition raw_conforms (r : RawModelCardData) : bool :=
  entries_are_objects r && conforms (without_null_entries r).

(** ** Sentinels

    What the stand-alone page shows for a value that is missing, null or
    empty. *)

Definition shown (sentinel : string) (o : field string) : field string :=
  Val (or_string o sentinel).

Definition counted (o : field number) : field number := Val (or_number o num_zero).

Definition sentinels_ModelIdentification (mi : ModelIdentification)
  : ModelIdentification :=
  {| mi_session_id := shown "N/A" (mi_session_id mi);
     mi_job_id := shown "N/A" (mi_job_id mi);
     mi_name := shown "Model Card" (mi_name mi);
     mi_target_column := shown "N/A" (mi_target_column mi);
     mi_target_column_type := shown "N/A" (mi_target_column_type mi);
     mi_compute_cluster := shown "N/A" (mi_compute_cluster mi);
     mi_training_date := shown "N/A" (mi_training_date mi);
     mi_status := shown "N/A" (mi_status mi);
     mi_model_type := shown "N/A" (mi_model_type mi);
     mi_framework := shown "N/A" (mi_framework mi) |}.

Definition sentinels_TrainingDataset (td : TrainingDataset) : TrainingDataset :=
  {| td_train_rows := counted (td_train_rows td);
     td_val_rows := td_val_rows td;
     td_total_rows := td_total_rows td;
     td_total_features := counted (td_total_features td);
     td_feature_names := td_feature_names td;
     td_target_column := shown "N/A" (td_target_column td) |}.

Definition sentinels_Warning (w : Warning) : Warning :=
  {| warn_type := shown "N/A" (warn_type w);
     warn_severity := shown "UNKNOWN" (warn_severity w);
     warn_message := shown "N/A" (warn_message w);
     warn_recommendation := warn_recommendation w |}.

(** The document in which every string the stand-alone page shows is
    present: "N/A" stands for each one that is missing, null or empty
    ("Model Card" for the name, "UNKNOWN" for the severity of a warning),
    and 0 for each of the two counts; a section that is missing is a
    section of sentinels. *)
Definition with_sentinels (r : RawModelCardData) : RawModelCardData :=
  {| raw_model_identification :=
       Val (sentinels_ModelIdentification
              (or_empty (raw_model_identification r) no_ModelIdentification));
     raw_training_dataset :=
       Val (sentinels_TrainingDataset
              (or_empty (raw_training_dataset r) no_TrainingDataset));
     raw_feature_inventory := raw_feature_inventory r;
     raw_training_configuration := raw_training_configuration r;
     raw_training_metrics := raw_training_metrics r;
     raw_model_architecture := raw_model_architecture r;
     raw_model_quality :=
       field_map
         (fun mq =>
            {| raw_assessment := raw_assessment mq;
               raw_recommendations := raw_recommendations mq;
               raw_warnings :=
                 field_map (map (field_map sentinels_Warning)) (raw_warnings mq);
               raw_training_quality_warning := raw_training_quality_warning mq |})
         (raw_model_quality r);
     raw_technical_details := raw_technical_details r;
     raw_provenance := raw_provenance r;
     raw_column_statistics := raw_column_statistics r |}.

(** The document that is an empty object, and one whose only warning is
    [null]. *)
Definition no_raw_document : RawModelCardData := with_entries no_document.

Definition null_warning_document : RawModelCardData :=
  {| raw_model_identification := Undefined; raw_training_dataset := Undefined;
     raw_feature_inventory := Undefined; raw_training_configuration := Undefined;
     raw_training_metrics := Undefined; raw_model_architecture := Undefined;
     raw_model_quality :=
       Val {| raw_assessment := Undefined; raw_recommendations := Undefined;
              raw_warnings := Val [Null]; raw_training_quality_warning := Undefined |};
     raw_technical_details := Undefined; raw_provenance := Undefined;
     raw_column_statistics := Undefined |}.

(** ** Missing and null properties *)

Definition null_session_document : ModelCardData :=
  example_with null_session (Val example_quality) (Val example_columns).

(** ** The expanded sections *)

(** The state after a series of clicks. *)
Definition run (clicks : list Component.action) (expandedSections : list string)
  : list string :=
  fold_left (fun state a => Component.perform a state) clicks expandedSections.

(** A click the card can receive: one of its two buttons, or the header
    of one of the ten sections. *)
Definition offered (a : Component.action) : Prop :=
  match a with
  | Component.ToggleSection sectionId => In sectionId Component.all_sections
  | _ => True
  end.

(** The click handlers on the children of an element. *)
Definition clicks_of (n : Component.node) : list Component.action :=
  match n with
  | Component.Element _ _ children =>
      flat_map (fun c =>
                  match c with
                  | Component.Element _ props _ =>
                      match own props "onClick" with
                      | Some (Component.PClick a) => [a]
                      | _ => []
                      end
                  | _ => []
                  end) children
  | _ => []
  end.

Definition is_content (c : Component.node) : bool :=
  match c with
  | Component.Element _ props _ =>
      match own props "className" with
      | Some (Component.PStr "section-content") => true
      | _ => false
      end
  | _ => false
  end.

(** The section shows its content. *)
Definition shows_content (n : Component.node) : bool :=
  match n with
  | Component.Element _ _ children => existsb is_content children
  | _ => false
  end.

Definition open_section (n : Component.node) : list string :=
  if shows_content n then section_id n else [].

(** The sections of a rendered card that show their content, in order. *)
Definition open_sections (card : Component.node) : list string :=
  match card with
  | Component.Element _ _ children => flat_map open_section children
  | _ => []
  end.

(** ** What the stand-alone renderer reads *)

Definition read_TrainingDataset (td : TrainingDataset) : TrainingDataset :=
  {| td_train_rows := td_train_rows td; td_val_rows := Undefined;
     td_total_rows := Undefined; td_total_features := td_total_features td;
     td_feature_names := Undefined; td_target_column := td_target_column td |}.

Definition read_ClassificationMetrics (cm : ClassificationMetrics)
  : ClassificationMetrics :=
  {| cm_accuracy := Undefined; cm_precision := cm_precision cm;
     cm_recall := cm_recall cm; cm_f1 := cm_f1 cm; cm_auc := cm_auc cm;
     cm_is_binary := Undefined |}.

Definition read_TrainingMetrics (tm : TrainingMetrics) : TrainingMetrics :=
  {| tm_best_epoch := Undefined;
     tm_classification_metrics :=
       field_map read_ClassificationMetrics (tm_classification_metrics tm);
     tm_optimal_threshold := Undefined; tm_argmax_metrics := Undefined;
     tm_final_epoch := Undefined; tm_loss_progression := Undefined |}.

Definition read_Warning (w : Warning) : Warning :=
  {| warn_type := warn_type w; warn_severity := warn_severity w;
     warn_message := warn_message w; warn_recommendation := Undefined |}.

Definition read_ModelQuality (mq : ModelQuality) : ModelQuality :=
  {| mq_assessment := mq_assessment mq; mq_recommendations := Undefined;
     mq_warnings := field_map (map read_Warning) (mq_warnings mq);
     mq_training_quality_warning := Undefined |}.

(** The document with every property [renderHTML] does not read taken
    out. *)
Definition standalone_view (d : ModelCardData) : ModelCardData :=
  {| model_identification := model_identification d;
     training_dataset := field_map read_TrainingDataset (training_dataset d);
     feature_inventory := Undefined;
     training_configuration := Undefined;
     training_metrics := field_map read_TrainingMetrics (training_metrics d);
     model_architecture := Undefined;
     model_quality := field_map read_ModelQuality (model_quality d);
     technical_details := Undefined;
     provenance := Undefined;
     column_statistics := Undefined |}.

(** The example without its accuracy, its validation rows and the six
    sections the stand-alone page does not have. *)
Definition example_cut_down : ModelCardData :=
  {| model_identification := Val (identified_as "Single Predictor");
     training_dataset :=
       Val {| td_train_rows := Val (num_of_Z 431); td_val_rows := Undefined;
              td_total_rows := Undefined; td_total_features := Val (num_of_Z 15);
              td_feature_names := Undefined;
              td_target_column := Val "has_fuel_card_Comdata" |};
     feature_inventory := Undefined;
     training_configuration := Undefined;
     training_metrics :=
       Val {| tm_best_epoch := Undefined;
              tm_classification_metrics :=
                Val {| cm_accuracy := Undefined;
                       cm_precision := Val (num_of_decimal 912 3);
                       cm_recall := Val (num_of_decimal 887 3);
                       cm_f1 := Val (num_of_decimal 899 3);
                       cm_auc := Val (num_of_decimal 967 3);
                       cm_is_binary := Undefined |};
              tm_optimal_threshold := Undefined; tm_argmax_metrics := Undefined;
              tm_final_epoch := Undefined; tm_loss_progression := Undefined |};
     model_architecture := Undefined;
     model_quality :=
       Val {| mq_assessment := Null; mq_recommendations := Undefined;
              mq_warnings :=
                Val [ {| warn_type := Val "CLASS_IMBALANCE";
                         warn_severity := Val "MODERATE";
                         warn_message :=
                           Val "Class imbalance detected: positive class represents 35% of training data";
                         warn_recommendation := Undefined |} ];
              mq_training_quality_warning := Undefined |};
     technical_details := Undefined;
     provenance := Undefined;
     column_statistics := Undefined |}.

(** ** The session identifier *)

(** Text of ASCII characters only: on it a byte is a character, and
    [substring0] cuts where [substring] does. *)
Definition ascii_text (s : string) : bool :=
  all_chars (fun c => Nat.ltb (nat_of_ascii c) 128) s.

(** The document with another [session_id]. *)
Definition with_session_id (s : field string) (d : ModelCardData) : ModelCardData :=
  {| model_identification :=
       field_map
         (fun mi =>
            {| mi_session_id := s; mi_job_id := mi_job_id mi; mi_name := mi_name mi;
               mi_target_column := mi_target_column mi;
               mi_target_column_type := mi_target_column_type mi;
               mi_compute_cluster := mi_compute_cluster mi;
               mi_training_date := mi_training_date mi; mi_status := mi_status mi;
               mi_model_type := mi_model_type mi; mi_framework := mi_framework mi |})
         (model_identification d);
     training_dataset := training_dataset d;
     feature_inventory := feature_inventory d;
     training_configuration := training_configuration d;
     training_metrics := training_metrics d;
     model_architecture := model_architecture d;
     model_quality := model_quality d;
     technical_details := technical_details d;
     provenance := provenance d;
     column_statistics := column_statistics d |}.

(** ** The time stamp *)

(** What the getters of a valid [Date] return, for a year of four
    digits. *)
Definition four_digit_date (now : Date) : Prop :=
  1000 <= getFullYear now <= 9999 /\
  0 <= getMonth now <= 11 /\
  1 <= getDate now <= 31 /\
  0 <= getHours now <= 23 /\
  0 <= getMinutes now <= 59 /\
  0 <= getSeconds now <= 59.

(** The same second. *)
Definition same_second (a b : Date) : Prop :=
  getFullYear a = getFullYear b /\ getMonth a = getMonth b /\
  getDate a = getDate b /\ getHours a = getHours b /\
  getMinutes a = getMinutes b /\ getSeconds a = getSeconds b.

(** The field of [width] characters at position [pos] of a time stamp,
    read as a decimal numeral; [None] unless it is [width] digits. *)
Definition date_field (pos width : nat) (s : string) : option Z :=
  let digits := String.substring pos width s in
  if (Nat.eqb (String.length digits) width && all_chars is_digit digits)%bool
  then Some (read_decimal digits)
  else None.

Definition new_year : Date :=
  {| getFullYear := 2026; getMonth := 0; getDate := 1;
     getHours := 0; getMinutes := 0; getSeconds := 0; getMilliseconds := 0 |}.

(** ** Totals of the histogram *)

Definition count_of (p : Component.TypePoint) : Z :=
  match Component.type_value p with
  | Component.Count n => n
  | Component.Junk _ => 0
  end.

Definition sumZ (l : list Z) : Z := fold_right Z.add 0 l.

(** The number of features the slices of the pie chart stand for. *)
Definition total (points : list Component.TypePoint) : Z := sumZ (map count_of points).

(** ** What the component needs *)

(** A computation that returns when [b] holds and throws a [TypeError]
    when it does not. *)
Definition settles {A : Type} (r : result A) (b : bool) : Prop :=
  if b then returns r else r = Throw TypeError.

Definition needs_ModelIdentification (mi : ModelIdentification) : bool :=
  required any_value (mi_status mi) && required any_value (mi_session_id mi).

Definition needs_TrainingDataset (td : TrainingDataset) : bool :=
  required any_value (td_train_rows td) && required any_value (td_val_rows td) &&
  required any_value (td_total_rows td) && required any_value (td_feature_names td).

Definition needs_TrainingMetrics (tm : TrainingMetrics) : bool :=
  required any_value (tm_best_epoch tm).

Definition needs_Warning (w : Warning) : bool := required any_value (warn_severity w).

Definition needs_ModelArchitecture (ma : ModelArchitecture) : bool :=
  nullable any_value (ma_predictor_parameters ma).

Definition needs_Provenance (p : Provenance) : bool :=
  nullable any_value (prov_training_duration_minutes p).

(** Hardly more than the nine sections. *)
Definition bare_document : ModelCardData :=
  {| model_identification :=
       Val {| mi_session_id := Val ""; mi_job_id := Undefined; mi_name := Undefined;
              mi_target_column := Undefined; mi_target_column_type := Undefined;
              mi_compute_cluster := Undefined; mi_training_date := Undefined;
              mi_status := Val ""; mi_model_type := Undefined;
              mi_framework := Undefined |};
     training_dataset :=
       Val {| td_train_rows := Val num_zero; td_val_rows := Val num_zero;
              td_total_rows := Val num_zero; td_total_features := Undefined;
              td_feature_names := Val []; td_target_column := Undefined |};
     feature_inventory := Val [];
     training_configuration :=
       Val {| tc_epochs_total := Undefined; tc_best_epoch := Undefined;
              tc_d_model := Undefined; tc_batch_size := Undefined;
              tc_learning_rate := Undefined; tc_optimizer := Undefined;
              tc_dropout_schedule := Undefined |};
     training_metrics :=
       Val {| tm_best_epoch :=
                Val {| be_epoch := Undefined; be_validation_loss := Undefined;
                       be_train_loss := Undefined; be_spread_loss := Undefined;
                       be_joint_loss := Undefined; be_marginal_loss := Undefined |};
              tm_classification_metrics := Undefined;
              tm_optimal_threshold := Undefined; tm_argmax_metrics := Undefined;
              tm_final_epoch := Undefined; tm_loss_progression := Undefined |};
     model_architecture :=
       Val {| ma_predictor_layers := Undefined; ma_predictor_parameters := Null;
              ma_embedding_space_d_model := Undefined |};
     model_quality :=
       Val {| mq_assessment := Undefined; mq_recommendations := Undefined;
              mq_warnings := Val []; mq_training_quality_warning := Undefined |};
     technical_details :=
       Val {| tech_pytorch_version := Undefined; tech_device := Undefined;
              tech_precision := Undefined; tech_normalization := Undefined;
              tech_loss_function := Undefined |};
     provenance :=
       Val {| prov_created_at := Undefined; prov_training_duration_minutes := Null |};
     column_statistics := Undefined |}.

(** The recommendations, when listed, are objects; the warnings are
    listed, and each is an object with a severity. *)
Definition needs_RawModelQuality (mq : RawModelQuality) : bool :=
  optional all_objects (raw_recommendations mq) &&
  required (forallb (required needs_Warning)) (raw_warnings mq).

(** The properties the component reads without a guard: the nine
    sections, and in them the status and the session identifier, the
    three row counts and the feature names, the best epoch and the
    warnings; the predictor parameters and the training duration may be
    null but not missing.  It also reads a property of every entry of the
    feature inventory, of the recommendations and of the warnings, and of
    every value of the column statistics: every one of them has to be an
    object, and every warning an object with a severity. *)
Definition raw_renders (r : RawModelCardData) : bool :=
  required needs_ModelIdentification (raw_model_identification r) &&
  required needs_TrainingDataset (raw_training_dataset r) &&
  required all_objects (raw_feature_inventory r) &&
  required any_value (raw_training_configuration r) &&
  required needs_TrainingMetrics (raw_training_metrics r) &&
  required needs_ModelArchitecture (raw_model_architecture r) &&
  required needs_RawModelQuality (raw_model_quality r) &&
  required any_value (raw_technical_details r) &&
  required needs_Provenance (raw_provenance r) &&
  optional all_object_values (raw_column_statistics r).

(** The bare document with a feature inventory whose only entry is
    [null]. *)
Definition null_feature_document : RawModelCardData :=
  {| raw_model_identification := model_identification bare_document;
     raw_training_dataset := training_dataset bare_document;
     raw_feature_inventory := Val [Null];
     raw_training_configuration := training_configuration bare_document;
     raw_training_metrics := training_metrics bare_document;
     raw_model_architecture := model_architecture bare_document;
     raw_model_quality := raw_model_quality (with_entries bare_document);
     raw_technical_details := technical_details bare_document;
     raw_provenance := provenance bare_document;
     raw_column_statistics := Undefined |}.

(** ** Tables *)

Definition children (n : Component.node) : list Component.node :=
  match n with
  | Component.Element _ _ c => c
  | Component.Items l => l
  | _ => []
  end.

Definition named (name : string) (n : Component.node) : bool :=
  match n with
  | Component.Element t _ _ => String.eqb t name
  | _ => false
  end.

(** The rows in the bodies of the tables among the children of a
    section's content. *)
Definition table_rows (content : Component.node) : list Component.node :=
  flat_map children
    (flat_map children
       (filter (named "tbody")
          (flat_map children (filter (named "table") (children content))))).

(** The React key of an element. *)
Definition key (n : Component.node) : option string :=
  match n with
  | Component.Element _ props _ =>
      match own props "key" with
      | Some (Component.PStr k) => Some k
      | _ => None
      end
  | _ => None
  end.

(** The key a feature's row gets from its name. *)
Definition feature_key (feat : Feature) : option string :=
  match feat_name feat with
  | Undefined => None
  | Null => Some "null"
  | Val s => Some s
  end.

(** ** The order of the histogram *)

Definition is_index (k : string) : bool :=
  match array_index k with
  | Some _ => true
  | None => false
  end.

(** Ascending array indices. *)
Definition index_le (a b : string) : Prop :=
  match array_index a, array_index b with
  | Some x, Some y => x <= y
  | _, _ => True
  end.

(** Where a new array index [k], of value [n], goes among the keys. *)
Fixpoint insert_key (n : Z) (k : string) (keys : list string) : list string :=
  match keys with
  | [] => [k]
  | k' :: keys' =>
      match array_index k' with
      | Some n' => if n' <? n then k' :: insert_key n k keys' else k :: k' :: keys'
      | None => k :: k' :: keys'
      end
  end.

(** The keys are some array indices in ascending order, then [others]. *)
Definition indices_first (keys seen : list string) : Prop :=
  exists indices,
    keys = (indices ++ filter (fun k => negb (is_index k)) seen)%list /\
    Permutation indices (filter is_index seen) /\
    StronglySorted index_le indices.

(** ** The training duration *)

(** The same number, bit for bit. *)
Definition num_same (x y : number) : bool :=
  match x, y with
  | S754_zero s1, S754_zero s2 => Bool.eqb s1 s2
  | S754_infinity s1, S754_infinity s2 => Bool.eqb s1 s2
  | S754_nan, S754_nan => true
  | S754_finite s1 m1 e1, S754_finite s2 m2 e2 =>
      Bool.eqb s1 s2 && Pos.eqb m1 m2 && Z.eqb e1 e2
  | _, _ => false
  end.

(** [p] holds of the [fuel] integers from [from] on. *)
Fixpoint check_from (fuel : nat) (from : Z) (p : Z -> bool) : bool :=
  match fuel with
  | O => true
  | S f => p from && check_from f (from + 1) p
  end.

(** For [m] whole minutes the row shows the hours, the minutes left and
    the total with two decimals. *)
Definition duration_test (m : Z) : bool :=
  let x := num_of_Z m in
  num_same (Component.num_floor (num_div x Component.sixty)) (num_of_Z (m / 60)) &&
  num_same (Component.num_floor (Component.num_mod60 x)) (num_of_Z (m mod 60)) &&
  match toFixed x 2 with
  | Ok s => String.eqb s (decimal m ++ ".00")
  | Throw _ => false
  end.

(** The minutes of two days. *)
Definition two_days : nat := Z.to_nat 2880.

(** ** Values the stand-alone renderer cannot tell apart *)

(** A string that is missing, null or empty. *)
Definition blank_string (o : field string) : field string :=
  if truthy_string o then o else Undefined.

(** A number that is missing, null, zero or NaN. *)
Definition blank_number (o : field number) : field number :=
  if truthy_number o then o else Undefined.

Definition blank_null {A : Type} (o : field A) : field A :=
  match o with
  | Null => Undefined
  | _ => o
  end.

Definition blank_list {A : Type} (o : field (list A)) : field (list A) :=
  match o with
  | Val (a :: l) => o
  | _ => Undefined
  end.

Definition blank_ModelIdentification (mi : ModelIdentification) : ModelIdentification :=
  {| mi_session_id := blank_string (mi_session_id mi);
     mi_job_id := blank_string (mi_job_id mi);
     mi_name := blank_string (mi_name mi);
     mi_target_column := blank_string (mi_target_column mi);
     mi_target_column_type := blank_string (mi_target_column_type mi);
     mi_compute_cluster := blank_string (mi_compute_cluster mi);
     mi_training_date := blank_string (mi_training_date mi);
     mi_status := blank_string (mi_status mi);
     mi_model_type := blank_string (mi_model_type mi);
     mi_framework := blank_string (mi_framework mi) |}.

Definition blank_TrainingDataset (td : TrainingDataset) : TrainingDataset :=
  {| td_train_rows := blank_number (td_train_rows td);
     td_val_rows := td_val_rows td;
     td_total_rows := td_total_rows td;
     td_total_features := blank_number (td_total_features td);
     td_feature_names := td_feature_names td;
     td_target_column := blank_string (td_target_column td) |}.

Definition blank_ClassificationMetrics (cm : ClassificationMetrics)
  : ClassificationMetrics :=
  {| cm_accuracy := cm_accuracy cm;
     cm_precision := blank_null (cm_precision cm);
     cm_recall := blank_null (cm_recall cm);
     cm_f1 := blank_null (cm_f1 cm);
     cm_auc := blank_null (cm_auc cm);
     cm_is_binary := cm_is_binary cm |}.

Definition blank_TrainingMetrics (tm : TrainingMetrics) : TrainingMetrics :=
  {| tm_best_epoch := tm_best_epoch tm;
     tm_classification_metrics :=
       blank_null (field_map blank_ClassificationMetrics (tm_classification_metrics tm));
     tm_optimal_threshold := tm_optimal_threshold tm;
     tm_argmax_metrics := tm_argmax_metrics tm;
     tm_final_epoch := tm_final_epoch tm;
     tm_loss_progression := tm_loss_progression tm |}.

Definition blank_Warning (w : Warning) : Warning :=
  {| warn_type := blank_string (warn_type w);
     warn_severity := blank_string (warn_severity w);
     warn_message := blank_string (warn_message w);
     warn_recommendation := warn_recommendation w |}.

Definition blank_ModelQuality (mq : ModelQuality) : ModelQuality :=
  {| mq_assessment := blank_string (mq_assessment mq);
     mq_recommendations := mq_recommendations mq;
     mq_warnings := blank_list (field_map (map blank_Warning) (mq_warnings mq));
     mq_training_quality_warning := mq_training_quality_warning mq |}.

(** The document with every falsy value the stand-alone renderer reads
    replaced by a missing one: empty strings, the counts 0 and NaN, empty
    lists of warnings, and null. *)
Definition blank (d : ModelCardData) : ModelCardData :=
  {| model_identification :=
       blank_null (field_map blank_ModelIdentification (model_identification d));
     training_dataset :=
       blank_null (field_map blank_TrainingDataset (training_dataset d));
     feature_inventory := feature_inventory d;
     training_configuration := training_configuration d;
     training_metrics :=
       blank_null (field_map blank_TrainingMetrics (training_metrics d));
     model_architecture := model_architecture d;
     model_quality := blank_null (field_map blank_ModelQuality (model_quality d));
     technical_details := technical_details d;
     provenance := provenance d;
     column_statistics := column_statistics d |}.

(** The example with nulls and empty strings where [example_document]
    has nothing or null. *)
Definition example_with_blanks : ModelCardData :=
  {| model_identification := model_identification example_document;
     training_dataset := training_dataset example_document;
     feature_inventory := feature_inventory example_document;
     training_configuration := training_configuration example_document;
     training_metrics := training_metrics example_document;
     model_architecture := model_architecture example_document;
     model_quality :=
       field_map
         (fun mq =>
            {| mq_assessment := Val ""; mq_recommendations := mq_recommendations mq;
               mq_warnings := mq_warnings mq;
               mq_training_quality_warning := mq_training_quality_warning mq |})
         (model_quality example_document);
     technical_details := technical_details example_document;
     provenance := provenance example_document;
     column_statistics := column_statistics example_document |}.

(** ** The title of the page *)

(** The page up to the model name in its title. *)
Definition page_head : string :=
"<!DOCTYPE html>
<html>
<head>
    <meta charset=" ++ dq ++ "UTF-8" ++ dq ++ ">
    <title>Model Card - ".

(** A name with markup in it. *)
Definition name_with_markup : string := "</title><script>alert(1)</script>".

Definition document_named (name : string) : ModelCardData :=
  {| model_identification :=
       Val {| mi_session_id := Undefined; mi_job_id := Undefined; mi_name := Val name;
              mi_target_column := Undefined; mi_target_column_type := Undefined;
              mi_compute_cluster := Undefined; mi_training_date := Undefined;
              mi_status := Undefined; mi_model_type := Undefined;
              mi_framework := Undefined |};
     training_dataset := Undefined; feature_inventory := Undefined;
     training_configuration := Undefined; training_metrics := Undefined;
     model_architecture := Undefined; model_quality := Undefined;
     technical_details := Undefined; provenance := Undefined;
     column_statistics := Undefined |}.

(** * Properties *)

(** ** Model-type display *)

(** C6, as stated, fails: the empty model type is none of the recognised
    names, and it is displayed as "N/A", not passed through. *)
Lemma getModelTypeDisplay_empty_is_not_passed_through :
  ~ (forall modelType targetType, unrecognised modelType ->
       Component.getModelTypeDisplay (Val modelType) targetType = Ok modelType).
Proof.
  intro H. specialize (H "" Null).
  assert (U : unrecognised "") by (repeat split; discriminate).
  specialize (H U). discriminate H.
Qed.

(** C6 (amended): matching both inputs without regard to case, "embedding
    space" and "es" display as "Foundational Embedding Space"; "single
    predictor" and "sp" display by the target type, "set" as "Classifier",
    "scalar" as "Regression", anything else (null included) as "Single
    Predictor"; any other non-empty model type is passed through
    unchanged, and an empty one displays as "N/A". *)
Theorem getModelTypeDisplay_cases (modelType : string) (targetType : field string) :
  let lower := toLowerCase modelType in
  let target := toLowerCase (or_string targetType "") in
  let display := Component.getModelTypeDisplay (Val modelType) targetType in
  (lower = "embedding space" \/ lower = "es" ->
     display = Ok "Foundational Embedding Space") /\
  (lower = "single predictor" \/ lower = "sp" ->
     (target = "set" -> display = Ok "Classifier") /\
     (target = "scalar" -> display = Ok "Regression") /\
     (target <> "set" -> target <> "scalar" -> display = Ok "Single Predictor")) /\
  (unrecognised modelType -> modelType <> "" -> display = Ok modelType) /\
  (modelType = "" -> display = Ok "N/A").
Proof.
  cbv zeta. unfold Component.getModelTypeDisplay, unrecognised, truthy_string, deref, bind.
  assert (L : modelType = "" -> toLowerCase modelType = "") by (intros ->; reflexivity).
  destruct (String.eqb_spec modelType "") as [E0 | E0]; cbn [negb].
  - subst modelType. cbn.
    repeat split; intros;
      repeat match goal with H : _ \/ _ |- _ => destruct H end;
      try discriminate; congruence.
  - split; [| split; [| split]].
    + intros [H | H]; rewrite H; reflexivity.
    + intros H. repeat split.
      * intros T. destruct H as [H | H]; rewrite H; cbn; rewrite T; reflexivity.
      * intros T. destruct H as [H | H]; rewrite H; cbn; rewrite T; reflexivity.
      * intros T1 T2. apply String.eqb_neq in T1, T2.
        destruct H as [H | H]; rewrite H; cbn; rewrite T1, T2; reflexivity.
    + intros (U1 & U2 & U3 & U4) _.
      apply String.eqb_neq in U1, U2, U3, U4.
      rewrite U1, U2, U3, U4. reflexivity.
    + intros E. contradiction.
Qed.

(** The examples of the specification, and a pass-through. *)
Lemma getModelTypeDisplay_cases_witness :
  Component.getModelTypeDisplay (Val "Single Predictor") (Val "set") = Ok "Classifier" /\
  Component.getModelTypeDisplay (Val "single predictor") (Val "scalar") = Ok "Regression" /\
  Component.getModelTypeDisplay (Val "Embedding Space") Null
    = Ok "Foundational Embedding Space" /\
  Component.getModelTypeDisplay (Val "SP") (Val "Binary") = Ok "Single Predictor" /\
  Component.getModelTypeDisplay (Val "Clustering") Null = Ok "Clustering" /\
  Component.getModelTypeDisplay (Val "") Null = Ok "N/A".
Proof.
  split; [| split; [| split; [| split; [| split]]]].
  - apply (getModelTypeDisplay_cases "Single Predictor" (Val "set"));
      [left; reflexivity | reflexivity].
  - apply (getModelTypeDisplay_cases "single predictor" (Val "scalar"));
      [left; reflexivity | reflexivity].
  - apply (getModelTypeDisplay_cases "Embedding Space" Null). left; reflexivity.
  - apply (getModelTypeDisplay_cases "SP" (Val "Binary"));
      [right; reflexivity | discriminate | discriminate].
  - apply (getModelTypeDisplay_cases "Clustering" Null);
      [repeat split; discriminate | discriminate].
  - apply (getModelTypeDisplay_cases "" Null). reflexivity.
Defined.

(** ** The classification-metric series *)

Lemma gt_zero_or_zero (o : field number) :
  num_gt (or_number o num_zero) num_zero =
  match o with Val n => num_gt n num_zero | _ => false end.
Proof.
  destruct o as [| | n]; try reflexivity.
  destruct n as [s | s | | s m e]; try destruct s; reflexivity.
Qed.

Lemma or_zero_positive (n : number) :
  num_gt n num_zero = true -> or_number (Val n) num_zero = n.
Proof.
  destruct n as [s | s | | s m e]; try destruct s; try discriminate; reflexivity.
Qed.

Lemma filter_point (name : string) (o : field number) :
  filter (fun item => num_gt (Component.metric_value item) num_zero)
    [ {| Component.metric_name := name;
         Component.metric_value := or_number o num_zero |} ]
  = kept name o.
Proof.
  cbn [filter Component.metric_value]. rewrite gt_zero_or_zero.
  destruct o as [| | n]; try reflexivity.
  cbn [kept]. destruct (num_gt n num_zero) eqn:G; [| reflexivity].
  rewrite (or_zero_positive n G). reflexivity.
Qed.

Lemma kept_positive (name : string) (o : field number) (p : Component.MetricPoint) :
  In p (kept name o) -> num_gt (Component.metric_value p) num_zero = true.
Proof.
  destruct o as [| | n]; cbn; try contradiction.
  destruct (num_gt n num_zero) eqn:G; cbn; [| contradiction].
  intros [<- | []]. exact G.
Qed.

Lemma kept_present_positive (name : string) (o : field number) :
  present_positive o ->
  exists n, o = Val n /\
    kept name o = [ {| Component.metric_name := name; Component.metric_value := n |} ].
Proof.
  intros (n & -> & G). exists n. cbn. rewrite G. split; reflexivity.
Qed.

Lemma kept_name (name : string) (o : field number) (p : Component.MetricPoint) :
  In p (kept name o) -> Component.metric_name p = name.
Proof.
  destruct o as [| | n]; cbn; try contradiction.
  destruct (num_gt n num_zero); cbn; [| contradiction].
  intros [<- | []]. reflexivity.
Qed.

Lemma positive_nonzero (n : number) : num_gt n num_zero = true -> num_truthy n = true.
Proof.
  destruct n as [s | s | | s m e]; try destruct s; try discriminate; reflexivity.
Qed.

Lemma kept_dropped (name : string) (o : field number) :
  ~ present_nonzero o -> kept name o = [].
Proof.
  intros N. destruct o as [| | n]; try reflexivity.
  cbn. destruct (num_gt n num_zero) eqn:G; [| reflexivity].
  exfalso. apply N. exists n. split; [reflexivity | apply positive_nonzero, G].
Qed.

Lemma not_named (name other : string) (o : field number) :
  other <> name ->
  ~ In name (map Component.metric_name (kept other o)).
Proof.
  intros D H. apply in_map_iff in H. destruct H as (p & Hn & Hp).
  apply kept_name in Hp. congruence.
Qed.

(** C4, as stated, fails: the metrics of the example are all present and
    nonzero, yet a model type spelled "single predictor" yields no series
    at all. *)
Lemma metricsChartData_lowercase_has_no_series :
  all_metrics present_nonzero example_metrics /\
  Component.metricsChartData (Val (classifier_document "single predictor")) = Ok None.
Proof.
  split; [| reflexivity].
  repeat split; eexists; (split; [reflexivity | reflexivity]).
Qed.

(** C4 (amended): for every document whose model type is exactly "Single
    Predictor" and that has classification metrics, the series lists, in
    the fixed order Accuracy, Precision, Recall, F1, AUC, the metrics
    whose value is a number above zero; a metric that is missing, null,
    zero (or not above zero) is dropped; when all five are present and
    positive the series has exactly those 5 points in that order. *)
Theorem metricsChartData_series (d : ModelCardData) (mi : ModelIdentification)
    (tm : TrainingMetrics) (cm : ClassificationMetrics) :
  model_identification d = Val mi ->
  mi_model_type mi = Val "Single Predictor" ->
  training_metrics d = Val tm ->
  tm_classification_metrics tm = Val cm ->
  exists series,
    Component.metricsChartData (Val d) = Ok (Some series) /\
    series = (kept "Accuracy" (cm_accuracy cm) ++ kept "Precision" (cm_precision cm) ++
              kept "Recall" (cm_recall cm) ++ kept "F1" (cm_f1 cm) ++
              kept "AUC" (cm_auc cm))%list /\
    (forall p, In p series -> num_gt (Component.metric_value p) num_zero = true) /\
    (forall name o, In (name, o) (named_metrics cm) -> ~ present_nonzero o ->
       ~ In name (map Component.metric_name series)) /\
    (all_metrics present_positive cm ->
       map Component.metric_name series = metric_names /\
       map (fun p => Val (Component.metric_value p)) series =
         [cm_accuracy cm; cm_precision cm; cm_recall cm; cm_f1 cm; cm_auc cm]).
Proof.
  intros Hmi Hty Htm Hcm. eexists. split; [| split; [reflexivity | split; [| split]]].
  - unfold Component.metricsChartData, get, bind.
    rewrite Hmi, Hty, Htm, Hcm. cbn [Component.is_not String.eqb Ascii.eqb Bool.eqb negb].
    do 2 f_equal.
    change (filter ?f [?a; ?b; ?c; ?d0; ?e])
      with (filter f ([a] ++ [b] ++ [c] ++ [d0] ++ [e])%list).
    rewrite !filter_app, !filter_point. reflexivity.
  - intros p Hp. rewrite !in_app_iff in Hp.
    destruct Hp as [H | [H | [H | [H | H]]]]; eapply kept_positive; exact H.
  - intros name o Hin Hz. rewrite !map_app, !in_app_iff.
    destruct Hin as [E | [E | [E | [E | [E | []]]]]]; inversion E; subst name o;
      rewrite (kept_dropped _ _ Hz); cbn [map In];
      intros [H | [H | [H | [H | H]]]]; try contradiction;
      revert H; apply not_named; discriminate.
  - intros (Ha & Hp & Hr & Hf & Hu).
    destruct (kept_present_positive "Accuracy" _ Ha) as (a & Ea & ->).
    destruct (kept_present_positive "Precision" _ Hp) as (p & Ep & ->).
    destruct (kept_present_positive "Recall" _ Hr) as (r & Er & ->).
    destruct (kept_present_positive "F1" _ Hf) as (f & Ef & ->).
    destruct (kept_present_positive "AUC" _ Hu) as (u & Eu & ->).
    rewrite Ea, Ep, Er, Ef, Eu. split; reflexivity.
Qed.

(** The example of the specification: five points in the fixed order. *)
Lemma metricsChartData_series_witness :
  exists series,
    Component.metricsChartData (Val (classifier_document "Single Predictor"))
      = Ok (Some series) /\
    map Component.metric_name series = metric_names /\
    List.length series = 5%nat.
Proof.
  destruct (metricsChartData_series (classifier_document "Single Predictor")
              (identified_as "Single Predictor") (metrics_of example_metrics)
              example_metrics eq_refl eq_refl eq_refl eq_refl)
    as (series & Hrun & Hseries & _ & _ & Hall).
  exists series. split; [exact Hrun | split].
  - apply Hall. repeat split; eexists; (split; [reflexivity | reflexivity]).
  - rewrite Hseries. reflexivity.
Defined.

(** ** The model-type gate of the classification metrics *)

Lemma not_exactly (d : ModelCardData) :
  ~ exactly_single_predictor (Val d) ->
  match model_identification d with
  | Val mi => Component.is_not (mi_model_type mi) "Single Predictor" = true
  | _ => True
  end.
Proof.
  intros N. destruct (model_identification d) as [| | mi] eqn:Hmi; try exact I.
  destruct (mi_model_type mi) as [| | s] eqn:Hty; try reflexivity.
  cbn. destruct (String.eqb_spec s "Single Predictor") as [-> | ]; [| reflexivity].
  exfalso. apply N. exists d, mi. auto.
Qed.

(** C10: the chart series of the component and the metrics grid of the
    stand-alone HTML exist only when [model_type] is exactly the string
    "Single Predictor"; for any other value (another casing, the short
    code "sp", a missing type) there is no series and the metrics section
    is emitted without the grid. *)
Theorem classification_metrics_need_exact_model_type (data : field ModelCardData) :
  (forall series, Component.metricsChartData data = Ok (Some series) ->
     exactly_single_predictor data) /\
  (forall html, Standalone.renderTrainingMetrics data = Ok html ->
     html <> metrics_shell -> exactly_single_predictor data) /\
  (forall d, data = Val d -> ~ exactly_single_predictor data ->
     Standalone.renderTrainingMetrics data = Ok metrics_shell /\
     (forall mi, model_identification d = Val mi ->
        Component.metricsChartData data = Ok None)).
Proof.
  assert (Third : forall d, data = Val d -> ~ exactly_single_predictor data ->
     Standalone.renderTrainingMetrics data = Ok metrics_shell /\
     (forall mi, model_identification d = Val mi ->
        Component.metricsChartData data = Ok None)).
  { intros d -> N. pose proof (not_exactly d N) as G.
    unfold Standalone.renderTrainingMetrics, Component.metricsChartData, get, bind.
    destruct (model_identification d) as [| | mi]; cbn [or_empty].
    - split; [| intros mi' E; discriminate E].
      cbn. reflexivity.
    - split; [| intros mi' E; discriminate E].
      cbn. reflexivity.
    - rewrite G. split; [| intros mi' _; reflexivity].
      unfold Component.is_not in G. unfold or_string.
      destruct (mi_model_type mi) as [| | s]; try reflexivity.
      destruct (String.eqb s "") eqn:E0; [reflexivity |].
      apply negb_true_iff in G. rewrite G. reflexivity. }
  split; [| split; [| exact Third]].
  - intros series H.
    destruct data as [| | d]; try discriminate H.
    destruct (model_identification d) as [| | mi] eqn:Hmi;
      try (unfold Component.metricsChartData, get, bind in H; rewrite Hmi in H;
           discriminate H).
    destruct (mi_model_type mi) as [| | s] eqn:Hty;
      try (unfold Component.metricsChartData, get, bind in H; rewrite Hmi, Hty in H;
           discriminate H).
    unfold Component.metricsChartData, get, bind in H. rewrite Hmi, Hty in H.
    cbn [Component.is_not] in H.
    destruct (String.eqb s "Single Predictor") eqn:E; [| discriminate H].
    apply String.eqb_eq in E. subst s. exists d, mi. auto.
  - intros html H Hne.
    destruct data as [| | d]; try discriminate H.
    destruct (model_identification d) as [| | mi] eqn:Hmi.
    + exfalso. apply Hne.
      destruct (Third d eq_refl) as [R _].
      { intros (d' & mi' & E & Hmi' & _). injection E as <-. congruence. }
      congruence.
    + exfalso. apply Hne.
      destruct (Third d eq_refl) as [R _].
      { intros (d' & mi' & E & Hmi' & _). injection E as <-. congruence. }
      congruence.
    + destruct (mi_model_type mi) as [| | s] eqn:Hty.
      * exfalso. apply Hne. destruct (Third d eq_refl) as [R _].
        { intros (d' & mi' & E & Hmi' & Hty'). injection E as <-. congruence. }
        congruence.
      * exfalso. apply Hne. destruct (Third d eq_refl) as [R _].
        { intros (d' & mi' & E & Hmi' & Hty'). injection E as <-. congruence. }
        congruence.
      * destruct (String.eqb_spec s "Single Predictor") as [-> | Hs].
        -- exists d, mi. auto.
        -- exfalso. apply Hne. destruct (Third d eq_refl) as [R _].
           { intros (d' & mi' & E & Hmi' & Hty'). injection E as <-. congruence. }
           congruence.
Qed.

(** The lower-case spelling and the short code are refused. *)
Lemma classification_metrics_need_exact_model_type_witness :
  (Standalone.renderTrainingMetrics (Val (classifier_document "single predictor"))
     = Ok metrics_shell /\
   Component.metricsChartData (Val (classifier_document "single predictor")) = Ok None) /\
  (Standalone.renderTrainingMetrics (Val (classifier_document "sp")) = Ok metrics_shell /\
   Component.metricsChartData (Val (classifier_document "sp")) = Ok None) /\
  exactly_single_predictor (Val (classifier_document "Single Predictor")).
Proof.
  assert (N : forall s, s <> "Single Predictor" ->
            ~ exactly_single_predictor (Val (classifier_document s))).
  { intros s Hs (d & mi & E & Hmi & Hty). injection E as <-.
    cbn in Hmi. injection Hmi as <-. cbn in Hty. congruence. }
  split; [| split].
  - destruct (classification_metrics_need_exact_model_type
                (Val (classifier_document "single predictor"))) as (_ & _ & H).
    destruct (H _ eq_refl (N "single predictor" ltac:(discriminate))) as [R S].
    split; [exact R | exact (S _ eq_refl)].
  - destruct (classification_metrics_need_exact_model_type
                (Val (classifier_document "sp"))) as (_ & _ & H).
    destruct (H _ eq_refl (N "sp" ltac:(discriminate))) as [R S].
    split; [exact R | exact (S _ eq_refl)].
  - destruct (classification_metrics_need_exact_model_type
                (Val (classifier_document "Single Predictor"))) as (H & _ & _).
    apply (H (kept "Accuracy" (cm_accuracy example_metrics) ++
              kept "Precision" (cm_precision example_metrics) ++
              kept "Recall" (cm_recall example_metrics) ++
              kept "F1" (cm_f1 example_metrics) ++
              kept "AUC" (cm_auc example_metrics))%list).
    reflexivity.
Defined.

(** ** Sorting *)

Section SortFacts.
Context {A : Type}.
Variable compare : A -> A -> option comparison.
Variable ok : A -> Prop.

(** On the elements that are [ok] the comparator is a consistent
    ordering. *)
Hypothesis after_asym : forall a b, ok a -> ok b ->
  after compare a b = true -> after compare b a = false.
Hypothesis before_trans : forall a b c, ok a -> ok b -> ok c ->
  after compare a b = false -> after compare b c = false -> after compare a c = false.

Lemma insert_perm (x : A) (l : list A) : Permutation (insert compare x l) (x :: l).
Proof.
  induction l as [| y l IH]; cbn; [reflexivity |].
  destruct (after compare x y); [| reflexivity].
  rewrite IH. apply perm_swap.
Qed.

Lemma sort_perm (l : list A) : Permutation (sort compare l) l.
Proof.
  induction l as [| x l IH]; cbn; [constructor |].
  rewrite insert_perm. constructor. exact IH.
Qed.

Lemma sort_ok (l : list A) : Forall ok l -> Forall ok (sort compare l).
Proof.
  intros H. rewrite Forall_forall in *. intros x Hx. apply H.
  eapply Permutation_in; [apply sort_perm | exact Hx].
Qed.

Lemma insert_sorted (x : A) (l : list A) :
  ok x -> Forall ok l ->
  StronglySorted (before compare) l -> StronglySorted (before compare) (insert compare x l).
Proof.
  intros Hx Hl Hs. induction Hs as [| y l Hs IH Hy]; cbn.
  - repeat constructor.
  - inversion Hl as [| ? ? Oy Ol]; subst.
    destruct (after compare x y) eqn:E.
    + constructor; [apply IH; exact Ol |].
      rewrite Forall_forall. intros z Hz.
      apply (Permutation_in _ (insert_perm x l)) in Hz. destruct Hz as [<- | Hz].
      * apply after_asym; assumption.
      * rewrite Forall_forall in Hy. apply Hy. exact Hz.
    + constructor; [constructor; assumption |].
      constructor; [exact E |].
      rewrite Forall_forall in *. intros z Hz.
      apply (before_trans x y z); auto.
      apply Hy. exact Hz.
Qed.

Lemma sort_sorted (l : list A) :
  Forall ok l -> StronglySorted (before compare) (sort compare l).
Proof.
  induction l as [| x l IH]; intros H; cbn; [constructor |].
  inversion H; subst. apply insert_sorted.
  - assumption.
  - apply sort_ok. assumption.
  - apply IH. assumption.
Qed.

Lemma insert_stable (p x : A) (l : list A) :
  ok p -> ok x -> Forall ok l ->
  filter (tied compare p) (insert compare x l) = filter (tied compare p) (x :: l).
Proof.
  intros Hp Hx Hl. induction l as [| y l IH]; [reflexivity |].
  inversion Hl as [| ? ? Oy Ol]; subst. cbn [insert].
  destruct (after compare x y) eqn:E; [| reflexivity].
  cbn [filter]. rewrite (IH Ol). cbn [filter].
  destruct (tied compare p y) eqn:Ty; [| reflexivity].
  destruct (tied compare p x) eqn:Tx; [| reflexivity].
  exfalso. unfold tied in Ty, Tx.
  apply andb_true_iff in Ty, Tx. rewrite !negb_true_iff in Ty, Tx.
  destruct Ty as [Py Yp], Tx as [Px Xp].
  pose proof (before_trans x p y Hx Hp Oy Xp Py) as N. congruence.
Qed.

Lemma sort_stable (p : A) (l : list A) :
  ok p -> Forall ok l ->
  filter (tied compare p) (sort compare l) = filter (tied compare p) l.
Proof.
  intros Hp. induction l as [| x l IH]; intros H; [reflexivity |].
  inversion H; subst. cbn [sort fold_right].
  change (fold_right (insert compare) [] l) with (sort compare l).
  rewrite insert_stable by auto using sort_ok.
  cbn [filter]. rewrite IH by assumption. reflexivity.
Qed.

End SortFacts.

Lemma In_firstn {A : Type} (x : A) (n : nat) (l : list A) :
  In x (firstn n l) -> In x l.
Proof.
  revert l. induction n as [| n IH]; intros [| y l]; cbn; try contradiction.
  intros [E | H]; [left; exact E | right; apply IH; exact H].
Qed.

Lemma StronglySorted_firstn {A : Type} (R : A -> A -> Prop) (n : nat) (l : list A) :
  StronglySorted R l -> StronglySorted R (firstn n l).
Proof.
  intros H. revert n. induction H as [| x l Hs IH Hx]; intros [| n]; cbn;
    try constructor.
  - apply IH.
  - rewrite Forall_forall in *. intros y Hy. apply Hx.
    exact (In_firstn _ _ _ Hy).
Qed.

(** *** The order of numbers *)

Lemma ext_le_trans (a b c : ext) : ext_le a b -> ext_le b c -> ext_le a c.
Proof.
  unfold ext_le. destruct a, b, c; cbn; try congruence.
  rewrite <- !Qle_alt. apply Qle_trans.
Qed.

Lemma ext_compare_antisym (a b : ext) : ext_compare a b = Gt -> ext_compare b a <> Gt.
Proof.
  destruct a, b; cbn; try congruence.
  rewrite <- Qgt_alt, <- Qle_alt. apply Qlt_le_weak.
Qed.

Lemma or_number_value (o : field number) :
  exists a, num_value (or_number o num_zero) = Some a.
Proof.
  destruct o as [| | n]; cbn; try (eexists; reflexivity).
  destruct n as [s | s | | s m e]; cbn; try destruct s; eexists; reflexivity.
Qed.

Lemma sub_sign_gt (x y : number) (a b : ext) :
  num_value x = Some a -> num_value y = Some b ->
  (num_sub_sign x y = Some Gt <-> ext_compare a b = Gt).
Proof.
  intros Hx Hy. unfold num_sub_sign. rewrite Hx, Hy.
  destruct a, b; cbn; split; congruence.
Qed.

(** ** The column-statistics series *)

Lemma column_point_has_value (l : list (string * ColumnStats)) :
  Forall has_value (map column_point l).
Proof.
  rewrite Forall_forall. intros p Hp. apply in_map_iff in Hp.
  destruct Hp as (e & <- & _). apply or_number_value.
Qed.

Lemma after_mutual_info (p q : Component.ColumnPoint) (a b : ext) :
  num_value (Component.mutualInfo p) = Some a ->
  num_value (Component.mutualInfo q) = Some b ->
  (after Component.by_mutual_info p q = true <-> ext_compare b a = Gt).
Proof.
  intros Hp Hq. unfold after, Component.by_mutual_info.
  rewrite <- (sub_sign_gt _ _ b a Hq Hp).
  destruct (num_sub_sign _ _) as [[| |] |]; split; congruence.
Qed.

Lemma not_after_mutual_info (p q : Component.ColumnPoint) :
  has_value p -> has_value q ->
  (after Component.by_mutual_info p q = false <-> descending p q).
Proof.
  intros [a Ha] [b Hb]. pose proof (after_mutual_info p q a b Ha Hb) as H.
  unfold descending, num_le, ext_le. split.
  - intros N. exists b, a. repeat split; try assumption.
    intros G. apply H in G. congruence.
  - intros (b' & a' & Hb' & Ha' & L).
    destruct (after Component.by_mutual_info p q); [| reflexivity].
    exfalso. apply L. replace b' with b by congruence.
    replace a' with a by congruence. apply H. reflexivity.
Qed.

Lemma by_mutual_info_asym (p q : Component.ColumnPoint) :
  has_value p -> has_value q ->
  after Component.by_mutual_info p q = true ->
  after Component.by_mutual_info q p = false.
Proof.
  intros [a Ha] [b Hb] G.
  apply (after_mutual_info p q a b Ha Hb) in G.
  destruct (after Component.by_mutual_info q p) eqn:E; [| reflexivity].
  apply (after_mutual_info q p b a Hb Ha) in E.
  exfalso. exact (ext_compare_antisym _ _ G E).
Qed.

Lemma by_mutual_info_trans (p q r : Component.ColumnPoint) :
  has_value p -> has_value q -> has_value r ->
  after Component.by_mutual_info p q = false ->
  after Component.by_mutual_info q r = false ->
  after Component.by_mutual_info p r = false.
Proof.
  intros Hp Hq Hr. rewrite !not_after_mutual_info by assumption.
  unfold descending, num_le. intros (b & a & Hb & Ha & L1) (c & b' & Hc & Hb' & L2).
  exists c, a. repeat split; try assumption.
  apply (ext_le_trans c b a); [| exact L1].
  replace b with b' by congruence. exact L2.
Qed.

Lemma sorted_descending (l : list Component.ColumnPoint) :
  Forall has_value l ->
  StronglySorted (before Component.by_mutual_info) l ->
  StronglySorted descending l.
Proof.
  intros Hv Hs. induction Hs as [| x l Hs IH Hx]; constructor.
  - apply IH. inversion Hv; assumption.
  - inversion Hv as [| ? ? Vx Vl]; subst.
    rewrite Forall_forall in *. intros y Hy.
    apply not_after_mutual_info; auto.
    apply Hx. exact Hy.
Qed.

(** C5: for every document with a [column_statistics] map, the series
    maps each column to its name and mutual information ([null] counting
    as 0), sorted by descending mutual information, ties in their original
    order, and cut to the first 10; so it has at most 10 points (10 for a
    map of 12 columns) and its values do not increase. *)
Theorem columnStatisticsData_top10 (d : ModelCardData)
    (entries : list (string * ColumnStats)) :
  column_statistics d = Val entries ->
  exists sorted,
    Component.columnStatisticsData (Val d) = Ok (Some (firstn 10 sorted)) /\
    Permutation sorted (map column_point entries) /\
    StronglySorted descending sorted /\
    (forall p, In p (map column_point entries) ->
       filter (tied Component.by_mutual_info p) sorted =
       filter (tied Component.by_mutual_info p) (map column_point entries)) /\
    List.length (firstn 10 sorted) = Nat.min 10 (List.length entries) /\
    StronglySorted descending (firstn 10 sorted).
Proof.
  intros Hcs.
  pose proof (column_point_has_value entries) as Hv.
  exists (sort Component.by_mutual_info (map column_point entries)).
  assert (Hs : StronglySorted descending
                 (sort Component.by_mutual_info (map column_point entries))).
  { apply sorted_descending; [apply sort_ok; exact Hv |].
    apply (sort_sorted _ has_value by_mutual_info_asym by_mutual_info_trans).
    exact Hv. }
  split; [| split; [| split; [| split; [| split]]]].
  - unfold Component.columnStatisticsData, get, bind. rewrite Hcs.
    unfold slice0. do 4 f_equal. apply map_ext. intros [name stats]. reflexivity.
  - apply sort_perm.
  - exact Hs.
  - intros p Hp.
    apply (sort_stable _ has_value by_mutual_info_trans); [| exact Hv].
    rewrite Forall_forall in Hv. apply Hv. exact Hp.
  - rewrite length_firstn.
    rewrite (Permutation_length (sort_perm Component.by_mutual_info _)).
    rewrite length_map. reflexivity.
  - apply StronglySorted_firstn. exact Hs.
Qed.

(** Twelve columns give ten points; the tied columns keep their order and
    the two lowest are cut. *)
Lemma columnStatisticsData_top10_witness :
  exists series,
    Component.columnStatisticsData (Val embedding_document) = Ok (Some series) /\
    List.length series = 10%nat /\
    StronglySorted descending series /\
    map Component.column_name series =
      [ "annual_revenue"; "vehicle_types"; "years_in_business"; "insurance_provider";
        "miles_per_year"; "fleet_size"; "maintenance_program"; "fleet_age_avg";
        "fuel_program"; "driver_count" ].
Proof.
  destruct (columnStatisticsData_top10 embedding_document twelve_columns eq_refl)
    as (sorted & Hrun & _ & _ & _ & Hlen & Hsorted).
  exists (firstn 10 sorted). split; [exact Hrun | split; [exact Hlen | split]].
  - exact Hsorted.
  - assert (R : Component.columnStatisticsData (Val embedding_document) =
                Ok (Some (firstn 10 (sort Component.by_mutual_info
                                       (map column_point twelve_columns)))))
      by reflexivity.
    assert (E : firstn 10 sorted =
                firstn 10 (sort Component.by_mutual_info
                             (map column_point twelve_columns))) by congruence.
    rewrite E. vm_compute. reflexivity.
Defined.

(** ** The feature-type histogram *)

Lemma mem_In (k : string) (l : list string) : mem k l = true <-> In k l.
Proof.
  unfold mem. rewrite existsb_exists. split.
  - intros (x & Hx & E). apply String.eqb_eq in E. subst. exact Hx.
  - intros H. exists k. split; [exact H | apply String.eqb_refl].
Qed.

Lemma mem_false (k : string) (l : list string) : mem k l = false <-> ~ In k l.
Proof.
  rewrite <- mem_In. destruct (mem k l); split; congruence.
Qed.

Lemma first_seen_In (k : string) (l : list string) : In k (first_seen l) <-> In k l.
Proof.
  induction l as [| a l IH]; cbn; [reflexivity |].
  rewrite filter_In, IH, negb_true_iff, String.eqb_neq.
  destruct (String.eqb_spec a k) as [-> | N]; [tauto |].
  split; [tauto |]. intros [E | H]; [congruence |]. right. split; [exact H | congruence].
Qed.

Lemma first_seen_snoc (l : list string) (k : string) :
  first_seen (l ++ [k]) = if mem k l then first_seen l else (first_seen l ++ [k])%list.
Proof.
  induction l as [| a l IH]; [reflexivity |].
  cbn [app first_seen mem existsb]. fold (mem k l). rewrite IH.
  destruct (String.eqb_spec k a) as [-> | N]; cbn [orb].
  - destruct (mem a l); [reflexivity |].
    rewrite filter_app. cbn. rewrite String.eqb_refl. cbn. rewrite app_nil_r. reflexivity.
  - destruct (mem k l); [reflexivity |].
    rewrite filter_app. cbn.
    apply String.eqb_neq in N. rewrite N. reflexivity.
Qed.

Lemma occurrences_snoc (k' k : string) (l : list string) :
  occurrences k' (l ++ [k]) = occurrences k' l + (if String.eqb k' k then 1 else 0).
Proof.
  unfold occurrences. rewrite filter_app, length_app. cbn.
  destruct (String.eqb k' k); cbn; lia.
Qed.

Lemma occurrences_absent (k : string) (l : list string) :
  mem k l = false -> occurrences k l = 0.
Proof.
  unfold occurrences, mem. induction l as [| a l IH]; cbn; [reflexivity |].
  destruct (String.eqb k a); cbn; [discriminate | exact IH].
Qed.

Section Pairs.
Context {V : Type}.

Lemma own_pairs (f : string -> V) (ks : list string) (k : string) :
  own (pairs f ks) k = if mem k ks then Some (f k) else None.
Proof.
  induction ks as [| a ks IH]; [reflexivity |].
  cbn. fold (mem k ks). destruct (String.eqb_spec k a) as [-> | N]; [reflexivity |].
  exact IH.
Qed.

Lemma pairs_ext (f g : string -> V) (ks : list string) :
  (forall k, In k ks -> f k = g k) -> pairs f ks = pairs g ks.
Proof.
  intros H. apply map_ext_in. intros k Hk. rewrite (H k Hk). reflexivity.
Qed.

Lemma replace_pairs (f : string -> V) (ks : list string) (k : string) (v : V) :
  NoDup ks ->
  replace (pairs f ks) k v = pairs (fun k' => if String.eqb k' k then v else f k') ks.
Proof.
  induction 1 as [| a ks Ha Hnd IH]; [reflexivity |].
  cbn. destruct (String.eqb_spec k a) as [-> | N].
  - rewrite String.eqb_refl. f_equal. apply pairs_ext. intros k' Hk'.
    destruct (String.eqb_spec k' a) as [-> | ]; [contradiction | reflexivity].
  - destruct (String.eqb_spec a k) as [-> | ]; [contradiction |].
    f_equal. exact IH.
Qed.

End Pairs.

Lemma first_seen_NoDup (l : list string) : NoDup (first_seen l).
Proof.
  induction l as [| k l IH]; cbn; constructor.
  - rewrite filter_In, String.eqb_refl. cbn. intros [_ F]. discriminate F.
  - apply NoDup_filter. exact IH.
Qed.

(** One step of the loop, on a key that is [ordinary]. *)
Lemma increment_counts (source : string -> string) (l : list string) (k : string) :
  ordinary k ->
  Component.increment source (counts l) k = counts (l ++ [k]).
Proof.
  intros [Hidx Hinh]. unfold Component.increment, counts.
  change (map (fun k0 => (k0, Component.Count (occurrences k0 l))) (first_seen l))
    with (pairs (fun k0 => Component.Count (occurrences k0 l)) (first_seen l)).
  change (map (fun k0 => (k0, Component.Count (occurrences k0 (l ++ [k]))))
              (first_seen (l ++ [k])))
    with (pairs (fun k0 => Component.Count (occurrences k0 (l ++ [k])))
                (first_seen (l ++ [k]))).
  rewrite own_pairs, first_seen_snoc.
  assert (M : mem k (first_seen l) = mem k l).
  { destruct (mem k l) eqn:E.
    - apply mem_In, first_seen_In, mem_In. exact E.
    - apply mem_false. rewrite first_seen_In. apply mem_false. exact E. }
  rewrite M. destruct (mem k l) eqn:E.
  - unfold define. rewrite own_pairs, M.
    rewrite replace_pairs by apply first_seen_NoDup.
    apply pairs_ext. intros k' _. rewrite occurrences_snoc.
    destruct (String.eqb k' k) eqn:K.
    + apply String.eqb_eq in K. subst. reflexivity.
    + f_equal. lia.
  - rewrite Hinh. unfold define. rewrite own_pairs, M, Hidx.
    unfold pairs. rewrite map_app. cbn. f_equal.
    + apply map_ext_in. intros k' Hk'. rewrite occurrences_snoc.
      destruct (String.eqb_spec k' k) as [-> | ].
      * exfalso. apply (proj2 (mem_In k (first_seen l))) in Hk'. congruence.
      * do 2 f_equal. lia.
    + rewrite occurrences_snoc, String.eqb_refl, (occurrences_absent k l E).
      reflexivity.
Qed.

Lemma loop_counts (source : string -> string) (rest seen : list string) :
  Forall ordinary rest ->
  fold_left (Component.increment source) rest (counts seen) = counts (seen ++ rest).
Proof.
  revert seen. induction rest as [| k rest IH]; intros seen H.
  - rewrite app_nil_r. reflexivity.
  - inversion H as [| ? ? Hk Hrest]; subst. cbn [fold_left].
    rewrite increment_counts by exact Hk. rewrite IH by exact Hrest.
    rewrite <- app_assoc. reflexivity.
Qed.

Lemma fold_left_map {A B C : Type} (f : C -> B -> C) (g : A -> B) (l : list A) (c : C) :
  fold_left (fun acc a => f acc (g a)) l c = fold_left f (map g l) c.
Proof.
  revert c. induction l as [| a l IH]; intros c; [reflexivity | apply IH].
Qed.

(** C9, as stated, fails: a type string that is an array index ("2", "1")
    is enumerated before the other keys and in numeric order, whatever
    the order of first occurrence. *)
Lemma featureTypeDistribution_index_keys_come_first :
  exists points,
    Component.featureTypeDistribution v8_source
      (Val (inventory_document [typed "set"; typed "2"; typed "1"; typed "set"]))
      = Ok points /\
    map Component.type_name points = ["1"; "2"; "set"] /\
    first_seen (type_keys [typed "set"; typed "2"; typed "1"; typed "set"])
      = ["set"; "2"; "1"].
Proof.
  eexists. split; [reflexivity | split; reflexivity].
Qed.

(** C9 (amended): for every feature inventory whose type strings are
    neither array indices nor names inherited from [Object.prototype],
    the histogram gives each distinct type the count of its occurrences,
    and its points are in the order in which the types first occur. *)
Theorem featureTypeDistribution_histogram (source : string -> string)
    (d : ModelCardData) (inventory : list Feature) :
  feature_inventory d = Val inventory ->
  Forall ordinary (type_keys inventory) ->
  Component.featureTypeDistribution source (Val d)
    = Ok (histogram_spec (type_keys inventory)).
Proof.
  intros Hinv Hord.
  unfold Component.featureTypeDistribution, get, deref, bind. rewrite Hinv.
  f_equal.
  rewrite (fold_left_map (Component.increment source)
             (fun feat => property_key (feat_type feat))).
  fold (type_keys inventory).
  change (@nil (string * Component.tally)) with (counts []).
  rewrite loop_counts by exact Hord.
  unfold counts, histogram_spec. cbn [app]. rewrite map_map. reflexivity.
Qed.

Lemma featureTypeDistribution_histogram_witness :
  Component.featureTypeDistribution v8_source
    (Val (inventory_document
            [typed "scalar"; typed "set"; typed "scalar"; typed "string"; typed "set";
             typed "scalar"]))
  = Ok [ {| Component.type_name := "scalar"; Component.type_value := Component.Count 3 |};
         {| Component.type_name := "set"; Component.type_value := Component.Count 2 |};
         {| Component.type_name := "string"; Component.type_value := Component.Count 1 |} ].
Proof.
  apply (featureTypeDistribution_histogram v8_source
           (inventory_document
              [typed "scalar"; typed "set"; typed "scalar"; typed "string"; typed "set";
               typed "scalar"])
           [typed "scalar"; typed "set"; typed "scalar"; typed "string"; typed "set";
            typed "scalar"]
           eq_refl).
  repeat constructor.
Defined.

(** ** Strings and numerals *)

Lemma append_nil_r (s : string) : s ++ "" = s.
Proof. induction s as [| c s IH]; cbn; [reflexivity | rewrite IH; reflexivity]. Qed.

Lemma append_assoc (a b c : string) : (a ++ b) ++ c = a ++ b ++ c.
Proof. induction a as [| x a IH]; cbn; [reflexivity | rewrite IH; reflexivity]. Qed.

Lemma length_append (a b : string) :
  String.length (a ++ b) = (String.length a + String.length b)%nat.
Proof. induction a as [| x a IH]; cbn; [reflexivity | rewrite IH; reflexivity]. Qed.

Lemma substring0_append (a b : string) : substring0 (String.length a) (a ++ b) = a.
Proof. induction a as [| x a IH]; cbn; [destruct b | rewrite IH]; reflexivity. Qed.

Lemma substring_all (b : string) : String.substring 0 (String.length b) b = b.
Proof. induction b as [| x b IH]; cbn; [reflexivity | rewrite IH; reflexivity]. Qed.

Lemma substring_append (a b : string) :
  String.substring (String.length a) (String.length b) (a ++ b) = b.
Proof. induction a as [| x a IH]; cbn; [apply substring_all | exact IH]. Qed.

Lemma all_chars_append (p : ascii -> bool) (a b : string) :
  all_chars p (a ++ b) = all_chars p a && all_chars p b.
Proof.
  induction a as [| x a IH]; cbn; [reflexivity |].
  rewrite IH, andb_assoc. reflexivity.
Qed.

Lemma repeat_char_snoc (c : ascii) (n : nat) :
  repeat_char c n ++ String c "" = repeat_char c (S n).
Proof. induction n as [| n IH]; cbn; [reflexivity | rewrite IH; reflexivity]. Qed.

Lemma is_digit_digit_char (d : Z) : 0 <= d < 10 -> is_digit (digit_char d) = true.
Proof.
  intros H. assert (C : d = 0 \/ d = 1 \/ d = 2 \/ d = 3 \/ d = 4 \/ d = 5 \/
                        d = 6 \/ d = 7 \/ d = 8 \/ d = 9) by lia.
  repeat (destruct C as [-> | C]; [reflexivity |]). subst. reflexivity.
Qed.

(** *** The numeral of an integer *)

Lemma digits_aux_acc (fuel : nat) (n : Z) (acc : string) :
  digits_aux fuel n acc = digits_aux fuel n "" ++ acc.
Proof.
  revert n acc. induction fuel as [| k IH]; intros n acc; cbn; [reflexivity |].
  destruct (n <? 10); [reflexivity |].
  rewrite IH. rewrite (IH _ (String _ "")). rewrite append_assoc. reflexivity.
Qed.

Lemma digits_aux_fuel (k1 k2 : nat) (n : Z) (acc : string) :
  0 <= n -> n < 2 ^ Z.of_nat (S k1) -> n < 2 ^ Z.of_nat (S k2) ->
  digits_aux (S k1) n acc = digits_aux (S k2) n acc.
Proof.
  revert k2 n acc. induction k1 as [| k1 IH]; intros k2 n acc H0 H1 H2.
  - cbn in H1. cbn [digits_aux]. destruct (n <? 10) eqn:E; [reflexivity |].
    apply Z.ltb_ge in E. lia.
  - cbn [digits_aux]. destruct (n <? 10) eqn:E; [reflexivity |].
    apply Z.ltb_ge in E.
    destruct k2 as [| k2]; [cbn in H2; lia |].
    assert (D : forall k, n < 2 ^ Z.of_nat (S (S k)) -> n / 10 < 2 ^ Z.of_nat (S k)).
    { intros k Hk. apply Z.div_lt_upper_bound; [lia |].
      replace (Z.of_nat (S (S k))) with (Z.of_nat (S k) + 1) in Hk by lia.
      rewrite Z.pow_add_r in Hk by lia.
      assert (0 < 2 ^ Z.of_nat (S k)) by (apply Z.pow_pos_nonneg; lia). lia. }
    apply IH; [apply Z.div_pos; lia | apply D; exact H1 | apply D; exact H2].
Qed.

Lemma log2_fuel (n : Z) : 0 <= n -> n < 2 ^ Z.of_nat (S (Z.to_nat (Z.log2 n))).
Proof.
  intros H. rewrite Nat2Z.inj_succ, Z2Nat.id by apply Z.log2_nonneg.
  destruct (Z.eq_dec n 0) as [-> | N]; [reflexivity |].
  apply Z.log2_spec. lia.
Qed.

Lemma decimal_small (n : Z) : n < 10 -> decimal n = String (digit_char (n mod 10)) "".
Proof.
  intros H. unfold decimal. cbn [digits_aux].
  apply Z.ltb_lt in H. rewrite H. reflexivity.
Qed.

Lemma decimal_step (n : Z) :
  10 <= n -> decimal n = decimal (n / 10) ++ String (digit_char (n mod 10)) "".
Proof.
  intros H. unfold decimal at 1. cbn [digits_aux].
  assert (E : (n <? 10) = false) by (apply Z.ltb_ge; exact H). rewrite E.
  rewrite digits_aux_acc. f_equal. unfold decimal.
  assert (P : 0 <= n / 10) by (apply Z.div_pos; lia).
  assert (L : (1 <= Z.to_nat (Z.log2 n))%nat).
  { assert (3 <= Z.log2 n) by (apply Z.log2_le_pow2; cbn; lia). lia. }
  destruct (Z.to_nat (Z.log2 n)) as [| k] eqn:K; [lia |].
  apply digits_aux_fuel; [exact P | | apply log2_fuel; exact P].
  pose proof (log2_fuel n ltac:(lia)) as F. rewrite K in F.
  apply Z.div_lt_upper_bound; [lia |].
  replace (Z.of_nat (S (S k))) with (Z.of_nat (S k) + 1) in F by lia.
  rewrite Z.pow_add_r in F by lia.
  assert (0 < 2 ^ Z.of_nat (S k)) by (apply Z.pow_pos_nonneg; lia). lia.
Qed.

Lemma decimal_digits (n : Z) : 0 <= n -> all_chars is_digit (decimal n) = true.
Proof.
  intros H. remember (Z.to_nat n) as bound eqn:B.
  assert (Hb : (Z.to_nat n <= bound)%nat) by lia. clear B.
  revert n H Hb. induction bound as [| b IH]; intros n H Hb.
  - assert (n = 0) by lia. subst. reflexivity.
  - destruct (Z_lt_le_dec n 10) as [Small | Large].
    + rewrite decimal_small by exact Small. cbn [all_chars].
      rewrite is_digit_digit_char by (apply Z.mod_pos_bound; lia). reflexivity.
    + rewrite decimal_step by exact Large. rewrite all_chars_append.
      rewrite IH.
      * cbn [all_chars].
        rewrite is_digit_digit_char by (apply Z.mod_pos_bound; lia). reflexivity.
      * apply Z.div_pos; lia.
      * assert (n / 10 < n) by (apply Z.div_lt; lia). lia.
Qed.

Lemma length_last_digits (f : nat) (n : Z) : String.length (last_digits f n) = f.
Proof.
  revert n. induction f as [| f IH]; intros n; cbn; [reflexivity |].
  rewrite length_append, IH. cbn. lia.
Qed.

Lemma last_digits_digits (f : nat) (n : Z) :
  0 <= n -> all_chars is_digit (last_digits f n) = true.
Proof.
  revert n. induction f as [| f IH]; intros n H; cbn [last_digits]; [reflexivity |].
  rewrite all_chars_append, IH by (apply Z.div_pos; lia). cbn [all_chars].
  rewrite is_digit_digit_char by (apply Z.mod_pos_bound; lia). reflexivity.
Qed.

Lemma last_digits_zero (f : nat) : last_digits f 0 = repeat_char "0"%char f.
Proof.
  induction f as [| f IH]; [reflexivity |].
  cbn [last_digits]. change (0 / 10) with 0. rewrite IH.
  change (String (digit_char (0 mod 10)) "") with (String "0"%char "").
  apply repeat_char_snoc.
Qed.

Lemma decimal_split (f : nat) (n : Z) :
  10 ^ Z.of_nat f <= n ->
  decimal n = decimal (n / 10 ^ Z.of_nat f) ++ last_digits f n.
Proof.
  revert n. induction f as [| f IH]; intros n H.
  - cbn. rewrite Z.div_1_r, append_nil_r. reflexivity.
  - rewrite Nat2Z.inj_succ, Z.pow_succ_r in * by lia.
    assert (0 < 10 ^ Z.of_nat f) by (apply Z.pow_pos_nonneg; lia).
    rewrite decimal_step by lia. cbn [last_digits].
    rewrite (IH (n / 10)) by (apply Z.div_le_lower_bound; lia).
    rewrite Z.div_div by lia. rewrite append_assoc. reflexivity.
Qed.

Lemma length_decimal_small (f : nat) (n : Z) :
  0 <= n -> n < 10 ^ Z.of_nat (S f) -> (String.length (decimal n) <= S f)%nat.
Proof.
  revert n. induction f as [| f IH]; intros n H0 H.
  - rewrite decimal_small by (cbn in H; lia). cbn [String.length]. lia.
  - destruct (Z_lt_le_dec n 10) as [Small | Large].
    + rewrite decimal_small by exact Small. cbn [String.length]. lia.
    + rewrite decimal_step by exact Large. rewrite length_append. cbn [String.length].
      rewrite Nat2Z.inj_succ, Z.pow_succ_r in H by lia.
      assert (String.length (decimal (n / 10)) <= S f)%nat.
      { apply IH; [apply Z.div_pos; lia |].
        apply Z.div_lt_upper_bound; lia. }
      lia.
Qed.

Lemma length_decimal_large (f : nat) (n : Z) :
  10 ^ Z.of_nat f <= n -> (f < String.length (decimal n))%nat.
Proof.
  intros H. rewrite (decimal_split f n H), length_append, length_last_digits.
  assert (0 < 10 ^ Z.of_nat f) by (apply Z.pow_pos_nonneg; lia).
  destruct (decimal (n / 10 ^ Z.of_nat f)) eqn:E; cbn [String.length]; [| lia].
  exfalso. assert (P : 0 <= n / 10 ^ Z.of_nat f) by (apply Z.div_pos; lia).
  destruct (Z_lt_le_dec (n / 10 ^ Z.of_nat f) 10) as [Small | Large].
  - rewrite decimal_small in E by exact Small. discriminate E.
  - rewrite decimal_step in E by exact Large.
    destruct (decimal (n / 10 ^ Z.of_nat f / 10)); discriminate E.
Qed.

Lemma last_digits_small (f : nat) (n : Z) :
  0 <= n -> n < 10 ^ Z.of_nat (S f) ->
  last_digits (S f) n =
  repeat_char "0"%char (S f - String.length (decimal n)) ++ decimal n.
Proof.
  revert n. induction f as [| f IH]; intros n H0 H.
  - rewrite decimal_small by (cbn in H; lia). reflexivity.
  - destruct (Z_lt_le_dec n 10) as [Small | Large].
    + rewrite decimal_small by exact Small.
      cbn [last_digits String.length Nat.sub].
      rewrite (Z.div_small n 10) by lia. f_equal.
      exact (last_digits_zero (S f)).
    + rewrite decimal_step by exact Large. rewrite length_append.
      change (last_digits (S (S f)) n)
        with (last_digits (S f) (n / 10) ++ String (digit_char (n mod 10)) "").
      rewrite Nat2Z.inj_succ, Z.pow_succ_r in H by lia.
      rewrite IH by (try apply Z.div_pos; try apply Z.div_lt_upper_bound; lia).
      rewrite append_assoc. cbn [String.length].
      replace (S (S f) - (String.length (decimal (n / 10)) + 1))%nat
        with (S f - String.length (decimal (n / 10)))%nat by lia.
      reflexivity.
Qed.

(** [toFixed] places the point between the numeral of [n / 10^f] and the
    [f] low-order digits of [n]. *)
Lemma fixed_digits_split (n : Z) (f : nat) :
  0 <= n ->
  fixed_digits n (S f) =
  decimal (n / 10 ^ Z.of_nat (S f)) ++ "." ++ last_digits (S f) n.
Proof.
  intros H0. unfold fixed_digits.
  assert (P : 0 < 10 ^ Z.of_nat (S f)) by (apply Z.pow_pos_nonneg; lia).
  destruct (Z_lt_le_dec n (10 ^ Z.of_nat (S f))) as [Small | Large].
  - pose proof (length_decimal_small f n H0 Small) as Lk.
    apply Nat.leb_le in Lk. rewrite Lk. apply Nat.leb_le in Lk.
    rewrite Z.div_small by lia.
    replace (S f + 1 - String.length (decimal n))%nat
      with (S (S f - String.length (decimal n))) by lia.
    cbn [repeat_char append]. rewrite <- last_digits_small by assumption.
    cbn [String.length]. rewrite length_last_digits.
    replace (S (S f) - S f)%nat with 1%nat by lia.
    cbn [substring0 String.substring].
    rewrite <- (length_last_digits (S f) n) at 1.
    rewrite substring_all. reflexivity.
  - pose proof (length_decimal_large (S f) n Large) as Lk.
    assert (E : Nat.leb (String.length (decimal n)) (S f) = false)
      by (apply Nat.leb_gt; exact Lk).
    rewrite E. rewrite (decimal_split (S f) n Large) at 2 3.
    rewrite (decimal_split (S f) n Large) at 1 2.
    rewrite length_append, length_last_digits.
    replace (String.length (decimal (n / 10 ^ Z.of_nat (S f))) + S f - S f)%nat
      with (String.length (decimal (n / 10 ^ Z.of_nat (S f)))) by lia.
    rewrite substring0_append.
    rewrite <- (length_last_digits (S f) n) at 3.
    rewrite substring_append. reflexivity.
Qed.

(** ** Number formatting *)

Lemma all_zeros_no_point (s : string) : all_chars is_zero_char s = true -> no_point s = true.
Proof.
  unfold no_point. induction s as [| c s IH]; cbn [all_chars]; [reflexivity |].
  intros H. apply andb_true_iff in H. destruct H as [Hc Hs].
  rewrite (IH Hs). unfold is_zero_char in Hc. apply Ascii.eqb_eq in Hc. subst.
  reflexivity.
Qed.

Lemma digits_no_point (s : string) : all_chars is_digit s = true -> no_point s = true.
Proof.
  unfold no_point. induction s as [| c s IH]; cbn [all_chars]; [reflexivity |].
  intros H. apply andb_true_iff in H. destruct H as [Hc Hs].
  rewrite (IH Hs). destruct (Ascii.eqb_spec c "."%char) as [-> | ]; [discriminate Hc |].
  reflexivity.
Qed.

Lemma not_all_zeros_with_point (a b : string) :
  all_chars is_zero_char (a ++ String "."%char b) = false.
Proof.
  rewrite all_chars_append. cbn. apply andb_false_r.
Qed.

Lemma strip_zeros_cons (c : ascii) (s : string) :
  strip_zeros (String c s) =
  if zeros_suffix (String c s) then "" else String c (strip_zeros s).
Proof. reflexivity. Qed.

Lemma zeros_suffix_cons (c : ascii) (s : string) :
  zeros_suffix (String c s) =
  (is_zero_char c && all_chars is_zero_char s)
  || (Ascii.eqb c "."%char && negb (String.eqb s "") && all_chars is_zero_char s).
Proof. reflexivity. Qed.

Lemma drop_zeros_cons (c : ascii) (s : string) :
  drop_trailing_zeros (String c s) =
  if is_zero_char c && all_chars is_zero_char s then ""
  else String c (drop_trailing_zeros s).
Proof. reflexivity. Qed.

Lemma drop_point_cons (c : ascii) (s : string) :
  drop_trailing_point (String c s) =
  if Ascii.eqb c "."%char && String.eqb s "" then ""
  else String c (drop_trailing_point s).
Proof. reflexivity. Qed.

Lemma no_point_cons (c : ascii) (s : string) :
  no_point (String c s) = negb (Ascii.eqb c "."%char) && no_point s.
Proof. reflexivity. Qed.

(** Before the point nothing matches. *)
Lemma strip_zeros_before_point (a b : string) :
  no_point a = true ->
  strip_zeros (a ++ String "."%char b) = a ++ strip_zeros (String "."%char b).
Proof.
  induction a as [| c a IH]; intros H; [reflexivity |].
  rewrite no_point_cons in H. apply andb_true_iff in H. destruct H as [Hc Ha].
  change (String c a ++ String "."%char b) with (String c (a ++ String "."%char b)).
  rewrite strip_zeros_cons, zeros_suffix_cons.
  rewrite not_all_zeros_with_point, !andb_false_r.
  cbn [orb]. rewrite (IH Ha). reflexivity.
Qed.

Lemma drop_zeros_before_point (a b : string) :
  drop_trailing_zeros (a ++ String "."%char b) =
  a ++ String "."%char (drop_trailing_zeros b).
Proof.
  induction a as [| c a IH].
  - change ("" ++ String "."%char b) with (String "."%char b).
    rewrite drop_zeros_cons. reflexivity.
  - change (String c a ++ String "."%char b) with (String c (a ++ String "."%char b)).
    rewrite drop_zeros_cons.
    rewrite not_all_zeros_with_point, andb_false_r, IH. reflexivity.
Qed.

(** On digits the pattern can only match a run of zeros. *)
Lemma strip_zeros_digits (s : string) :
  no_point s = true -> strip_zeros s = drop_trailing_zeros s.
Proof.
  induction s as [| c s IH]; intros H; [reflexivity |].
  rewrite no_point_cons in H. apply andb_true_iff in H. destruct H as [Hc Hs].
  rewrite strip_zeros_cons, zeros_suffix_cons, drop_zeros_cons.
  apply negb_true_iff in Hc. rewrite Hc. cbn [andb]. rewrite orb_false_r.
  rewrite (IH Hs). reflexivity.
Qed.

Lemma drop_zeros_no_point (s : string) :
  no_point s = true -> no_point (drop_trailing_zeros s) = true.
Proof.
  induction s as [| c s IH]; intros H; [reflexivity |].
  rewrite drop_zeros_cons.
  destruct (is_zero_char c && all_chars is_zero_char s); [reflexivity |].
  rewrite no_point_cons in *. apply andb_true_iff in H. destruct H as [Hc Hs].
  rewrite Hc, (IH Hs). reflexivity.
Qed.

Lemma drop_zeros_empty (s : string) :
  drop_trailing_zeros s = "" <-> all_chars is_zero_char s = true.
Proof.
  destruct s as [| c s]; [cbn; tauto |].
  rewrite drop_zeros_cons. cbn [all_chars].
  destruct (is_zero_char c && all_chars is_zero_char s); split; congruence.
Qed.

Lemma drop_point_keeps (a b : string) :
  no_point b = true -> nonempty_string b = true ->
  drop_trailing_point (a ++ b) = a ++ b.
Proof.
  intros Hb Hn. induction a as [| c a IH].
  - change ("" ++ b) with b. clear Hn. induction b as [| c b IH]; [reflexivity |].
    rewrite no_point_cons in Hb. apply andb_true_iff in Hb. destruct Hb as [Hc Hb].
    rewrite drop_point_cons. apply negb_true_iff in Hc. rewrite Hc.
    cbn [andb]. rewrite (IH Hb). reflexivity.
  - change (String c a ++ b) with (String c (a ++ b)).
    rewrite drop_point_cons, IH.
    destruct (a ++ b) eqn:E.
    + destruct a; [| discriminate E]. cbn in E. subst b. discriminate Hn.
    + cbn [String.eqb]. rewrite andb_false_r. reflexivity.
Qed.

Lemma drop_point_end (a : string) : drop_trailing_point (a ++ ".") = a.
Proof.
  induction a as [| c a IH]; [reflexivity |].
  change (String c a ++ ".") with (String c (a ++ ".")).
  rewrite drop_point_cons, IH.
  destruct (a ++ ".") eqn:E.
  - destruct a; discriminate E.
  - cbn [String.eqb]. rewrite andb_false_r. reflexivity.
Qed.

(** The pattern of the source and the words of the specification agree on
    text with digits after its only point. *)
Lemma strip_zeros_spec (a b : string) :
  no_point a = true -> all_chars is_digit b = true -> nonempty_string b = true ->
  strip_zeros (a ++ String "."%char b) =
  drop_trailing_point (drop_trailing_zeros (a ++ String "."%char b)).
Proof.
  intros Ha Hb Hn. pose proof (digits_no_point b Hb) as Pb.
  rewrite strip_zeros_before_point by exact Ha. rewrite drop_zeros_before_point.
  rewrite strip_zeros_cons, zeros_suffix_cons.
  change (is_zero_char "."%char) with false.
  change (Ascii.eqb "."%char "."%char) with true.
  unfold nonempty_string in Hn. rewrite Hn. cbn [andb orb].
  destruct (all_chars is_zero_char b) eqn:Z.
  - apply drop_zeros_empty in Z. rewrite Z.
    rewrite append_nil_r. symmetry. apply drop_point_end.
  - rewrite (strip_zeros_digits b Pb).
    assert (N : nonempty_string (drop_trailing_zeros b) = true).
    { unfold nonempty_string.
      destruct (String.eqb_spec (drop_trailing_zeros b) "") as [E |]; [| reflexivity].
      apply drop_zeros_empty in E. congruence. }
    change (a ++ String "."%char (drop_trailing_zeros b))
      with (a ++ "." ++ drop_trailing_zeros b).
    rewrite <- append_assoc.
    rewrite drop_point_keeps; [reflexivity | apply drop_zeros_no_point; exact Pb | exact N].
Qed.

Lemma pow2_pos (e : Z) : (0 < pow2 e)%Q.
Proof.
  unfold pow2. destruct (0 <=? e) eqn:E.
  - apply Z.leb_le in E. unfold Qlt. cbn. rewrite Z.mul_1_r.
    apply Z.pow_pos_nonneg; lia.
  - reflexivity.
Qed.

Lemma magnitude_pos (m : positive) (e : Z) : (0 < magnitude m e)%Q.
Proof.
  unfold magnitude. apply Qmult_lt_0_compat; [reflexivity | apply pow2_pos].
Qed.

Lemma nearest_scaled_nonneg (x : Q) (f : nat) : (0 <= x)%Q -> 0 <= nearest_scaled x f.
Proof.
  intros H. unfold nearest_scaled.
  change 0 with (Qfloor 0). apply Qfloor_resp_le.
  apply Qle_trans with (y := (x * inject_Z (10 ^ Z.of_nat f))%Q).
  - apply Qmult_le_0_compat; [exact H |].
    change 0%Q with (inject_Z 0). rewrite <- Zle_Qle.
    apply Z.pow_nonneg. lia.
  - rewrite <- (Qplus_0_r (x * inject_Z (10 ^ Z.of_nat f))) at 1.
    apply Qplus_le_r. discriminate.
Qed.

Lemma abs_value_nonneg (x : number) : (0 <= abs_value x)%Q.
Proof.
  destruct x as [s | s | | s m e]; cbn; try apply Qle_refl.
  apply Qlt_le_weak, magnitude_pos.
Qed.

Lemma sign_no_point (x : number) (s : string) :
  no_point s = true -> no_point (sign_of x ++ s) = true.
Proof.
  intros H. destruct x as [b | b | | [|] m e]; cbn [sign_of append]; exact H.
Qed.

(** In its fixed-point range, and for 1 to 100 digits, [toFixed] renders
    the sign, the integer part, the point and the fraction digits. *)
Lemma toFixed_fixed_point (x : number) (p : nat) :
  fixed_range x = true -> (1 <= p <= 100)%nat ->
  toFixed x (Z.of_nat p) = Ok (fixed_point x p).
Proof.
  intros Hr Hp. unfold toFixed.
  assert (E : (Z.of_nat p <? 0) || (100 <? Z.of_nat p) = false).
  { apply orb_false_iff. split; [apply Z.ltb_ge | apply Z.ltb_ge]; lia. }
  rewrite E, Nat2Z.id.
  destruct p as [| f]; [lia |].
  unfold fixed_point.
  pose proof (nearest_scaled_nonneg (abs_value x) (S f) (abs_value_nonneg x)) as N.
  destruct x as [s | s | | s m e]; try discriminate Hr.
  - rewrite <- (fixed_digits_split _ f N). reflexivity.
  - cbn [fixed_range] in Hr. apply negb_true_iff in Hr. rewrite Hr.
    rewrite <- (fixed_digits_split _ f N). reflexivity.
Qed.

Lemma strip_fixed_point (x : number) (p : nat) :
  (1 <= p)%nat -> strip_zeros (fixed_point x p) = formatNumber_spec x p.
Proof.
  intros Hp. unfold formatNumber_spec, fixed_point.
  set (n := nearest_scaled (abs_value x) p).
  assert (N : 0 <= n) by (apply nearest_scaled_nonneg, abs_value_nonneg).
  rewrite <- (append_assoc (sign_of x)).
  change ((sign_of x ++ decimal (n / 10 ^ Z.of_nat p)) ++ "." ++ last_digits p n)
    with ((sign_of x ++ decimal (n / 10 ^ Z.of_nat p)) ++ String "."%char (last_digits p n)).
  apply strip_zeros_spec.
  - apply sign_no_point, digits_no_point, decimal_digits.
    apply Z.div_pos; [exact N | apply Z.pow_pos_nonneg; lia].
  - apply last_digits_digits. exact N.
  - unfold nonempty_string. destruct p as [| f]; [lia |].
    cbn [last_digits]. destruct (last_digits f (n / 10)); reflexivity.
Qed.

(** C7, as stated, fails: from 10^21 on [toFixed] answers in exponent
    notation, as ECMAScript has it, and no zero ends that numeral, so the
    replacement leaves it as it is.  10^21 is formatted "1e+21"; its
    fixed-point rendering is the 22-digit integer. *)
Lemma formatValue_exponent_notation :
  Component.formatValue (AnyNumber ten_to_21) (Some 4) = Ok "1e+21" /\
  Standalone.formatValue (AnyNumber ten_to_21) (Some 4) = Ok "1e+21" /\
  formatNumber_spec ten_to_21 4 = "1000000000000000000000".
Proof.
  split; [| split]; vm_compute; reflexivity.
Qed.

(** C7 (amended): for every finite number [v] below 10^21 in magnitude and
    every precision [p] from 1 to 100, [formatValue(v, p)], in the
    component and in the stand-alone script, is the fixed-point rendering
    of [v] to [p] digits with trailing zeros stripped, and the point
    stripped too when no fraction digit is left. *)
Theorem formatValue_fixed_point (v : number) (p : Z) :
  fixed_range v = true -> 1 <= p <= 100 ->
  Component.formatValue (AnyNumber v) (Some p) = Ok (formatNumber_spec v (Z.to_nat p)) /\
  Standalone.formatValue (AnyNumber v) (Some p) = Ok (formatNumber_spec v (Z.to_nat p)).
Proof.
  intros Hr Hp.
  assert (T : toFixed v p = Ok (fixed_point v (Z.to_nat p))).
  { rewrite <- (Z2Nat.id p) at 1 by lia. apply toFixed_fixed_point; [exact Hr | lia]. }
  assert (S : strip_zeros (fixed_point v (Z.to_nat p)) = formatNumber_spec v (Z.to_nat p))
    by (apply strip_fixed_point; lia).
  split.
  - unfold Component.formatValue, bind. rewrite T, S. reflexivity.
  - unfold Standalone.formatValue, bind.
    assert (E : (p =? 0) = false) by (apply Z.eqb_neq; lia).
    rewrite E, T, S. reflexivity.
Qed.

(** The examples of the specification: 0.9 and 1.0 at precision 4. *)
Lemma formatValue_fixed_point_witness :
  Component.formatValue (AnyNumber (num_of_decimal 9 1)) (Some 4) = Ok "0.9" /\
  Standalone.formatValue (AnyNumber (num_of_decimal 9 1)) (Some 4) = Ok "0.9" /\
  Component.formatValue (AnyNumber (num_of_Z 1)) (Some 4) = Ok "1" /\
  Standalone.formatValue (AnyNumber (num_of_Z 1)) (Some 4) = Ok "1".
Proof.
  assert (R9 : fixed_range (num_of_decimal 9 1) = true) by (vm_compute; reflexivity).
  assert (R1 : fixed_range (num_of_Z 1) = true) by (vm_compute; reflexivity).
  assert (P : 1 <= 4 <= 100) by lia.
  destruct (formatValue_fixed_point (num_of_decimal 9 1) 4 R9 P) as [C9 S9].
  destruct (formatValue_fixed_point (num_of_Z 1) 4 R1 P) as [C1 S1].
  assert (E9 : formatNumber_spec (num_of_decimal 9 1) (Z.to_nat 4) = "0.9")
    by (vm_compute; reflexivity).
  assert (E1 : formatNumber_spec (num_of_Z 1) (Z.to_nat 4) = "1")
    by (vm_compute; reflexivity).
  rewrite E9 in C9, S9. rewrite E1 in C1, S1. repeat split; assumption.
Defined.

(** ** Percentages *)

(** C8, as stated, fails: for [null] the stand-alone script answers with
    markup around the sentinel, not with the bare string "N/A". *)
Lemma formatPercentage_null_is_marked_up :
  Standalone.formatPercentage Null = Ok "<em>N/A</em>" /\
  Standalone.formatPercentage Null <> Ok "N/A".
Proof.
  split; [reflexivity | discriminate].
Qed.

(** C8 (amended): for every number [v] whose product [v * 100] is finite
    and below 10^21 in magnitude, [formatPercentage(v)] is that product in
    fixed-point notation with exactly two fraction digits, followed by
    "%", in both renderers; for [null] the component returns "N/A" and
    the stand-alone script "<em>N/A</em>". *)
Theorem formatPercentage_two_decimals (v : number) :
  fixed_range (num_mul v hundred) = true ->
  Component.formatPercentage (Val v) = Ok (fixed_point (num_mul v hundred) 2 ++ "%") /\
  Standalone.formatPercentage (Val v) = Ok (fixed_point (num_mul v hundred) 2 ++ "%") /\
  String.length
    (last_digits 2 (nearest_scaled (abs_value (num_mul v hundred)) 2)) = 2%nat /\
  Component.formatPercentage Null = Ok "N/A" /\
  Standalone.formatPercentage Null = Ok "<em>N/A</em>".
Proof.
  intros Hr.
  pose proof (toFixed_fixed_point (num_mul v hundred) 2 Hr ltac:(lia)) as T.
  change (Z.of_nat 2) with 2 in T.
  repeat split.
  - unfold Component.formatPercentage, bind. rewrite T. reflexivity.
  - unfold Standalone.formatPercentage, bind. rewrite T. reflexivity.
Qed.

(** The example of the specification: 0.452 is shown as 45.20%. *)
Lemma formatPercentage_two_decimals_witness :
  Component.formatPercentage (Val (num_of_decimal 452 3)) = Ok "45.20%" /\
  Standalone.formatPercentage (Val (num_of_decimal 452 3)) = Ok "45.20%".
Proof.
  assert (R : fixed_range (num_mul (num_of_decimal 452 3) hundred) = true)
    by (vm_compute; reflexivity).
  destruct (formatPercentage_two_decimals (num_of_decimal 452 3) R) as (C & S & _).
  assert (E : fixed_point (num_mul (num_of_decimal 452 3) hundred) 2 ++ "%" = "45.20%")
    by (vm_compute; reflexivity).
  rewrite E in C, S. split; assumption.
Defined.

(** ** The stand-alone renderer returns *)

Lemma bind_Ok {A B : Type} (c : result A) (k : A -> result B) (b : B) :
  bind c k = Ok b -> exists a, c = Ok a /\ k a = Ok b.
Proof.
  destruct c as [a | e]; cbn; [| discriminate]. intros H. exists a. auto.
Qed.

Lemma returns_bind {A B : Type} (c : result A) (k : A -> result B) :
  returns c -> (forall a, returns (k a)) -> returns (bind c k).
Proof.
  intros [a ->] H. cbn. apply H.
Qed.

Lemma Ok_inj {A : Type} (a b : A) : Ok a = Ok b -> a = b.
Proof. intros H. injection H as H. exact H. Qed.

Lemma returns_Ok {A : Type} (a : A) : returns (Ok a).
Proof. exists a. reflexivity. Qed.

Lemma toFixed_returns (x : number) (d : Z) : 0 <= d <= 100 -> returns (toFixed x d).
Proof.
  intros H. unfold toFixed.
  assert (E : (d <? 0) || (100 <? d) = false).
  { apply orb_false_iff. split; apply Z.ltb_ge; lia. }
  rewrite E. destruct x as [s | s | | s m e]; try apply returns_Ok.
  destruct (Qle_bool _ _); apply returns_Ok.
Qed.

Lemma metric_cell_returns (x : field number) : returns (Standalone.metric_cell x).
Proof.
  unfold Standalone.metric_cell, toFixed_of.
  destruct x as [| | n]; cbn [is_nullish negb deref bind]; try apply returns_Ok.
  apply toFixed_returns. lia.
Qed.

Lemma renderModelIdentification_returns (d : ModelCardData) :
  returns (Standalone.renderModelIdentification (Val d)).
Proof.
  unfold Standalone.renderModelIdentification. cbn [get bind].
  destruct (mi_session_id (or_empty (model_identification d) no_ModelIdentification))
    as [| | s]; cbn; try apply returns_Ok.
  destruct (String.eqb s ""); apply returns_Ok.
Qed.

Lemma renderTrainingDataset_returns (toLocaleString : number -> string)
    (d : ModelCardData) :
  returns (Standalone.renderTrainingDataset toLocaleString (Val d)).
Proof. apply returns_Ok. Qed.

Lemma renderTrainingMetrics_returns (d : ModelCardData) :
  returns (Standalone.renderTrainingMetrics (Val d)).
Proof.
  unfold Standalone.renderTrainingMetrics. cbn [get bind].
  apply returns_bind; [| intros; apply returns_Ok].
  destruct (String.eqb _ "Single Predictor" && _) eqn:G; [| apply returns_Ok].
  apply andb_true_iff in G. destruct G as [_ G].
  destruct (tm_classification_metrics _) as [| | cm]; try discriminate G.
  cbn [deref bind].
  repeat (apply returns_bind; [apply metric_cell_returns | intros]).
  apply returns_Ok.
Qed.

Lemma renderModelQuality_returns (d : ModelCardData) :
  returns (Standalone.renderModelQuality (Val d)).
Proof.
  unfold Standalone.renderModelQuality. cbn [get bind].
  set (mq := or_empty (model_quality d) no_ModelQuality).
  apply returns_bind.
  - unfold Standalone.getQualityColor.
    destruct (mq_assessment mq) as [| | a]; cbn; try apply returns_Ok.
    destruct (String.eqb a ""); cbn; [apply returns_Ok |].
    repeat (match goal with |- context [if ?b then _ else _] => destruct b end);
      apply returns_Ok.
  - intros html. apply returns_bind; [| intros; apply returns_Ok].
    destruct (mq_warnings mq) as [| | [| w ws]]; cbn; apply returns_Ok.
Qed.

(** The output is the document template around the clock reading; the
    name and the sections come from the document alone. *)
Lemma renderHTML_shape (toLocaleString : number -> string) (d : ModelCardData) :
  exists modelName sections, forall now,
    Standalone.renderHTML toLocaleString now (Val d) =
    Ok (Templates.html_document modelName (toUpperCase modelName)
          (Standalone.dateStr now) sections).
Proof.
  destruct (renderModelIdentification_returns d) as [s1 E1].
  destruct (renderTrainingDataset_returns toLocaleString d) as [s2 E2].
  destruct (renderTrainingMetrics_returns d) as [s3 E3].
  destruct (renderModelQuality_returns d) as [s4 E4].
  eexists. eexists. intros now.
  unfold Standalone.renderHTML. rewrite E1, E2, E3, E4. cbn [get bind]. reflexivity.
Qed.

Lemma append_inv_head (a x y : string) : a ++ x = a ++ y -> x = y.
Proof.
  induction a as [| c a IH]; cbn; [auto |]. intros H. injection H as H. auto.
Qed.

Lemma append_inv_tail (b x y : string) : x ++ b = y ++ b -> x = y.
Proof.
  revert y. induction x as [| c x IH]; intros [| c' y] H.
  - reflexivity.
  - exfalso. apply (f_equal String.length) in H.
    cbn in H. rewrite length_append in H. lia.
  - exfalso. apply (f_equal String.length) in H.
    cbn in H. rewrite length_append in H. lia.
  - cbn in H. injection H as -> H. f_equal. apply IH. exact H.
Qed.

Lemma html_document_date (modelName upper sections date1 date2 : string) :
  Templates.html_document modelName upper date1 sections =
  Templates.html_document modelName upper date2 sections ->
  date1 = date2.
Proof.
  unfold Templates.html_document. intros H.
  repeat apply append_inv_head in H.
  apply append_inv_tail in H. exact H.
Qed.

(** C3, as stated, fails: [renderHTML] writes the time of the call into
    the page, so the same document rendered a second later gives another
    output. *)
Lemma renderHTML_differs_a_second_later :
  Standalone.renderHTML plain_locale morning
    (Val (classifier_document "Single Predictor")) <>
  Standalone.renderHTML plain_locale a_second_later
    (Val (classifier_document "Single Predictor")).
Proof.
  destruct (renderHTML_shape plain_locale (classifier_document "Single Predictor"))
    as (modelName & sections & E).
  rewrite !E. intros H. apply Ok_inj, html_document_date in H. discriminate H.
Qed.

(** C3 (amended): [renderHTML] is a function of the document and of the
    clock reading, to the second: two invocations on the same document
    return the same output exactly when their date strings agree.  The
    section renderers do not read the clock. *)
Theorem renderHTML_depends_on_the_clock (toLocaleString : number -> string)
    (d : ModelCardData) (now1 now2 : Date) :
  Standalone.renderHTML toLocaleString now1 (Val d) =
  Standalone.renderHTML toLocaleString now2 (Val d)
  <-> Standalone.dateStr now1 = Standalone.dateStr now2.
Proof.
  destruct (renderHTML_shape toLocaleString d) as (modelName & sections & E).
  rewrite !E. split.
  - intros H. apply Ok_inj in H. exact (html_document_date _ _ _ _ _ H).
  - intros ->. reflexivity.
Qed.

(** ** Sections without data *)

Ltac invert_binds H :=
  repeat match type of H with
  | bind _ _ = Ok _ =>
      let x := fresh "x" in
      let E := fresh "E" in
      apply bind_Ok in H; destruct H as (x & E & H)
  end.

Lemma header_is_no_section (data : field ModelCardData) (h : Component.node) :
  Component.header data = Ok h -> section_id h = [].
Proof.
  unfold Component.header. intros H. invert_binds H.
  apply Ok_inj in H. subst h. reflexivity.
Qed.

Lemma column_statistics_section_id (expandedSections : list string)
    (series : option (list Component.ColumnPoint)) (d : ModelCardData)
    (n : Component.node) :
  Component.column_statistics_section expandedSections series (Val d) = Ok n ->
  section_id n = if has_columns d then ["column-statistics"] else [].
Proof.
  unfold Component.column_statistics_section, has_columns. cbn [get bind].
  destruct (column_statistics d) as [| | [| e entries]]; intros H;
    try (apply Ok_inj in H; subst n; reflexivity).
  invert_binds H. apply Ok_inj in H. subst n. reflexivity.
Qed.

(** C1, as stated, fails: with no model-quality data at all the
    stand-alone renderer still emits the Model Quality section, an empty
    shell with just its title, and so does the whole page. *)
Lemma renderModelQuality_emits_a_titled_shell :
  Standalone.renderModelQuality (Val no_document) = Ok quality_shell /\
  includes "Model Quality" quality_shell = true /\
  exists html,
    Standalone.renderHTML plain_locale morning (Val no_document) = Ok html /\
    includes quality_shell html = true.
Proof.
  split; [reflexivity | split; [reflexivity |]].
  eexists. split; [reflexivity |]. vm_compute. reflexivity.
Qed.

(** C1 (amended): the stand-alone renderer always emits the Model Quality
    section with its title; when there is no assessment and no warning it
    emits nothing inside it.  The component always renders the nine fixed
    sections, Model Quality among them, and renders the Column Statistics
    section only when [column_statistics] is an object with at least one
    key: when it is missing, null or empty the section is absent from the
    returned tree. *)
Theorem sections_without_data (source : string -> string)
    (toLocaleString : number -> string) (expandedSections : list string)
    (d : ModelCardData) (className : option string) :
  (quality_is_silent d = true ->
     Standalone.renderModelQuality (Val d) = Ok quality_shell) /\
  (forall card,
     Component.ModelCard source toLocaleString expandedSections (Val d) className = Ok card ->
     section_ids card =
       (fixed_sections ++ if has_columns d then ["column-statistics"] else [])%list).
Proof.
  split.
  - unfold quality_is_silent, Standalone.renderModelQuality. cbn [get bind].
    intros H. apply andb_true_iff in H. destruct H as [Ha Hw].
    apply negb_true_iff in Ha, Hw. rewrite Ha. cbn [bind].
    destruct (mq_warnings _) as [| | [| w ws]]; try discriminate Hw; reflexivity.
  - intros card H. unfold Component.ModelCard in H. invert_binds H.
    apply Ok_inj in H. subst card.
    match goal with
    | E : Component.header _ = Ok ?h |- _ => pose proof (header_is_no_section _ _ E) as Hh
    end.
    match goal with
    | E : Component.column_statistics_section _ _ _ = Ok ?n |- _ =>
        pose proof (column_statistics_section_id _ _ _ _ E) as Hc
    end.
    unfold section_ids, Component.el. cbn [flat_map].
    rewrite Hh, Hc, app_nil_r. reflexivity.
Qed.

(** No model-quality data and no column statistics: the shell of Model
    Quality is emitted, and the component renders nine sections; with two
    columns it renders the tenth. *)
Lemma sections_without_data_witness :
  Standalone.renderModelQuality (Val silent_document) = Ok quality_shell /\
  (exists card,
     Component.ModelCard v8_source plain_locale Component.initial_expanded
       (Val silent_document) None = Ok card /\
     section_ids card = fixed_sections) /\
  (exists card,
     Component.ModelCard v8_source plain_locale Component.initial_expanded
       (Val example_document) None = Ok card /\
     section_ids card = (fixed_sections ++ ["column-statistics"])%list).
Proof.
  destruct (sections_without_data v8_source plain_locale Component.initial_expanded
              silent_document None) as [Hq Hs].
  destruct (sections_without_data v8_source plain_locale Component.initial_expanded
              example_document None) as [_ He].
  split; [apply Hq; reflexivity | split].
  - destruct (Component.ModelCard v8_source plain_locale Component.initial_expanded
                (Val silent_document) None) as [card | e] eqn:E;
      [| vm_compute in E; discriminate E].
    exists card. split; [reflexivity |].
    rewrite (Hs card eq_refl). apply app_nil_r.
  - destruct (Component.ModelCard v8_source plain_locale Component.initial_expanded
                (Val example_document) None) as [card | e] eqn:E;
      [| vm_compute in E; discriminate E].
    exists card. split; [reflexivity |].
    rewrite (He card eq_refl). reflexivity.
Defined.

(** ** Documents of the declared type *)

Lemma required_Val {A : Type} (p : A -> bool) (o : field A) :
  required p o = true -> exists a, o = Val a /\ p a = true.
Proof. destruct o as [| | a]; try discriminate. intros H. exists a. auto. Qed.

Lemma nullable_defined {A : Type} (p : A -> bool) (o : field A) :
  nullable p o = true -> o = Null \/ exists a, o = Val a /\ p a = true.
Proof.
  destruct o as [| | a]; try discriminate; [left; reflexivity |].
  intros H. right. exists a. auto.
Qed.

(** Splits a conjunction of checks into its parts. *)
Ltac split_checks H :=
  repeat match type of H with
  | (_ && _) = true =>
      let H' := fresh H in
      apply andb_true_iff in H; destruct H as [H H']
  end.

(** Names the value of every required property among the hypotheses. *)
Ltac use_required :=
  repeat match goal with
  | H : required _ ?o = true |- _ =>
      let a := fresh "v" in
      let E := fresh "E" in
      apply required_Val in H; destruct H as (a & E & H); rewrite ?E in *
  end.

Lemma formatValue_returns (o : field number) (p : option Z) :
  match p with Some d => 0 <= d <= 100 | None => True end ->
  returns (Component.formatValue (any_of_number o) p).
Proof.
  intros H. unfold Component.formatValue.
  destruct o as [| | n]; try apply returns_Ok. cbn [any_of_number].
  apply returns_bind; [| intros; apply returns_Ok].
  destruct p as [d |]; apply toFixed_returns; lia.
Qed.

Lemma formatPercentage_returns (o : field number) :
  returns (Component.formatPercentage o).
Proof.
  unfold Component.formatPercentage. destruct o as [| | v]; try apply returns_Ok;
    (apply returns_bind; [apply toFixed_returns; lia | intros; apply returns_Ok]).
Qed.

Lemma mapM_returns {A B : Type} (f : A -> result B) (l : list A) :
  Forall (fun a => returns (f a)) l -> returns (mapM f l).
Proof.
  induction 1 as [| a l Ha Hl IH]; cbn [mapM]; [apply returns_Ok |].
  apply returns_bind; [exact Ha | intros b].
  apply returns_bind; [exact IH | intros bs]. apply returns_Ok.
Qed.

Lemma sequence_mapi_returns {A B : Type} (f : nat -> A -> result B) (l : list A) :
  (forall i a, In a l -> returns (f i a)) ->
  returns (Component.sequence (Component.mapi f l)).
Proof.
  unfold Component.sequence, Component.mapi. generalize 0%nat.
  induction l as [| a l IH]; intros i H; cbn [Component.mapi_from mapM];
    [apply returns_Ok |].
  apply returns_bind; [apply H; left; reflexivity | intros b].
  apply returns_bind; [| intros bs; apply returns_Ok].
  apply IH. intros j a' Ha'. apply H. right. exact Ha'.
Qed.

(** ** The component returns on documents of the declared type *)

Lemma get2_Val {R S A : Type} (r : R) (p : R -> field S) (q : S -> field A) (s : S) :
  p r = Val s -> Component.get2 (Val r) p q = Ok (q s).
Proof. intros H. unfold Component.get2, get, bind. rewrite H. reflexivity. Qed.

Lemma get3_Val {R S T A : Type} (r : R) (p : R -> field S) (q : S -> field T)
    (u : T -> field A) (s : S) (t : T) :
  p r = Val s -> q s = Val t -> Component.get3 (Val r) p q u = Ok (u t).
Proof.
  intros H1 H2. unfold Component.get3. rewrite (get2_Val r p q s H1).
  unfold get, bind. rewrite H2. reflexivity.
Qed.

Ltac branches :=
  repeat match goal with
  | |- context [if ?b then _ else _] => destruct b
  end.

Lemma getModelTypeDisplay_returns (modelType targetType : field string) :
  returns (Component.getModelTypeDisplay modelType targetType).
Proof.
  unfold Component.getModelTypeDisplay.
  destruct modelType as [| | m]; cbn [truthy_string negb]; try apply returns_Ok.
  destruct (String.eqb m ""); cbn [negb deref bind]; [apply returns_Ok |].
  branches; apply returns_Ok.
Qed.

Lemma getStatusColor_returns (s : string) : returns (Component.getStatusColor (Val s)).
Proof. unfold Component.getStatusColor. cbn [deref bind]. branches; apply returns_Ok. Qed.

Lemma getSeverityColor_returns (s : string) :
  returns (Component.getSeverityColor (Val s)).
Proof. unfold Component.getSeverityColor. cbn [deref bind]. branches; apply returns_Ok. Qed.

Lemma getQualityColor_returns (assessment : field string) :
  returns (Component.getQualityColor assessment).
Proof.
  unfold Component.getQualityColor.
  destruct assessment as [| | a]; cbn [truthy_string negb]; try apply returns_Ok.
  destruct (String.eqb a ""); cbn [negb deref bind]; [apply returns_Ok |].
  branches; apply returns_Ok.
Qed.

Ltac solve_returns :=
  repeat first
    [ apply returns_Ok
    | progress cbn [bind deref get]
    | apply formatValue_returns; first [exact I | lia]
    | apply formatPercentage_returns
    | apply getModelTypeDisplay_returns
    | apply getStatusColor_returns
    | apply getSeverityColor_returns
    | apply getQualityColor_returns
    | apply toFixed_returns; lia
    | apply returns_bind; [| intros ] ].

Lemma header_returns (d : ModelCardData) (mi : ModelIdentification) :
  model_identification d = Val mi -> returns (Component.header (Val d)).
Proof.
  intros Hmi. unfold Component.header.
  rewrite !(get2_Val d _ _ mi Hmi). solve_returns.
Qed.

Lemma model_identification_content_returns (d : ModelCardData)
    (mi : ModelIdentification) :
  model_identification d = Val mi -> conforms_ModelIdentification mi = true ->
  returns (Component.model_identification_content (Val d)).
Proof.
  intros Hmi C. unfold Component.model_identification_content.
  rewrite !(get2_Val d _ _ mi Hmi).
  unfold conforms_ModelIdentification in C. split_checks C. use_required.
  solve_returns.
Qed.

Lemma classification_metrics_block_returns (series : option (list Component.MetricPoint))
    (cm : ClassificationMetrics) :
  returns (Component.classification_metrics_block series cm).
Proof. unfold Component.classification_metrics_block. solve_returns. Qed.

Lemma optimal_threshold_block_returns (ot : OptimalThreshold) :
  returns (Component.optimal_threshold_block ot).
Proof. unfold Component.optimal_threshold_block. solve_returns. Qed.

Lemma when_object_returns {A : Type} (o : field A) (block : A -> result Component.node) :
  (forall a, returns (block a)) -> returns (Component.when_object o block).
Proof. intros H. destruct o as [| | a]; cbn; [apply returns_Ok .. | apply H]. Qed.

Lemma training_metrics_content_returns (series : option (list Component.MetricPoint))
    (d : ModelCardData) (tm : TrainingMetrics) :
  training_metrics d = Val tm -> conforms_TrainingMetrics tm = true ->
  returns (Component.training_metrics_content series (Val d)).
Proof.
  intros Htm C. unfold Component.training_metrics_content.
  unfold conforms_TrainingMetrics in C. split_checks C.
  apply required_Val in C. destruct C as (be & Ebe & _).
  rewrite !(get3_Val d _ _ _ tm be Htm Ebe), !(get2_Val d _ _ tm Htm).
  repeat first
    [ apply when_object_returns; intros
    | apply classification_metrics_block_returns
    | apply optimal_threshold_block_returns
    | apply returns_Ok
    | progress cbn [bind]
    | apply formatValue_returns; exact I
    | apply returns_bind; [| intros ] ].
Qed.

Lemma warning_item_returns (idx : nat) (w : Warning) :
  conforms_Warning w = true -> returns (Component.warning_item idx w).
Proof.
  intros C. unfold Component.warning_item.
  unfold conforms_Warning in C. split_checks C. use_required. solve_returns.
Qed.

Lemma model_quality_content_returns (d : ModelCardData) (mq : ModelQuality) :
  model_quality d = Val mq -> conforms_ModelQuality mq = true ->
  returns (Component.model_quality_content (Val d)).
Proof.
  intros Hmq C. unfold Component.model_quality_content.
  rewrite !(get2_Val d _ _ mq Hmq).
  unfold conforms_ModelQuality in C. split_checks C.
  apply required_Val in C1. destruct C1 as (ws & Ews & Hws). rewrite Ews.
  cbn [bind deref].
  apply returns_bind.
  { destruct (truthy_string (mq_assessment mq)); solve_returns. }
  intros block. apply returns_bind; [| intros; apply returns_Ok].
  destruct ws as [| w ws]; [apply returns_Ok |].
  apply returns_bind; [| intros; apply returns_Ok].
  apply sequence_mapi_returns. intros i a Ha.
  apply warning_item_returns.
  rewrite forallb_forall in Hws. apply Hws. exact Ha.
Qed.

Lemma training_dataset_content_returns (toLocaleString : number -> string)
    (points : list Component.TypePoint) (d : ModelCardData) (td : TrainingDataset) :
  training_dataset d = Val td -> conforms_TrainingDataset td = true ->
  returns (Component.training_dataset_content toLocaleString points (Val d)).
Proof.
  intros Htd C. unfold Component.training_dataset_content.
  rewrite !(get2_Val d _ _ td Htd).
  unfold conforms_TrainingDataset in C. split_checks C. use_required.
  solve_returns.
Qed.

Lemma statistics_cell_returns (st : Statistics) :
  returns (Component.statistics_cell st).
Proof. unfold Component.statistics_cell. solve_returns. Qed.

Lemma feature_row_returns (feat : Feature) : returns (Component.feature_row feat).
Proof.
  unfold Component.feature_row.
  apply returns_bind; [| intros; apply returns_Ok].
  destruct (feat_statistics feat); [apply returns_Ok .. | apply statistics_cell_returns].
Qed.

Lemma feature_inventory_content_returns (d : ModelCardData) (inventory : list Feature) :
  feature_inventory d = Val inventory ->
  returns (Component.feature_inventory_content (Val d)).
Proof.
  intros H. unfold Component.feature_inventory_content. cbn [get bind].
  rewrite H. cbn [deref bind].
  apply returns_bind; [| intros; apply returns_Ok].
  apply mapM_returns. rewrite Forall_forall. intros feat _. apply feature_row_returns.
Qed.

Lemma dropout_rows_returns (ds : DropoutSchedule) : returns (Component.dropout_rows ds).
Proof. unfold Component.dropout_rows. solve_returns. Qed.

Lemma training_configuration_content_returns (d : ModelCardData)
    (tc : TrainingConfiguration) :
  training_configuration d = Val tc ->
  returns (Component.training_configuration_content (Val d)).
Proof.
  intros H. unfold Component.training_configuration_content.
  rewrite !(get2_Val d _ _ tc H).
  repeat first
    [ apply when_object_returns; intros
    | apply dropout_rows_returns
    | apply returns_Ok
    | progress cbn [bind]
    | apply formatValue_returns; exact I
    | apply returns_bind; [| intros ] ].
Qed.

Lemma model_architecture_content_returns (toLocaleString : number -> string)
    (d : ModelCardData) (ma : ModelArchitecture) :
  model_architecture d = Val ma -> conforms_ModelArchitecture ma = true ->
  returns (Component.model_architecture_content toLocaleString (Val d)).
Proof.
  intros H C. unfold Component.model_architecture_content.
  rewrite !(get2_Val d _ _ ma H).
  unfold conforms_ModelArchitecture in C.
  destruct (ma_predictor_layers ma), (ma_predictor_parameters ma),
    (ma_embedding_space_d_model ma);
    cbn in C; try discriminate C; unfold Component.unless_null; solve_returns.
Qed.

Lemma technical_details_content_returns (d : ModelCardData) (t : TechnicalDetails) :
  technical_details d = Val t -> returns (Component.technical_details_content (Val d)).
Proof.
  intros H. unfold Component.technical_details_content.
  rewrite !(get2_Val d _ _ t H). solve_returns.
Qed.

Lemma provenance_content_returns (d : ModelCardData) (p : Provenance) :
  provenance d = Val p -> conforms_Provenance p = true ->
  returns (Component.provenance_content (Val d)).
Proof.
  intros H C. unfold Component.provenance_content.
  rewrite !(get2_Val d _ _ p H).
  unfold conforms_Provenance in C. split_checks C.
  destruct (nullable_defined _ _ C0) as [E | (n & E & _)]; rewrite E;
    unfold Component.unless_null, Component.duration_row, toFixed_of;
    solve_returns.
Qed.

Lemma column_row_returns (entry : string * ColumnStats) :
  returns (Component.column_row entry).
Proof. destruct entry as [name stats]. unfold Component.column_row. solve_returns. Qed.

Lemma column_statistics_section_returns (expandedSections : list string)
    (series : option (list Component.ColumnPoint)) (d : ModelCardData) :
  returns (Component.column_statistics_section expandedSections series (Val d)).
Proof.
  unfold Component.column_statistics_section. cbn [get bind].
  destruct (column_statistics d) as [| | [| e entries]]; try apply returns_Ok.
  apply returns_bind; [| intros; apply returns_Ok].
  unfold Component.column_statistics_content.
  apply returns_bind; [| intros; apply returns_Ok].
  apply mapM_returns. rewrite Forall_forall. intros entry _. apply column_row_returns.
Qed.

Lemma metricsChartData_returns (d : ModelCardData) (mi : ModelIdentification)
    (tm : TrainingMetrics) :
  model_identification d = Val mi -> training_metrics d = Val tm ->
  returns (Component.metricsChartData (Val d)).
Proof.
  intros Hmi Htm. unfold Component.metricsChartData. cbn [get bind].
  rewrite Hmi. cbn [get bind].
  destruct (Component.is_not (mi_model_type mi) "Single Predictor");
    [apply returns_Ok |].
  rewrite Htm. cbn [get bind].
  destruct (tm_classification_metrics tm); apply returns_Ok.
Qed.

Lemma featureTypeDistribution_returns (source : string -> string) (d : ModelCardData)
    (inventory : list Feature) :
  feature_inventory d = Val inventory ->
  returns (Component.featureTypeDistribution source (Val d)).
Proof.
  intros H. unfold Component.featureTypeDistribution. cbn [get bind].
  rewrite H. apply returns_Ok.
Qed.

Lemma columnStatisticsData_returns (d : ModelCardData) :
  returns (Component.columnStatisticsData (Val d)).
Proof.
  unfold Component.columnStatisticsData. cbn [get bind].
  destruct (column_statistics d); apply returns_Ok.
Qed.

Lemma ModelCard_returns (source : string -> string) (toLocaleString : number -> string)
    (expandedSections : list string) (d : ModelCardData) (className : option string) :
  conforms d = true ->
  returns (Component.ModelCard source toLocaleString expandedSections (Val d) className).
Proof.
  intros C. unfold conforms in C. split_checks C.
  apply required_Val in C. destruct C as (mi & Hmi & Cmi).
  apply required_Val in C8. destruct C8 as (td & Htd & Ctd).
  apply required_Val in C7. destruct C7 as (fi & Hfi & _).
  apply required_Val in C6. destruct C6 as (tc & Htc & _).
  apply required_Val in C5. destruct C5 as (tm & Htm & Ctm).
  apply required_Val in C4. destruct C4 as (ma & Hma & Cma).
  apply required_Val in C3. destruct C3 as (mq & Hmq & Cmq).
  apply required_Val in C2. destruct C2 as (tech & Htech & _).
  apply required_Val in C1. destruct C1 as (prov & Hprov & Cprov).
  unfold Component.ModelCard.
  apply returns_bind; [eapply metricsChartData_returns; eassumption | intros].
  apply returns_bind; [eapply featureTypeDistribution_returns; eassumption | intros].
  apply returns_bind; [apply columnStatisticsData_returns | intros].
  apply returns_bind; [eapply header_returns; eassumption | intros].
  apply returns_bind;
    [eapply model_identification_content_returns; eassumption | intros].
  apply returns_bind; [eapply training_metrics_content_returns; eassumption | intros].
  apply returns_bind; [eapply model_quality_content_returns; eassumption | intros].
  apply returns_bind; [eapply training_dataset_content_returns; eassumption | intros].
  apply returns_bind; [eapply feature_inventory_content_returns; eassumption | intros].
  apply returns_bind;
    [eapply training_configuration_content_returns; eassumption | intros].
  apply returns_bind; [eapply model_architecture_content_returns; eassumption | intros].
  apply returns_bind; [eapply technical_details_content_returns; eassumption | intros].
  apply returns_bind; [eapply provenance_content_returns; eassumption | intros].
  apply returns_bind; [apply column_statistics_section_returns | intros].
  apply returns_Ok.
Qed.

(** ** Missing and null properties *)


(** ** Documents whose entries are objects *)

Lemma objects_map_Val {A : Type} (l : list A) : objects (map Val l) = l.
Proof. induction l as [| a l IH]; [reflexivity |]. cbn. f_equal. exact IH. Qed.

Lemma object_values_map_Val {A : Type} (l : list (string * A)) :
  object_values (map (fun '(name, a) => (name, Val a)) l) = l.
Proof.
  induction l as [| [name a] l IH]; [reflexivity |]. cbn. f_equal. exact IH.
Qed.

Lemma map_Val_objects {A : Type} (l : list (field A)) :
  all_objects l = true -> map Val (objects l) = l.
Proof.
  induction l as [| [| | a] l IH]; cbn; try discriminate; [reflexivity |].
  intros H. f_equal. apply IH, H.
Qed.

Lemma map_Val_object_values {A : Type} (l : list (string * field A)) :
  all_object_values l = true ->
  map (fun '(name, a) => (name, Val a)) (object_values l) = l.
Proof.
  induction l as [| [name [| | a]] l IH]; cbn; try discriminate; [reflexivity |].
  intros H. f_equal. apply IH, H.
Qed.

(** A document whose entries are objects, taken among all documents and
    back, is the document. *)
Lemma without_with_entries (d : ModelCardData) :
  without_null_entries (with_entries d) = d.
Proof.
  destruct d as [mi td inventory tc tm ma mq tech prov cs].
  unfold without_null_entries, with_entries.
  cbn [raw_model_identification raw_training_dataset raw_feature_inventory
       raw_training_configuration raw_training_metrics raw_model_architecture
       raw_model_quality raw_technical_details raw_provenance raw_column_statistics
       model_identification training_dataset feature_inventory training_configuration
       training_metrics model_architecture model_quality technical_details provenance
       column_statistics].
  f_equal.
  - destruct inventory; cbn [field_map]; rewrite ?objects_map_Val; reflexivity.
  - destruct mq as [| | [assessment recommendations warnings note]];
      cbn [field_map raw_assessment raw_recommendations raw_warnings
           raw_training_quality_warning mq_assessment mq_recommendations mq_warnings
           mq_training_quality_warning]; try reflexivity.
    destruct recommendations, warnings; cbn [field_map];
      rewrite ?objects_map_Val; reflexivity.
  - destruct cs; cbn [field_map]; rewrite ?object_values_map_Val; reflexivity.
Qed.

Lemma with_without_entries (r : RawModelCardData) :
  entries_are_objects r = true -> with_entries (without_null_entries r) = r.
Proof.
  destruct r as [mi td inventory tc tm ma mq tech prov cs].
  unfold entries_are_objects, without_null_entries, with_entries.
  cbn [raw_model_identification raw_training_dataset raw_feature_inventory
       raw_training_configuration raw_training_metrics raw_model_architecture
       raw_model_quality raw_technical_details raw_provenance raw_column_statistics
       model_identification training_dataset feature_inventory training_configuration
       training_metrics model_architecture model_quality technical_details provenance
       column_statistics].
  intros H. apply andb_true_iff in H. destruct H as [H Hcs].
  apply andb_true_iff in H. destruct H as [Hinv Hmq].
  f_equal.
  - destruct inventory; cbn [field_map optional] in *;
      rewrite ?map_Val_objects by exact Hinv; reflexivity.
  - destruct mq as [| | [assessment recommendations warnings note]];
      cbn [field_map optional raw_assessment raw_recommendations raw_warnings
           raw_training_quality_warning mq_assessment mq_recommendations mq_warnings
           mq_training_quality_warning] in *; try reflexivity.
    apply andb_true_iff in Hmq. destruct Hmq as [Hr Hw].
    destruct recommendations, warnings; cbn [field_map optional] in *;
      rewrite ?map_Val_objects by assumption; reflexivity.
  - destruct cs; cbn [field_map optional] in *;
      rewrite ?map_Val_object_values by exact Hcs; reflexivity.
Qed.

Lemma foldM_entries {A B : Type} (f : B -> A -> B) (l : list A) (b : B) :
  foldM (fun b entry => a <- deref entry ;; Ok (f b a)) (map Val l) b
  = Ok (fold_left f l b).
Proof.
  revert b. induction l as [| a l IH]; intros b; [reflexivity |].
  cbn [map foldM deref bind fold_left]. apply IH.
Qed.

Lemma mapM_entries {A B : Type} (f : A -> result B) (l : list A) :
  mapM (fun entry => a <- deref entry ;; f a) (map Val l) = mapM f l.
Proof.
  induction l as [| a l IH]; [reflexivity |].
  cbn [map mapM deref bind]. rewrite IH. reflexivity.
Qed.

Lemma mapi_entries {A B : Type} (f : nat -> A -> result B) (l : list A) (i : nat) :
  Component.mapi_from i (fun idx entry => a <- deref entry ;; f idx a) (map Val l)
  = Component.mapi_from i f l.
Proof.
  revert i. induction l as [| a l IH]; intros i; [reflexivity |].
  cbn [map Component.mapi_from deref bind]. rewrite IH. reflexivity.
Qed.

Lemma sequence_Ok {A B : Type} (f : nat -> A -> B) (l : list A) (i : nat) :
  mapM (fun r => r) (Component.mapi_from i (fun idx a => Ok (f idx a)) l)
  = Ok (Component.mapi_from i f l).
Proof.
  revert i. induction l as [| a l IH]; intros i; [reflexivity |].
  cbn [Component.mapi_from mapM bind]. rewrite IH. reflexivity.
Qed.

(** On a document whose entries are objects the functions of [Raw] are
    those of [Standalone] and [Component]. *)
Lemma Raw_renderModelQuality_with_entries (d : ModelCardData) :
  Raw.renderModelQuality (Val (with_entries d)) = Standalone.renderModelQuality (Val d).
Proof.
  unfold Raw.renderModelQuality, Standalone.renderModelQuality, with_entries.
  cbn [get bind raw_model_quality model_quality].
  destruct (model_quality d) as [| | mq]; cbn [field_map or_empty]; try reflexivity.
  cbn [raw_assessment raw_warnings].
  match goal with |- bind ?c _ = bind ?c _ => destruct c as [html | e] end;
    [| reflexivity].
  cbn [bind]. destruct (mq_warnings mq) as [| | [| w ws]]; try reflexivity.
  cbn [field_map truthy_object is_nullish negb Standalone.nonempty map andb deref bind].
  change (Val w :: map Val ws) with (map Val (w :: ws)).
  unfold Raw.render_warning. rewrite foldM_entries. reflexivity.
Qed.

Lemma Raw_renderHTML_with_entries (toLocaleString : number -> string) (now : Date)
    (d : ModelCardData) :
  Raw.renderHTML toLocaleString now (Val (with_entries d))
  = Standalone.renderHTML toLocaleString now (Val d).
Proof.
  unfold Raw.renderHTML, Standalone.renderHTML. cbn [field_map].
  rewrite without_with_entries, Raw_renderModelQuality_with_entries. reflexivity.
Qed.

Lemma Raw_featureTypeDistribution_with_entries (source : string -> string)
    (d : ModelCardData) :
  Raw.featureTypeDistribution source (Val (with_entries d))
  = Component.featureTypeDistribution source (Val d).
Proof.
  unfold Raw.featureTypeDistribution, Component.featureTypeDistribution, with_entries.
  cbn [get bind raw_feature_inventory].
  destruct (feature_inventory d) as [| | inventory]; try reflexivity.
  cbn [field_map deref bind].
  rewrite (foldM_entries
             (fun typeCounts feat =>
                Component.increment source typeCounts (property_key (feat_type feat)))).
  reflexivity.
Qed.

Lemma Raw_columnStatisticsData_with_entries (d : ModelCardData) :
  Raw.columnStatisticsData (Val (with_entries d)) = Component.columnStatisticsData (Val d).
Proof.
  unfold Raw.columnStatisticsData, Component.columnStatisticsData, with_entries.
  cbn [get bind raw_column_statistics].
  destruct (column_statistics d) as [| | entries]; try reflexivity.
  cbn [field_map].
  assert (E : forall l : list (string * ColumnStats),
            mapM (fun '(name, stats) =>
                    stats <- deref stats ;;
                    Ok {| Component.column_name := name;
                          Component.mutualInfo :=
                            or_number (cs_mutual_information_bits stats) num_zero;
                          Component.marginalLoss :=
                            or_number (cs_marginal_loss stats) num_zero |})
              (map (fun '(name, stats) => (name, Val stats)) l)
            = Ok (map (fun '(name, stats) =>
                         {| Component.column_name := name;
                            Component.mutualInfo :=
                              or_number (cs_mutual_information_bits stats) num_zero;
                            Component.marginalLoss :=
                              or_number (cs_marginal_loss stats) num_zero |}) l)).
  { induction l as [| [name stats] l IH]; [reflexivity |].
    cbn [map mapM deref bind]. rewrite IH. reflexivity. }
  rewrite E. reflexivity.
Qed.

Lemma Raw_model_quality_content_with_entries (d : ModelCardData) :
  Raw.model_quality_content (Val (with_entries d))
  = Component.model_quality_content (Val d).
Proof.
  unfold Raw.model_quality_content, Component.model_quality_content, Component.get2,
    with_entries.
  cbn [get bind raw_model_quality].
  destruct (model_quality d) as [| | mq]; try reflexivity.
  cbn [field_map get bind raw_assessment raw_recommendations raw_warnings].
  match goal with |- bind ?c _ = bind ?c _ => destruct c as [block | e] end;
    [| reflexivity].
  cbn [bind].
  assert (R : match field_map (map Val) (mq_recommendations mq) with
              | Val (r :: rs) =>
                  items <- Component.sequence
                             (Component.mapi Raw.recommendation_item (r :: rs)) ;;
                  Ok (Component.tag "div"
                        [ Component.tag "h3" [Component.Text "Recommendations"];
                          Component.tag "ul" [Component.Items items] ])
              | _ => Ok Component.Nothing
              end
              = Ok match mq_recommendations mq with
                   | Val (r :: rs) =>
                       Component.tag "div"
                         [ Component.tag "h3" [Component.Text "Recommendations"];
                           Component.tag "ul"
                             [Component.Items
                                (Component.mapi Component.recommendation_item
                                   (r :: rs))] ]
                   | _ => Component.Nothing
                   end).
  { destruct (mq_recommendations mq) as [| | [| r rs]]; try reflexivity.
    cbn [field_map]. change (map Val (r :: rs)) with (@map _ (field _) Val (r :: rs)).
    cbn [map]. change (Val r :: map Val rs) with (map Val (r :: rs)).
    unfold Component.sequence, Component.mapi, Raw.recommendation_item.
    rewrite (mapi_entries (fun idx rec => Ok (Component.recommendation_item idx rec))).
    rewrite sequence_Ok. reflexivity. }
  rewrite R. cbn [bind].
  destruct (mq_warnings mq) as [| | warnings]; try reflexivity.
  cbn [field_map deref bind].
  destruct warnings as [| w ws]; [reflexivity |].
  cbn [map]. change (Val w :: map Val ws) with (map Val (w :: ws)).
  unfold Component.sequence, Component.mapi, Raw.warning_item.
  rewrite (mapi_entries Component.warning_item). reflexivity.
Qed.

Lemma Raw_feature_inventory_content_with_entries (d : ModelCardData) :
  Raw.feature_inventory_content (Val (with_entries d))
  = Component.feature_inventory_content (Val d).
Proof.
  unfold Raw.feature_inventory_content, Component.feature_inventory_content, with_entries.
  cbn [get bind raw_feature_inventory].
  destruct (feature_inventory d) as [| | inventory]; try reflexivity.
  cbn [field_map deref bind]. unfold Raw.feature_row.
  rewrite (mapM_entries Component.feature_row). reflexivity.
Qed.

Lemma Raw_column_rows_with_entries (l : list (string * ColumnStats)) :
  mapM Raw.column_row (map (fun '(name, stats) => (name, Val stats)) l)
  = mapM Component.column_row l.
Proof.
  induction l as [| [name stats] l IH]; [reflexivity |].
  cbn [map mapM Raw.column_row deref bind]. rewrite IH. reflexivity.
Qed.

Lemma Raw_column_statistics_section_with_entries (expandedSections : list string)
    (series : option (list Component.ColumnPoint)) (d : ModelCardData) :
  Raw.column_statistics_section expandedSections series (Val (with_entries d))
  = Component.column_statistics_section expandedSections series (Val d).
Proof.
  unfold Raw.column_statistics_section, Component.column_statistics_section, with_entries.
  cbn [get bind raw_column_statistics].
  destruct (column_statistics d) as [| | [| [name stats] entries]]; try reflexivity.
  cbn [field_map map].
  unfold Raw.column_statistics_content, Component.column_statistics_content.
  change ((name, Val stats) :: map (fun '(name, stats) => (name, Val stats)) entries)
    with (map (fun '(name, stats) => (name, @Val ColumnStats stats))
            ((name, stats) :: entries)).
  rewrite Raw_column_rows_with_entries. reflexivity.
Qed.

Lemma Raw_ModelCard_with_entries (source : string -> string)
    (toLocaleString : number -> string) (expandedSections : list string)
    (d : ModelCardData) (className : option string) :
  Raw.ModelCard source toLocaleString expandedSections (Val (with_entries d)) className
  = Component.ModelCard source toLocaleString expandedSections (Val d) className.
Proof.
  unfold Raw.ModelCard, Component.ModelCard. cbn [field_map].
  rewrite without_with_entries, Raw_featureTypeDistribution_with_entries,
    Raw_columnStatisticsData_with_entries, Raw_model_quality_content_with_entries,
    Raw_feature_inventory_content_with_entries.
  repeat match goal with
  | |- bind ?c _ = bind ?c _ => destruct c; cbn [bind]; [| reflexivity]
  end.
  rewrite Raw_column_statistics_section_with_entries. reflexivity.
Qed.

(** ** The stand-alone renderer on every document *)

Lemma render_warnings_returns (warnings : list (field Warning)) (html : string) :
  all_objects warnings = true -> returns (foldM Raw.render_warning warnings html).
Proof.
  revert html. induction warnings as [| [| | w] ws IH]; intros html; cbn; try discriminate.
  - intros _. apply returns_Ok.
  - apply IH.
Qed.

Lemma Raw_renderModelQuality_returns (r : RawModelCardData) :
  warnings_are_objects r = true -> returns (Raw.renderModelQuality (Val r)).
Proof.
  unfold warnings_are_objects, Raw.renderModelQuality. cbn [get bind]. intros W.
  assert (W' : optional all_objects
                 (raw_warnings (or_empty (raw_model_quality r) no_RawModelQuality))
               = true).
  { destruct (raw_model_quality r) as [| | mq]; [reflexivity .. | exact W]. }
  clear W. set (mq := or_empty (raw_model_quality r) no_RawModelQuality) in *.
  apply returns_bind.
  - unfold Standalone.getQualityColor.
    destruct (raw_assessment mq) as [| | a]; cbn; try apply returns_Ok.
    destruct (String.eqb a ""); cbn; [apply returns_Ok |].
    repeat (match goal with |- context [if ?b then _ else _] => destruct b end);
      apply returns_Ok.
  - intros html. apply returns_bind; [| intros; apply returns_Ok].
    destruct (raw_warnings mq) as [| | [| w ws]]; cbn [truthy_object is_nullish negb
      Standalone.nonempty andb deref bind optional] in *; try apply returns_Ok.
    apply returns_bind; [| intros; apply returns_Ok].
    apply render_warnings_returns, W'.
Qed.

(** A null entry among the warnings makes the stand-alone renderer
    throw: [warning.severity] is read of it. *)
Lemma Raw_renderHTML_throws_on_null_warning :
  Raw.renderHTML plain_locale morning (Val null_warning_document) = Throw TypeError.
Proof. reflexivity. Qed.

(** *** Sentinels *)

Lemma or_string_shown (sentinel : string) (o : field string) :
  String.eqb sentinel "" = false ->
  or_string (shown sentinel o) sentinel = or_string o sentinel.
Proof.
  intros N. unfold shown. cbn [or_string].
  assert (E : String.eqb (or_string o sentinel) "" = false).
  { destruct o as [| | s]; cbn [or_string]; try exact N.
    destruct (String.eqb s "") eqn:Es; [exact N | exact Es]. }
  rewrite E. reflexivity.
Qed.

Lemma or_number_counted (o : field number) :
  or_number (counted o) num_zero = or_number o num_zero.
Proof.
  unfold counted. cbn [or_number].
  destruct (num_truthy (or_number o num_zero)) eqn:E; [reflexivity |].
  destruct o as [| | n]; cbn [or_number] in *; try reflexivity.
  destruct (num_truthy n) eqn:T; [congruence | reflexivity].
Qed.

Lemma getStatusColor_shown (status : field string) :
  Standalone.getStatusColor (shown "N/A" status) = Standalone.getStatusColor status.
Proof.
  unfold Standalone.getStatusColor, shown. cbn [or_string].
  destruct status as [| | s]; cbn [or_string]; try reflexivity.
  destruct (String.eqb s "") eqn:E; [| rewrite E; reflexivity].
  reflexivity.
Qed.

Lemma getSeverityColor_shown (severity : field string) :
  Standalone.getSeverityColor (shown "UNKNOWN" severity)
  = Standalone.getSeverityColor severity.
Proof.
  unfold Standalone.getSeverityColor, shown. cbn [or_string].
  destruct severity as [| | s]; cbn [or_string]; try reflexivity.
  destruct (String.eqb s "") eqn:E; [| rewrite E; reflexivity].
  reflexivity.
Qed.

Lemma render_warning_sentinels (html : string) (w : Warning) :
  Standalone.render_warning html (sentinels_Warning w) = Standalone.render_warning html w.
Proof.
  unfold Standalone.render_warning, sentinels_Warning.
  cbn [warn_severity warn_type warn_message].
  rewrite getSeverityColor_shown, !or_string_shown by reflexivity. reflexivity.
Qed.

Lemma render_warnings_sentinels (warnings : list (field Warning)) (html : string) :
  foldM Raw.render_warning (map (field_map sentinels_Warning) warnings) html
  = foldM Raw.render_warning warnings html.
Proof.
  revert html. induction warnings as [| [| | w] ws IH]; intros html; try reflexivity.
  cbn [map field_map foldM Raw.render_warning deref bind].
  rewrite render_warning_sentinels. apply IH.
Qed.

Section Sentinels.
Variable r : RawModelCardData.

Local Notation "'plain'" := (Val (without_null_entries r)).
Local Notation "'filled'" := (Val (without_null_entries (with_sentinels r))).

Lemma renderModelIdentification_sentinels :
  Standalone.renderModelIdentification filled = Standalone.renderModelIdentification plain.
Proof.
  unfold Standalone.renderModelIdentification, without_null_entries, with_sentinels.
  cbn [get bind model_identification raw_model_identification or_empty].
  set (mi := or_empty (raw_model_identification r) no_ModelIdentification).
  unfold sentinels_ModelIdentification.
  cbn [mi_session_id mi_status mi_compute_cluster mi_training_date mi_job_id
       mi_model_type mi_target_column mi_target_column_type mi_framework].
  rewrite getStatusColor_shown, !or_string_shown by reflexivity.
  destruct (mi_session_id mi) as [| | s]; try reflexivity.
  unfold shown. cbn [or_string truthy_string].
  destruct (String.eqb s "") eqn:E; [reflexivity |].
  rewrite E. reflexivity.
Qed.

Lemma renderTrainingDataset_sentinels (toLocaleString : number -> string) :
  Standalone.renderTrainingDataset toLocaleString filled
  = Standalone.renderTrainingDataset toLocaleString plain.
Proof.
  unfold Standalone.renderTrainingDataset, without_null_entries, with_sentinels.
  cbn [get bind model_identification raw_model_identification training_dataset
       raw_training_dataset or_empty].
  unfold sentinels_ModelIdentification, sentinels_TrainingDataset.
  cbn [td_train_rows td_total_features td_target_column mi_target_column_type].
  rewrite !or_number_counted, !or_string_shown by reflexivity. reflexivity.
Qed.

Lemma renderTrainingMetrics_sentinels :
  Standalone.renderTrainingMetrics filled = Standalone.renderTrainingMetrics plain.
Proof.
  unfold Standalone.renderTrainingMetrics, without_null_entries, with_sentinels.
  cbn [get bind model_identification raw_model_identification training_metrics
       raw_training_metrics or_empty].
  set (mi := or_empty (raw_model_identification r) no_ModelIdentification).
  unfold sentinels_ModelIdentification. cbn [mi_model_type].
  assert (E : String.eqb (or_string (shown "N/A" (mi_model_type mi)) "") "Single Predictor"
              = String.eqb (or_string (mi_model_type mi) "") "Single Predictor").
  { unfold shown. destruct (mi_model_type mi) as [| | s]; cbn [or_string];
      try reflexivity.
    destruct (String.eqb s "") eqn:Es; [reflexivity |]. rewrite Es. reflexivity. }
  rewrite E. reflexivity.
Qed.

Lemma Raw_renderModelQuality_sentinels :
  Raw.renderModelQuality (Val (with_sentinels r)) = Raw.renderModelQuality (Val r).
Proof.
  unfold Raw.renderModelQuality, with_sentinels. cbn [get bind raw_model_quality].
  destruct (raw_model_quality r) as [| | mq]; cbn [field_map or_empty]; try reflexivity.
  cbn [raw_assessment raw_warnings].
  match goal with |- bind ?c _ = bind ?c _ => destruct c as [html | e] end;
    [| reflexivity].
  cbn [bind]. destruct (raw_warnings mq) as [| | [| w ws]]; try reflexivity.
  cbn [field_map truthy_object is_nullish negb Standalone.nonempty map andb deref bind].
  change (field_map sentinels_Warning w :: map (field_map sentinels_Warning) ws)
    with (map (field_map sentinels_Warning) (w :: ws)).
  rewrite render_warnings_sentinels. reflexivity.
Qed.

Lemma Raw_renderHTML_sentinels (toLocaleString : number -> string) (now : Date) :
  Raw.renderHTML toLocaleString now (Val (with_sentinels r))
  = Raw.renderHTML toLocaleString now (Val r).
Proof.
  unfold Raw.renderHTML. cbn [field_map].
  rewrite renderModelIdentification_sentinels,
    (renderTrainingDataset_sentinels toLocaleString), renderTrainingMetrics_sentinels,
    Raw_renderModelQuality_sentinels.
  unfold with_sentinels at 1. cbn [get bind raw_model_identification or_empty].
  unfold sentinels_ModelIdentification. cbn [mi_name].
  rewrite or_string_shown by reflexivity. reflexivity.
Qed.

Lemma Raw_renderHTML_returns (toLocaleString : number -> string) (now : Date) :
  warnings_are_objects r = true ->
  returns (Raw.renderHTML toLocaleString now (Val r)).
Proof.
  intros W. unfold Raw.renderHTML. cbn [field_map get bind].
  apply returns_bind; [apply renderModelIdentification_returns | intros].
  apply returns_bind; [apply renderTrainingDataset_returns | intros].
  apply returns_bind; [apply renderTrainingMetrics_returns | intros].
  apply returns_bind; [apply Raw_renderModelQuality_returns, W | intros].
  apply returns_Ok.
Qed.

End Sentinels.

Lemma raw_conforms_returns (r : RawModelCardData) (source : string -> string)
    (toLocaleString : number -> string) (expandedSections : list string)
    (className : option string) :
  raw_conforms r = true ->
  returns (Raw.ModelCard source toLocaleString expandedSections (Val r) className).
Proof.
  unfold raw_conforms. intros H. apply andb_true_iff in H. destruct H as [E C].
  rewrite <- (with_without_entries r E), Raw_ModelCard_with_entries.
  apply ModelCard_returns, C.
Qed.



(** * The component's state *)

(** ** The set of expanded sections *)

Ltac eqb_cases a b E :=
  destruct (String.eqb a b) eqn:E;
  [apply String.eqb_eq in E | apply String.eqb_neq in E].

Lemma has_app (a b : list string) (k : string) :
  Component.has (a ++ b) k = Component.has a k || Component.has b k.
Proof. unfold Component.has. apply existsb_app. Qed.

Lemma has_remove (l : list string) (sectionId k : string) :
  Component.has (filter (fun x => negb (String.eqb x sectionId)) l) k =
  Component.has l k && negb (String.eqb k sectionId).
Proof.
  unfold Component.has. induction l as [| x l IH]; [reflexivity |].
  cbn [filter existsb].
  eqb_cases x sectionId Hx; cbn [negb existsb].
  - rewrite IH. subst x. eqb_cases k sectionId Hk; cbn.
    + rewrite !andb_false_r. reflexivity.
    + rewrite !andb_true_r. reflexivity.
  - rewrite IH. eqb_cases k x Hk; cbn; [| reflexivity].
    subst x. apply String.eqb_neq in Hx. rewrite Hx. reflexivity.
Qed.

Lemma has_In (l : list string) (k : string) : Component.has l k = true <-> In k l.
Proof.
  unfold Component.has. rewrite existsb_exists. split.
  - intros (x & Hx & E). apply String.eqb_eq in E. subst x. exact Hx.
  - intros H. exists k. split; [exact H | apply String.eqb_refl].
Qed.

Lemma has_toggle (prev : list string) (sectionId k : string) :
  Component.has (Component.toggleSection prev sectionId) k =
  if String.eqb k sectionId then negb (Component.has prev sectionId)
  else Component.has prev k.
Proof.
  unfold Component.toggleSection.
  destruct (Component.has prev sectionId) eqn:H.
  - rewrite has_remove.
    eqb_cases k sectionId Hk; cbn.
    + apply andb_false_r.
    + apply andb_true_r.
  - rewrite has_app. unfold Component.has at 2. cbn [existsb].
    rewrite orb_false_r.
    eqb_cases k sectionId Hk; cbn.
    + subst k. rewrite H. reflexivity.
    + apply orb_false_r.
Qed.

Lemma remove_absent (l : list string) (sectionId : string) :
  Component.has l sectionId = false ->
  filter (fun x => negb (String.eqb x sectionId)) l = l.
Proof.
  unfold Component.has. induction l as [| x l IH]; [reflexivity |].
  cbn [existsb filter]. intros H. apply orb_false_iff in H. destruct H as [Hx Hl].
  rewrite String.eqb_sym in Hx. rewrite Hx. cbn [negb]. rewrite (IH Hl). reflexivity.
Qed.

(** X1: toggling a section flips its membership in the set of expanded
    sections and leaves the membership of every other identifier as it
    was. *)
Theorem toggleSection_membership (prev : list string) (sectionId k : string) :
  Component.has (Component.toggleSection prev sectionId) k =
  if String.eqb k sectionId then negb (Component.has prev sectionId)
  else Component.has prev k.
Proof. apply has_toggle. Qed.

(** X2: toggling the same section twice gives back a set with the same
    members, and the very same set when the section was collapsed to
    begin with. *)
Theorem toggleSection_twice (prev : list string) (sectionId : string) :
  (forall k,
     Component.has
       (Component.toggleSection (Component.toggleSection prev sectionId) sectionId) k
     = Component.has prev k) /\
  (Component.has prev sectionId = false ->
     Component.toggleSection (Component.toggleSection prev sectionId) sectionId = prev).
Proof.
  split.
  - intros k. rewrite !has_toggle, String.eqb_refl.
    eqb_cases k sectionId Hk; [| reflexivity].
    subst k. apply negb_involutive.
  - intros H. unfold Component.toggleSection at 2. rewrite H.
    unfold Component.toggleSection.
    rewrite has_app. unfold Component.has at 2. cbn [existsb].
    rewrite String.eqb_refl, orb_true_r.
    rewrite filter_app. cbn [filter]. rewrite String.eqb_refl. cbn [negb].
    rewrite app_nil_r. apply remove_absent, H.
Qed.

Lemma toggleSection_twice_witness :
  Component.toggleSection
    (Component.toggleSection Component.initial_expanded "provenance") "provenance"
  = Component.initial_expanded.
Proof.
  apply (toggleSection_twice Component.initial_expanded "provenance"). reflexivity.
Defined.

Lemma NoDup_all_sections : NoDup Component.all_sections.
Proof.
  unfold Component.all_sections.
  repeat (apply NoDup_cons;
          [ cbn; intros H; repeat (destruct H as [H | H]; [discriminate H |]); exact H |]).
  apply NoDup_nil.
Qed.

Lemma initial_expanded_known : incl Component.initial_expanded Component.all_sections.
Proof.
  intros k H. cbn in H. cbn.
  repeat (destruct H as [H | H]; [subst k; tauto |]). contradiction.
Qed.

Lemma toggleSection_NoDup (prev : list string) (sectionId : string) :
  NoDup prev -> NoDup (Component.toggleSection prev sectionId).
Proof.
  intros H. unfold Component.toggleSection.
  destruct (Component.has prev sectionId) eqn:M.
  - apply NoDup_filter, H.
  - apply (Permutation_NoDup (Permutation_cons_append prev sectionId)).
    apply NoDup_cons; [| exact H].
    intros I. apply has_In in I. congruence.
Qed.

Lemma toggleSection_incl (prev known : list string) (sectionId : string) :
  incl prev known -> In sectionId known ->
  incl (Component.toggleSection prev sectionId) known.
Proof.
  intros H K. unfold Component.toggleSection.
  destruct (Component.has prev sectionId).
  - intros k I. apply filter_In in I. apply H, I.
  - apply incl_app; [exact H |]. intros k [<- | []]. exact K.
Qed.

Lemma run_invariant (clicks : list Component.action) (state : list string) :
  Forall offered clicks -> NoDup state -> incl state Component.all_sections ->
  NoDup (run clicks state) /\ incl (run clicks state) Component.all_sections.
Proof.
  intros H. revert state.
  induction H as [| a clicks Ha _ IH]; intros state N I; [split; assumption |].
  cbn [run fold_left]. apply IH; destruct a as [sectionId | |]; cbn [Component.perform].
  - apply toggleSection_NoDup, N.
  - apply NoDup_all_sections.
  - apply NoDup_nil.
  - apply toggleSection_incl; [exact I | exact Ha].
  - apply incl_refl.
  - intros k [].
Qed.

(** X3: whatever the user clicks (section headers, Expand All, Collapse
    All), starting from the initial state, the set of expanded sections
    holds no identifier twice and holds only identifiers of the ten
    sections. *)
Theorem expanded_sections_invariant (clicks : list Component.action) :
  Forall offered clicks ->
  NoDup (run clicks Component.initial_expanded) /\
  incl (run clicks Component.initial_expanded) Component.all_sections.
Proof.
  intros H. apply run_invariant; [exact H | | apply initial_expanded_known].
  unfold Component.initial_expanded.
  repeat (apply NoDup_cons;
          [ cbn; intros I; repeat (destruct I as [I | I]; [discriminate I |]); exact I |]).
  apply NoDup_nil.
Qed.

Lemma expanded_sections_invariant_witness :
  NoDup (run [ Component.ToggleSection "provenance"; Component.ExpandAll;
               Component.ToggleSection "model-quality";
               Component.ToggleSection "model-quality" ]
           Component.initial_expanded).
Proof.
  apply expanded_sections_invariant.
  repeat (apply Forall_cons; [cbn; tauto |]). apply Forall_nil.
Defined.

(** ** Sections and the state *)

Lemma shows_content_renderSection (expandedSections : list string) (id title : string)
    (content : Component.node) (defaultOpen : bool) :
  shows_content (Component.renderSection expandedSections id title content defaultOpen)
  = Component.has expandedSections id.
Proof.
  unfold Component.renderSection.
  destruct (Component.has expandedSections id); reflexivity.
Qed.

Lemma section_id_renderSection (expandedSections : list string) (id title : string)
    (content : Component.node) (defaultOpen : bool) :
  section_id (Component.renderSection expandedSections id title content defaultOpen) = [id].
Proof. reflexivity. Qed.

Lemma renderSection_has (e e' : list string) (id title : string)
    (content : Component.node) (defaultOpen : bool) :
  Component.has e' id = Component.has e id ->
  Component.renderSection e' id title content defaultOpen =
  Component.renderSection e id title content defaultOpen.
Proof. unfold Component.renderSection. intros ->. reflexivity. Qed.

(** X4: the click handler on a section's header, once performed, flips
    whether that section shows its content, and the rendering of every
    section with another identifier is what it was. *)
Theorem click_flips_one_section (expandedSections : list string) (id title : string)
    (content : Component.node) (defaultOpen : bool) (a : Component.action) :
  In a (clicks_of (Component.renderSection expandedSections id title content defaultOpen)) ->
  shows_content
    (Component.renderSection (Component.perform a expandedSections) id title content defaultOpen)
  = negb (shows_content
            (Component.renderSection expandedSections id title content defaultOpen)) /\
  (forall id' title' content' defaultOpen', id' <> id ->
     Component.renderSection (Component.perform a expandedSections)
       id' title' content' defaultOpen'
     = Component.renderSection expandedSections id' title' content' defaultOpen').
Proof.
  intros H.
  assert (E : a = Component.ToggleSection id).
  { unfold Component.renderSection in H.
    destruct (Component.has expandedSections id); cbn in H;
      destruct H as [H | []]; symmetry; exact H. }
  subst a. cbn [Component.perform]. split.
  - rewrite !shows_content_renderSection, has_toggle, String.eqb_refl. reflexivity.
  - intros id' title' content' defaultOpen' D. apply renderSection_has.
    rewrite has_toggle. apply String.eqb_neq in D. rewrite D. reflexivity.
Qed.

Lemma click_flips_one_section_witness :
  shows_content
    (Component.renderSection
       (Component.perform (Component.ToggleSection "provenance") Component.initial_expanded)
       "provenance" "Provenance" Component.Nothing false)
  = negb (shows_content
            (Component.renderSection Component.initial_expanded
               "provenance" "Provenance" Component.Nothing false)).
Proof.
  apply (click_flips_one_section Component.initial_expanded "provenance" "Provenance"
           Component.Nothing false (Component.ToggleSection "provenance")).
  cbn. left. reflexivity.
Defined.

Lemma open_section_renderSection (expandedSections : list string) (id title : string)
    (content : Component.node) (defaultOpen : bool) :
  open_section (Component.renderSection expandedSections id title content defaultOpen)
  = if Component.has expandedSections id then [id] else [].
Proof.
  unfold open_section.
  rewrite shows_content_renderSection, section_id_renderSection. reflexivity.
Qed.

Lemma header_is_not_open (data : field ModelCardData) (h : Component.node) :
  Component.header data = Ok h -> open_section h = [].
Proof.
  unfold Component.header. intros H. invert_binds H.
  apply Ok_inj in H. subst h. reflexivity.
Qed.

Lemma column_statistics_section_open (expandedSections : list string)
    (series : option (list Component.ColumnPoint)) (d : ModelCardData)
    (n : Component.node) :
  Component.column_statistics_section expandedSections series (Val d) = Ok n ->
  open_section n =
    if has_columns d && Component.has expandedSections "column-statistics"
    then ["column-statistics"] else [].
Proof.
  unfold Component.column_statistics_section, has_columns. cbn [get bind].
  destruct (column_statistics d) as [| | [| e entries]]; intros H;
    try (apply Ok_inj in H; subst n; reflexivity).
  invert_binds H. apply Ok_inj in H. subst n.
  rewrite open_section_renderSection. reflexivity.
Qed.

Lemma ModelCard_section_ids (source : string -> string)
    (toLocaleString : number -> string) (expandedSections : list string)
    (d : ModelCardData) (className : option string) (card : Component.node) :
  Component.ModelCard source toLocaleString expandedSections (Val d) className = Ok card ->
  section_ids card =
    (fixed_sections ++ if has_columns d then ["column-statistics"] else [])%list.
Proof.
  intros H. unfold Component.ModelCard in H. invert_binds H.
  apply Ok_inj in H. subst card.
  match goal with
  | E : Component.header _ = Ok ?h |- _ => pose proof (header_is_no_section _ _ E) as Hh
  end.
  match goal with
  | E : Component.column_statistics_section _ _ _ = Ok ?n |- _ =>
      pose proof (column_statistics_section_id _ _ _ _ E) as Hc
  end.
  unfold section_ids, Component.el. cbn [flat_map].
  rewrite Hh, Hc, app_nil_r. reflexivity.
Qed.

Lemma filter_cons_if {A : Type} (p : A -> bool) (x : A) (l : list A) :
  filter p (x :: l) = ((if p x then [x] else []) ++ filter p l)%list.
Proof. cbn [filter]. destruct (p x); reflexivity. Qed.

Lemma ModelCard_open (source : string -> string)
    (toLocaleString : number -> string) (expandedSections : list string)
    (d : ModelCardData) (className : option string) (card : Component.node) :
  Component.ModelCard source toLocaleString expandedSections (Val d) className = Ok card ->
  open_sections card = filter (Component.has expandedSections) (section_ids card).
Proof.
  intros H. rewrite (ModelCard_section_ids _ _ _ _ _ _ H).
  unfold Component.ModelCard in H. invert_binds H.
  apply Ok_inj in H. subst card.
  match goal with
  | E : Component.header _ = Ok ?h |- _ => pose proof (header_is_not_open _ _ E) as Hh
  end.
  match goal with
  | E : Component.column_statistics_section _ _ _ = Ok ?n |- _ =>
      pose proof (column_statistics_section_open _ _ _ _ E) as Hc
  end.
  unfold open_sections, Component.el. cbn [flat_map].
  rewrite Hh, Hc, !open_section_renderSection, app_nil_r.
  change (open_section (Component.tag "style" _)) with (@nil string).
  change (open_section Component.controls) with (@nil string).
  clear. rewrite filter_app. unfold fixed_sections.
  rewrite !filter_cons_if. cbn [filter app]. rewrite <- !app_assoc. cbn [app].
  repeat f_equal.
  destruct (has_columns d); cbn [filter andb]; [| reflexivity].
  destruct (Component.has expandedSections "column-statistics"); reflexivity.
Qed.

(** X5: in the card the component returns, the sections that show their
    content are exactly the rendered sections whose identifier is in the
    set of expanded sections, in order; so after Expand All every rendered
    section is open, and after Collapse All none is. *)
Theorem ModelCard_open_sections (source : string -> string)
    (toLocaleString : number -> string) (expandedSections : list string)
    (data : field ModelCardData) (className : option string) (card : Component.node) :
  Component.ModelCard source toLocaleString expandedSections data className = Ok card ->
  open_sections card = filter (Component.has expandedSections) (section_ids card) /\
  (forall prev, expandedSections = Component.perform Component.ExpandAll prev ->
     open_sections card = section_ids card) /\
  (forall prev, expandedSections = Component.perform Component.CollapseAll prev ->
     open_sections card = []).
Proof.
  intros H. destruct data as [| | d]; try discriminate H.
  pose proof (ModelCard_open _ _ _ _ _ _ H) as O.
  pose proof (ModelCard_section_ids _ _ _ _ _ _ H) as I.
  split; [exact O | split]; intros prev E; rewrite O, I, E; cbn [Component.perform].
  - destruct (has_columns d); reflexivity.
  - rewrite filter_app. destruct (has_columns d); reflexivity.
Qed.

Lemma ModelCard_open_sections_witness :
  exists card,
    Component.ModelCard v8_source plain_locale Component.initial_expanded
      (Val example_document) None = Ok card /\
    open_sections card = ["model-identification"; "training-metrics"; "model-quality"].
Proof.
  destruct (Component.ModelCard v8_source plain_locale Component.initial_expanded
              (Val example_document) None) as [card | e] eqn:E;
    [| vm_compute in E; discriminate E].
  exists card. split; [reflexivity |].
  destruct (ModelCard_open_sections _ _ _ _ _ _ E) as (O & _ & _).
  rewrite O.
  rewrite (ModelCard_section_ids _ _ _ _ _ _ E). reflexivity.
Defined.

Lemma column_statistics_section_throws (e e' : list string)
    (series : option (list Component.ColumnPoint)) (data : field ModelCardData)
    (x : exn) :
  Component.column_statistics_section e series data = Throw x ->
  Component.column_statistics_section e' series data = Throw x.
Proof.
  unfold Component.column_statistics_section.
  destruct (get data column_statistics) as [[| | [| entry entries]] | y];
    cbn [bind]; try discriminate; try (intros H; exact H).
  destruct (Component.column_statistics_content series (entry :: entries));
    cbn [bind]; [discriminate | intros H; exact H].
Qed.

(** X6: the content of a collapsed section is computed all the same: if
    the component throws for a document in one state of the expanded
    sections (and one class name), it throws the same error in every
    state. *)
Theorem ModelCard_throws_in_every_state (source : string -> string)
    (toLocaleString : number -> string) (e e' : list string)
    (data : field ModelCardData) (className className' : option string) (x : exn) :
  Component.ModelCard source toLocaleString e data className = Throw x ->
  Component.ModelCard source toLocaleString e' data className' = Throw x.
Proof.
  unfold Component.ModelCard. cbv zeta. intros H.
  repeat match type of H with
  | bind (Component.column_statistics_section _ _ _) _ = Throw _ =>
      let E := fresh "E" in
      let E' := fresh "E" in
      destruct (Component.column_statistics_section e _ _) as [n | y] eqn:E;
      cbn [bind] in H; [discriminate H |];
      rewrite (column_statistics_section_throws e e' _ _ _ E); exact H
  | bind ?c _ = Throw _ =>
      destruct c; cbn [bind] in H |- *; [| exact H]
  end.
Qed.

Lemma ModelCard_throws_in_every_state_witness :
  Component.ModelCard v8_source plain_locale [] (Val null_session_document) None
  = Throw TypeError.
Proof.
  apply (ModelCard_throws_in_every_state v8_source plain_locale
           Component.initial_expanded [] (Val null_session_document) None None).
  vm_compute. reflexivity.
Defined.

(** * Colours *)

Lemma toLowerCase_empty (s : string) : toLowerCase s = "" -> s = "".
Proof. destruct s; [reflexivity | discriminate]. Qed.

Lemma same_letters_empty (s t : string) :
  toLowerCase t = toLowerCase s -> String.eqb t "" = String.eqb s "".
Proof.
  intros H. destruct s as [| c s].
  - apply toLowerCase_empty in H. subst t. reflexivity.
  - destruct t as [| c' t]; [discriminate H | reflexivity].
Qed.

(** X7: the three colour functions of both renderers look at their
    argument only up to letter case: two strings with the same letters,
    whatever their case, get the same colour. *)
Theorem colours_ignore_case (s t : string) :
  toLowerCase t = toLowerCase s ->
  Standalone.getStatusColor (Val t) = Standalone.getStatusColor (Val s) /\
  Standalone.getQualityColor (Val t) = Standalone.getQualityColor (Val s) /\
  Standalone.getSeverityColor (Val t) = Standalone.getSeverityColor (Val s) /\
  Component.getStatusColor (Val t) = Component.getStatusColor (Val s) /\
  Component.getQualityColor (Val t) = Component.getQualityColor (Val s) /\
  Component.getSeverityColor (Val t) = Component.getSeverityColor (Val s).
Proof.
  intros H. pose proof (same_letters_empty s t H) as E.
  unfold Standalone.getStatusColor, Standalone.getQualityColor,
    Standalone.getSeverityColor, Component.getStatusColor, Component.getQualityColor,
    Component.getSeverityColor, or_string, truthy_string, deref, bind.
  rewrite E.
  destruct (String.eqb s ""); cbn [negb]; rewrite ?H; repeat split; reflexivity.
Qed.

Lemma colours_ignore_case_witness :
  Standalone.getStatusColor (Val "DONE") = Standalone.getStatusColor (Val "done") /\
  Component.getSeverityColor (Val "Moderate") = Component.getSeverityColor (Val "MODERATE").
Proof.
  split.
  - apply (colours_ignore_case "done" "DONE"). reflexivity.
  - apply (colours_ignore_case "MODERATE" "Moderate"). reflexivity.
Defined.

(** X8: where the two renderers agree on a colour.  For a status they
    agree on done, training and failed; for a quality assessment on
    excellent, fair and poor; for a severity on high and moderate (all up
    to letter case).  On every other string the component answers with
    its own palette (black as the fallback, #17a2b8 for good and low) and
    the stand-alone renderer with another one. *)
Theorem colours_of_the_two_renderers (s : string) :
  (Component.getStatusColor (Val s) = Ok (Standalone.getStatusColor (Val s)) <->
     In (toLowerCase s) ["done"; "training"; "failed"]) /\
  (Component.getQualityColor (Val s) = Standalone.getQualityColor (Val s) <->
     In (toLowerCase s) ["excellent"; "fair"; "poor"]) /\
  (Component.getSeverityColor (Val s) = Ok (Standalone.getSeverityColor (Val s)) <->
     In (toLowerCase s) ["high"; "moderate"]).
Proof.
  unfold Standalone.getStatusColor, Standalone.getQualityColor,
    Standalone.getSeverityColor, Component.getStatusColor, Component.getQualityColor,
    Component.getSeverityColor, or_string, truthy_string, deref, bind.
  destruct s as [| c s].
  { cbn. repeat split; try discriminate; intuition discriminate. }
  cbn [String.eqb negb]. set (l := toLowerCase (String c s)).
  split; [| split].
  - eqb_cases l "done" E1; [rewrite E1; cbn; tauto |].
    eqb_cases l "training" E2; [rewrite E2; cbn; tauto |].
    eqb_cases l "failed" E3; [rewrite E3; cbn; tauto |].
    split; [discriminate |]. unfold In. intuition congruence.
  - eqb_cases l "excellent" E1; [rewrite E1; cbn; tauto |].
    eqb_cases l "good" E2;
      [rewrite E2; cbn; split; [discriminate | intuition discriminate] |].
    eqb_cases l "fair" E3; [rewrite E3; cbn; tauto |].
    eqb_cases l "poor" E4; [rewrite E4; cbn; tauto |].
    split; [discriminate |]. unfold In. intuition congruence.
  - eqb_cases l "high" E1; [rewrite E1; cbn; tauto |].
    eqb_cases l "moderate" E2; [rewrite E2; cbn; tauto |].
    eqb_cases l "low" E3;
      [rewrite E3; cbn; split; [discriminate | intuition discriminate] |].
    split; [discriminate |]. unfold In. intuition congruence.
Qed.

(** X9: a missing or null string.  The stand-alone renderer falls back
    to grey in all three functions; the component throws a TypeError in
    getStatusColor and getSeverityColor, which call toLowerCase on the
    argument unguarded, and answers black in getQualityColor. *)
Theorem colours_of_missing_values (o : field string) :
  is_nullish o = true ->
  Standalone.getStatusColor o = "#6c757d" /\
  Standalone.getQualityColor o = Ok "#6c757d" /\
  Standalone.getSeverityColor o = "#6c757d" /\
  Component.getStatusColor o = Throw TypeError /\
  Component.getQualityColor o = Ok "#000" /\
  Component.getSeverityColor o = Throw TypeError.
Proof.
  destruct o as [| | s]; [| | discriminate]; intros _; repeat split; reflexivity.
Qed.

Lemma colours_of_missing_values_witness :
  Component.getStatusColor Null = Throw TypeError /\
  Standalone.getStatusColor Null = "#6c757d".
Proof.
  destruct (colours_of_missing_values Null eq_refl) as (A & _ & _ & B & _).
  split; [exact B | exact A].
Defined.

(** * Formatting: errors *)

Lemma toFixed_throws (x : number) (d : Z) (e : exn) :
  toFixed x d = Throw e <-> e = RangeError /\ (d < 0 \/ 100 < d).
Proof.
  unfold toFixed.
  destruct (d <? 0) eqn:L; [| destruct (100 <? d) eqn:U]; cbn [orb].
  - apply Z.ltb_lt in L. split; [intros H; injection H as <-; auto | intros [-> _]; reflexivity].
  - apply Z.ltb_lt in U. split; [intros H; injection H as <-; auto | intros [-> _]; reflexivity].
  - apply Z.ltb_ge in L, U. split.
    + destruct x as [s | s | | s m e']; try discriminate.
      destruct (Qle_bool _ _); discriminate.
    + intros [_ H]. lia.
Qed.


(** * What the stand-alone renderer reads *)

Lemma render_warnings_read (ws : list Warning) (html : string) :
  fold_left Standalone.render_warning (map read_Warning ws) html
  = fold_left Standalone.render_warning ws html.
Proof.
  revert html. induction ws as [| w ws IH]; intros html; [reflexivity |].
  cbn [map fold_left]. rewrite IH. reflexivity.
Qed.

Lemma renderModelIdentification_view (d : ModelCardData) :
  Standalone.renderModelIdentification (Val (standalone_view d))
  = Standalone.renderModelIdentification (Val d).
Proof. reflexivity. Qed.

Lemma renderTrainingDataset_view (toLocaleString : number -> string) (d : ModelCardData) :
  Standalone.renderTrainingDataset toLocaleString (Val (standalone_view d))
  = Standalone.renderTrainingDataset toLocaleString (Val d).
Proof.
  unfold Standalone.renderTrainingDataset, standalone_view.
  cbn [get bind training_dataset model_identification].
  destruct (training_dataset d) as [| | td]; reflexivity.
Qed.

Lemma renderTrainingMetrics_view (d : ModelCardData) :
  Standalone.renderTrainingMetrics (Val (standalone_view d))
  = Standalone.renderTrainingMetrics (Val d).
Proof.
  unfold Standalone.renderTrainingMetrics, standalone_view.
  cbn [get bind training_metrics model_identification].
  destruct (training_metrics d) as [| | tm]; try reflexivity.
  cbn [field_map or_empty read_TrainingMetrics tm_classification_metrics].
  destruct (tm_classification_metrics tm) as [| | cm]; reflexivity.
Qed.

Lemma renderModelQuality_view (d : ModelCardData) :
  Standalone.renderModelQuality (Val (standalone_view d))
  = Standalone.renderModelQuality (Val d).
Proof.
  unfold Standalone.renderModelQuality, standalone_view.
  cbn [get bind model_quality].
  destruct (model_quality d) as [| | mq]; try reflexivity.
  cbn [field_map or_empty read_ModelQuality mq_assessment mq_warnings].
  destruct (mq_warnings mq) as [| | [| w ws]]; try reflexivity.
  cbn [field_map map truthy_object is_nullish negb Standalone.nonempty andb deref bind].
  match goal with |- bind ?c _ = _ => destruct c as [html | e] end;
    cbn [bind]; [| reflexivity].
  change (read_Warning w :: map read_Warning ws) with (map read_Warning (w :: ws)).
  rewrite render_warnings_read. reflexivity.
Qed.

Lemma renderHTML_view (toLocaleString : number -> string) (now : Date)
    (d : ModelCardData) :
  Standalone.renderHTML toLocaleString now (Val (standalone_view d))
  = Standalone.renderHTML toLocaleString now (Val d).
Proof.
  unfold Standalone.renderHTML.
  rewrite renderModelIdentification_view, renderTrainingDataset_view,
    renderTrainingMetrics_view, renderModelQuality_view.
  reflexivity.
Qed.

(** X11: the stand-alone page shows four sections and reads nothing
    else: two documents that agree on model_identification, on the
    training rows, feature count and target column of the dataset, on
    precision, recall, F1 and AUC, and on the assessment and each
    warning's type, severity and message, render to the same page at the
    same clock reading, whatever their other properties are. *)
Theorem renderHTML_reads_only (toLocaleString : number -> string) (now : Date)
    (d d' : ModelCardData) :
  standalone_view d = standalone_view d' ->
  Standalone.renderHTML toLocaleString now (Val d)
  = Standalone.renderHTML toLocaleString now (Val d').
Proof.
  intros H. rewrite <- (renderHTML_view _ _ d), <- (renderHTML_view _ _ d'), H.
  reflexivity.
Qed.

Lemma renderHTML_reads_only_witness :
  Standalone.renderHTML plain_locale morning (Val example_document)
  = Standalone.renderHTML plain_locale morning (Val example_cut_down).
Proof.
  apply renderHTML_reads_only. reflexivity.
Defined.

(** * The session identifier *)

Lemma substring0_empty (n : nat) (s s' : string) :
  substring0 (S n) s = substring0 (S n) s' -> String.eqb s "" = String.eqb s' "".
Proof. destruct s, s'; cbn; try reflexivity; discriminate. Qed.

Section SessionId.
Variables s s' : string.
Hypothesis same_start : substring0 20 s = substring0 20 s'.
Variable d : ModelCardData.

Local Notation "'one'" := (Val (with_session_id (Val s) d)).
Local Notation "'other'" := (Val (with_session_id (Val s') d)).

Lemma renderModelIdentification_session :
  Standalone.renderModelIdentification one = Standalone.renderModelIdentification other.
Proof.
  unfold Standalone.renderModelIdentification, with_session_id.
  cbn [get bind model_identification].
  destruct (model_identification d) as [| | mi]; try reflexivity.
  cbn [field_map or_empty mi_session_id mi_status mi_compute_cluster mi_training_date
       mi_job_id mi_model_type mi_target_column mi_target_column_type mi_framework
       truthy_string deref].
  rewrite (substring0_empty _ _ _ same_start).
  destruct (String.eqb s' ""); cbn [negb bind]; [reflexivity |].
  rewrite same_start. reflexivity.
Qed.

Lemma renderTrainingDataset_session (toLocaleString : number -> string) :
  Standalone.renderTrainingDataset toLocaleString one
  = Standalone.renderTrainingDataset toLocaleString other.
Proof.
  unfold Standalone.renderTrainingDataset, with_session_id.
  cbn [get bind model_identification training_dataset].
  destruct (model_identification d) as [| | mi]; reflexivity.
Qed.

Lemma renderTrainingMetrics_session :
  Standalone.renderTrainingMetrics one = Standalone.renderTrainingMetrics other.
Proof.
  unfold Standalone.renderTrainingMetrics, with_session_id.
  cbn [get bind model_identification training_metrics].
  destruct (model_identification d) as [| | mi]; reflexivity.
Qed.

Lemma renderModelQuality_session :
  Standalone.renderModelQuality one = Standalone.renderModelQuality other.
Proof. reflexivity. Qed.

Lemma renderHTML_session (toLocaleString : number -> string) (now : Date) :
  Standalone.renderHTML toLocaleString now one = Standalone.renderHTML toLocaleString now other.
Proof.
  unfold Standalone.renderHTML.
  rewrite renderModelIdentification_session, (renderTrainingDataset_session toLocaleString),
    renderTrainingMetrics_session, renderModelQuality_session.
  unfold with_session_id. cbn [get bind model_identification].
  destruct (model_identification d) as [| | mi]; reflexivity.
Qed.

Ltac session_free :=
  unfold with_session_id;
  destruct (model_identification d) as [| | mi]; reflexivity.

Lemma metricsChartData_session :
  Component.metricsChartData one = Component.metricsChartData other.
Proof. session_free. Qed.

Lemma featureTypeDistribution_session (source : string -> string) :
  Component.featureTypeDistribution source one = Component.featureTypeDistribution source other.
Proof. session_free. Qed.

Lemma columnStatisticsData_session :
  Component.columnStatisticsData one = Component.columnStatisticsData other.
Proof. session_free. Qed.

Lemma header_session : Component.header one = Component.header other.
Proof. session_free. Qed.

Lemma training_metrics_content_session (series : option (list Component.MetricPoint)) :
  Component.training_metrics_content series one = Component.training_metrics_content series other.
Proof. session_free. Qed.

Lemma model_quality_content_session :
  Component.model_quality_content one = Component.model_quality_content other.
Proof. session_free. Qed.

Lemma training_dataset_content_session (toLocaleString : number -> string)
    (types : list Component.TypePoint) :
  Component.training_dataset_content toLocaleString types one
  = Component.training_dataset_content toLocaleString types other.
Proof. session_free. Qed.

Lemma feature_inventory_content_session :
  Component.feature_inventory_content one = Component.feature_inventory_content other.
Proof. session_free. Qed.

Lemma training_configuration_content_session :
  Component.training_configuration_content one = Component.training_configuration_content other.
Proof. session_free. Qed.

Lemma model_architecture_content_session (toLocaleString : number -> string) :
  Component.model_architecture_content toLocaleString one
  = Component.model_architecture_content toLocaleString other.
Proof. session_free. Qed.

Lemma technical_details_content_session :
  Component.technical_details_content one = Component.technical_details_content other.
Proof. session_free. Qed.

Lemma provenance_content_session :
  Component.provenance_content one = Component.provenance_content other.
Proof. session_free. Qed.

Lemma column_statistics_section_session (e : list string)
    (series : option (list Component.ColumnPoint)) :
  Component.column_statistics_section e series one
  = Component.column_statistics_section e series other.
Proof. session_free. Qed.

Lemma model_identification_content_session :
  Component.model_identification_content one = Component.model_identification_content other.
Proof.
  unfold Component.model_identification_content, Component.get2, with_session_id.
  cbn [get bind model_identification].
  destruct (model_identification d) as [| | mi]; try reflexivity.
  cbn [field_map get bind mi_session_id mi_status mi_compute_cluster mi_training_date
       mi_job_id mi_model_type mi_target_column mi_target_column_type mi_framework deref].
  rewrite same_start. reflexivity.
Qed.

Lemma ModelCard_session (source : string -> string) (toLocaleString : number -> string)
    (e : list string) (className : option string) :
  Component.ModelCard source toLocaleString e one className
  = Component.ModelCard source toLocaleString e other className.
Proof.
  unfold Component.ModelCard.
  rewrite metricsChartData_session, (featureTypeDistribution_session source),
    columnStatisticsData_session, header_session, model_identification_content_session.
  destruct (Component.metricsChartData other) as [series |]; [| reflexivity].
  destruct (Component.featureTypeDistribution source other) as [types |]; [| reflexivity].
  destruct (Component.columnStatisticsData other) as [columns |]; [| reflexivity].
  cbn [bind].
  rewrite (training_metrics_content_session series), model_quality_content_session,
    (training_dataset_content_session toLocaleString types),
    feature_inventory_content_session, training_configuration_content_session,
    (model_architecture_content_session toLocaleString),
    technical_details_content_session, provenance_content_session.
  destruct (Component.header other); [| reflexivity]. cbn [bind].
  repeat match goal with
  | |- bind ?c _ = bind ?c _ => destruct c; cbn [bind]; [| reflexivity]
  end.
  rewrite (column_statistics_section_session e columns). reflexivity.
Qed.

End SessionId.

(** X12: of an ASCII session identifier only the first 20 characters
    are rendered: two documents that differ only in their session
    identifiers, both ASCII text and starting with the same 20 characters,
    give the same stand-alone page and the same component output. *)
Theorem session_id_is_cut_at_20 (source : string -> string)
    (toLocaleString : number -> string) (now : Date) (expandedSections : list string)
    (className : option string) (d : ModelCardData) (s s' : string) :
  ascii_text s = true -> ascii_text s' = true ->
  substring0 20 s = substring0 20 s' ->
  Standalone.renderHTML toLocaleString now (Val (with_session_id (Val s) d))
  = Standalone.renderHTML toLocaleString now (Val (with_session_id (Val s') d)) /\
  Component.ModelCard source toLocaleString expandedSections
    (Val (with_session_id (Val s) d)) className
  = Component.ModelCard source toLocaleString expandedSections
      (Val (with_session_id (Val s') d)) className.
Proof.
  intros _ _ H. split.
  - apply renderHTML_session, H.
  - apply ModelCard_session, H.
Qed.

Lemma session_id_is_cut_at_20_witness :
  Standalone.renderHTML plain_locale morning
    (Val (with_session_id (Val "public-alphafreight-mini-8c482fa5") example_document))
  = Standalone.renderHTML plain_locale morning
      (Val (with_session_id (Val "public-alphafreight-") example_document)).
Proof.
  apply (session_id_is_cut_at_20 v8_source plain_locale morning [] None
           example_document "public-alphafreight-mini-8c482fa5" "public-alphafreight-");
    reflexivity.
Defined.

(** * The time stamp *)

Lemma digit_value (d : Z) :
  0 <= d < 10 -> Z.of_nat (nat_of_ascii (digit_char d)) - 48 = d.
Proof.
  intros H. assert (C : d = 0 \/ d = 1 \/ d = 2 \/ d = 3 \/ d = 4 \/ d = 5 \/
                        d = 6 \/ d = 7 \/ d = 8 \/ d = 9) by lia.
  repeat (destruct C as [-> | C]; [reflexivity |]). subst. reflexivity.
Qed.

Lemma read_decimal_aux_append (a b : string) (acc : Z) :
  read_decimal_aux (a ++ b) acc = read_decimal_aux b (read_decimal_aux a acc).
Proof.
  revert acc. induction a as [| c a IH]; intros acc; [reflexivity |].
  cbn [append read_decimal_aux]. apply IH.
Qed.

Lemma read_decimal_bounded (f : nat) (n : Z) :
  0 <= n -> n < 10 ^ Z.of_nat (S f) -> read_decimal (decimal n) = n.
Proof.
  revert n. induction f as [| f IH]; intros n H0 H.
  - rewrite decimal_small by (cbn in H; lia). unfold read_decimal. cbn [read_decimal_aux].
    rewrite digit_value by (apply Z.mod_pos_bound; lia).
    rewrite Z.mod_small by (cbn in H; lia). lia.
  - destruct (Z_lt_le_dec n 10) as [Small | Large].
    + rewrite decimal_small by exact Small. unfold read_decimal. cbn [read_decimal_aux].
      rewrite digit_value by (apply Z.mod_pos_bound; lia).
      rewrite Z.mod_small by lia. lia.
    + rewrite decimal_step by exact Large. unfold read_decimal.
      rewrite read_decimal_aux_append. cbn [read_decimal_aux].
      fold (read_decimal (decimal (n / 10))).
      rewrite Nat2Z.inj_succ, Z.pow_succ_r in H by lia.
      rewrite IH; [| apply Z.div_pos; lia | apply Z.div_lt_upper_bound; lia].
      rewrite digit_value by (apply Z.mod_pos_bound; lia).
      pose proof (Z.div_mod n 10 ltac:(lia)). lia.
Qed.

Lemma read_decimal_zeros (k : nat) (s : string) :
  read_decimal_aux (repeat_char "0"%char k ++ s) 0 = read_decimal_aux s 0.
Proof.
  induction k as [| k IH]; [reflexivity |].
  cbn [repeat_char append read_decimal_aux]. exact IH.
Qed.

Lemma read_two_digits (n : Z) :
  0 <= n < 100 -> read_decimal (Standalone.two_digits n) = n.
Proof.
  intros H. unfold Standalone.two_digits, padStart0, decimal_int.
  assert (E : (n <? 0) = false) by (apply Z.ltb_ge; lia). rewrite E.
  unfold read_decimal. rewrite read_decimal_zeros.
  apply (read_decimal_bounded 1); [lia | cbn; lia].
Qed.

Lemma length_two_digits (n : Z) :
  0 <= n < 100 -> String.length (Standalone.two_digits n) = 2%nat.
Proof.
  intros H. unfold Standalone.two_digits, padStart0, decimal_int.
  assert (E : (n <? 0) = false) by (apply Z.ltb_ge; lia). rewrite E.
  rewrite length_append.
  assert (L : forall c k, String.length (repeat_char c k) = k).
  { intros c k. induction k as [| k IH]; cbn; [reflexivity | rewrite IH; reflexivity]. }
  rewrite L.
  destruct (Z_lt_le_dec n 10) as [Small | Large].
  - rewrite decimal_small by exact Small. reflexivity.
  - pose proof (length_decimal_small 1 n ltac:(lia) ltac:(cbn; lia)).
    pose proof (length_decimal_large 1 n ltac:(cbn; lia)). lia.
Qed.

Lemma length_year (n : Z) :
  1000 <= n <= 9999 -> String.length (decimal_int n) = 4%nat.
Proof.
  intros H. unfold decimal_int.
  assert (E : (n <? 0) = false) by (apply Z.ltb_ge; lia). rewrite E.
  pose proof (length_decimal_small 3 n ltac:(lia) ltac:(cbn; lia)).
  pose proof (length_decimal_large 3 n ltac:(cbn; lia)). lia.
Qed.

Lemma read_year (n : Z) : 1000 <= n <= 9999 -> read_decimal (decimal_int n) = n.
Proof.
  intros H. unfold decimal_int.
  assert (E : (n <? 0) = false) by (apply Z.ltb_ge; lia). rewrite E.
  apply (read_decimal_bounded 3); [lia | cbn; lia].
Qed.

Lemma append_same_length (a b u v : string) :
  String.length a = String.length b -> a ++ u = b ++ v -> a = b /\ u = v.
Proof.
  revert b. induction a as [| c a IH]; intros [| c' b] L H; try discriminate L.
  - cbn in H. auto.
  - cbn in L, H. injection L as L. injection H as -> H.
    destruct (IH b L H) as [-> ->]. auto.
Qed.

Lemma dateStr_length (now : Date) :
  four_digit_date now -> String.length (Standalone.dateStr now) = 19%nat.
Proof.
  intros (Y & M & D & h & m & s). unfold Standalone.dateStr.
  rewrite !length_append, length_year by exact Y.
  rewrite !length_two_digits by lia. reflexivity.
Qed.

Lemma dateStr_same_second (a b : Date) :
  four_digit_date a -> four_digit_date b ->
  Standalone.dateStr a = Standalone.dateStr b -> same_second a b.
Proof.
  intros (Ya & Ma & Da & ha & ma & sa) (Yb & Mb & Db & hb & mb & sb) H.
  unfold Standalone.dateStr in H.
  apply append_same_length in H; [| rewrite !length_year by assumption; reflexivity].
  destruct H as [EY H]. cbn [append] in H. injection H as H.
  apply append_same_length in H; [| rewrite !length_two_digits by lia; reflexivity].
  destruct H as [EM H]. cbn [append] in H. injection H as H.
  apply append_same_length in H; [| rewrite !length_two_digits by lia; reflexivity].
  destruct H as [ED H]. cbn [append] in H. injection H as H.
  apply append_same_length in H; [| rewrite !length_two_digits by lia; reflexivity].
  destruct H as [Eh H]. cbn [append] in H. injection H as H.
  apply append_same_length in H; [| rewrite !length_two_digits by lia; reflexivity].
  destruct H as [Em Es]. cbn [append] in Es. injection Es as Es.
  apply (f_equal read_decimal) in EY, EM, ED, Eh, Em, Es.
  rewrite !read_year in EY by assumption.
  rewrite !read_two_digits in EM, ED, Eh, Em, Es by lia.
  unfold same_second. repeat split; lia.
Qed.

Lemma two_digits_digits (n : Z) :
  0 <= n < 100 -> all_chars is_digit (Standalone.two_digits n) = true.
Proof.
  intros H. unfold Standalone.two_digits, padStart0, decimal_int.
  assert (E : (n <? 0) = false) by (apply Z.ltb_ge; lia). rewrite E.
  rewrite all_chars_append, decimal_digits by lia.
  assert (Z : forall k, all_chars is_digit (repeat_char "0"%char k) = true).
  { intros k. induction k as [| k IH]; [reflexivity |]. cbn. exact IH. }
  rewrite Z. reflexivity.
Qed.

Lemma year_digits (n : Z) :
  1000 <= n <= 9999 -> all_chars is_digit (decimal_int n) = true.
Proof.
  intros H. unfold decimal_int.
  assert (E : (n <? 0) = false) by (apply Z.ltb_ge; lia). rewrite E.
  apply decimal_digits. lia.
Qed.

(** A numeral of the right width, standing in its place, is the field. *)
Lemma date_field_of (pos width : nat) (s digits : string) (n : Z) :
  String.substring pos width s = digits ->
  String.length digits = width ->
  all_chars is_digit digits = true ->
  read_decimal digits = n ->
  date_field pos width s = Some n.
Proof.
  intros E L D R. unfold date_field. rewrite E, L, Nat.eqb_refl, D, R. reflexivity.
Qed.

(** X13: for a clock reading in a year of four digits, the time stamp of
    the page has exactly 19 characters, with the separators of
    YYYY-MM-DD HH:MM:SS in their places; between them stand the year in
    four digits and, each in two digits, the month counted from one
    ([getMonth] counts from zero), the day, the hours, the minutes and the
    seconds. *)
Theorem dateStr_fixed_width (now : Date) :
  four_digit_date now ->
  String.length (Standalone.dateStr now) = 19%nat /\
  String.get 4 (Standalone.dateStr now) = Some "-"%char /\
  String.get 7 (Standalone.dateStr now) = Some "-"%char /\
  String.get 10 (Standalone.dateStr now) = Some " "%char /\
  String.get 13 (Standalone.dateStr now) = Some ":"%char /\
  String.get 16 (Standalone.dateStr now) = Some ":"%char /\
  date_field 0 4 (Standalone.dateStr now) = Some (getFullYear now) /\
  date_field 5 2 (Standalone.dateStr now) = Some (getMonth now + 1) /\
  date_field 8 2 (Standalone.dateStr now) = Some (getDate now) /\
  date_field 11 2 (Standalone.dateStr now) = Some (getHours now) /\
  date_field 14 2 (Standalone.dateStr now) = Some (getMinutes now) /\
  date_field 17 2 (Standalone.dateStr now) = Some (getSeconds now).
Proof.
  intros V. split; [apply dateStr_length, V |].
  destruct V as (Y & M & D & h & m & s).
  pose proof (length_year _ Y) as LY.
  pose proof (year_digits _ Y) as DY.
  pose proof (read_year _ Y) as RY.
  pose proof (length_two_digits (getMonth now + 1) ltac:(lia)) as LM.
  pose proof (two_digits_digits (getMonth now + 1) ltac:(lia)) as DM.
  pose proof (read_two_digits (getMonth now + 1) ltac:(lia)) as RM.
  pose proof (length_two_digits (getDate now) ltac:(lia)) as LD.
  pose proof (two_digits_digits (getDate now) ltac:(lia)) as DD.
  pose proof (read_two_digits (getDate now) ltac:(lia)) as RD.
  pose proof (length_two_digits (getHours now) ltac:(lia)) as Lh.
  pose proof (two_digits_digits (getHours now) ltac:(lia)) as Dh.
  pose proof (read_two_digits (getHours now) ltac:(lia)) as Rh.
  pose proof (length_two_digits (getMinutes now) ltac:(lia)) as Lm.
  pose proof (two_digits_digits (getMinutes now) ltac:(lia)) as Dm.
  pose proof (read_two_digits (getMinutes now) ltac:(lia)) as Rm.
  pose proof (length_two_digits (getSeconds now) ltac:(lia)) as Ls.
  pose proof (two_digits_digits (getSeconds now) ltac:(lia)) as Ds.
  pose proof (read_two_digits (getSeconds now) ltac:(lia)) as Rs.
  unfold Standalone.dateStr.
  destruct (decimal_int (getFullYear now)) as [| y1 [| y2 [| y3 [| y4 [| ? ?]]]]];
    try discriminate LY.
  destruct (Standalone.two_digits (getMonth now + 1)) as [| m1 [| m2 [| ? ?]]];
    try discriminate LM.
  destruct (Standalone.two_digits (getDate now)) as [| d1 [| d2 [| ? ?]]];
    try discriminate LD.
  destruct (Standalone.two_digits (getHours now)) as [| h1 [| h2 [| ? ?]]];
    try discriminate Lh.
  destruct (Standalone.two_digits (getMinutes now)) as [| n1 [| n2 [| ? ?]]];
    try discriminate Lm.
  destruct (Standalone.two_digits (getSeconds now)) as [| s1 [| s2 [| ? ?]]];
    try discriminate Ls.
  repeat split; try reflexivity.
  - eapply date_field_of; [| exact LY | exact DY | exact RY]; reflexivity.
  - eapply date_field_of; [| exact LM | exact DM | exact RM]; reflexivity.
  - eapply date_field_of; [| exact LD | exact DD | exact RD]; reflexivity.
  - eapply date_field_of; [| exact Lh | exact Dh | exact Rh]; reflexivity.
  - eapply date_field_of; [| exact Lm | exact Dm | exact Rm]; reflexivity.
  - eapply date_field_of; [| exact Ls | exact Ds | exact Rs]; reflexivity.
Qed.

(** Midnight of New Year's Day 2026 is written 2026-01-01 00:00:00: the
    month, zero for the clock, is 1 on the page. *)
Lemma dateStr_fixed_width_witness :
  four_digit_date new_year /\
  Standalone.dateStr new_year = "2026-01-01 00:00:00" /\
  getMonth new_year = 0 /\
  date_field 5 2 (Standalone.dateStr new_year) = Some 1.
Proof.
  assert (V : four_digit_date new_year) by (unfold four_digit_date; cbn; lia).
  split; [exact V |]. split; [reflexivity |]. split; [reflexivity |].
  destruct (dateStr_fixed_width new_year V) as (_ & _ & _ & _ & _ & _ & _ & M & _).
  exact M.
Defined.

(** X14: for clock readings in years of four digits, the page of a
    document rendered at one reading is the page rendered at another
    exactly when the two readings are in the same second: same year,
    month, day, hour, minute and second. *)
Theorem renderHTML_same_second (toLocaleString : number -> string)
    (d : ModelCardData) (a b : Date) :
  four_digit_date a -> four_digit_date b ->
  (Standalone.renderHTML toLocaleString a (Val d) =
   Standalone.renderHTML toLocaleString b (Val d)
   <-> same_second a b).
Proof.
  intros Va Vb.
  destruct (renderHTML_shape toLocaleString d) as (modelName & sections & E).
  rewrite !E. split.
  - intros H. apply Ok_inj, html_document_date in H.
    apply dateStr_same_second; assumption.
  - intros (EY & EM & ED & Eh & Em & Es). unfold Standalone.dateStr.
    rewrite EY, EM, ED, Eh, Em, Es. reflexivity.
Qed.

Lemma renderHTML_same_second_witness :
  Standalone.renderHTML plain_locale morning (Val example_document) =
  Standalone.renderHTML plain_locale
    {| getFullYear := 2025; getMonth := 10; getDate := 18;
       getHours := 9; getMinutes := 5; getSeconds := 7; getMilliseconds := 900 |}
    (Val example_document).
Proof.
  apply renderHTML_same_second.
  - unfold four_digit_date. cbn. lia.
  - unfold four_digit_date. cbn. lia.
  - unfold same_second. cbn. repeat split; reflexivity.
Defined.

(** * Totals of the feature-type histogram *)

Lemma featureTypeDistribution_counts (source : string -> string)
    (d : ModelCardData) (inventory : list Feature) :
  feature_inventory d = Val inventory ->
  Forall ordinary (type_keys inventory) ->
  Component.featureTypeDistribution source (Val d)
    = Ok (histogram_spec (type_keys inventory)).
Proof.
  intros Hinv Hord.
  unfold Component.featureTypeDistribution, get, deref, bind. rewrite Hinv.
  f_equal.
  rewrite (fold_left_map (Component.increment source)
             (fun feat => property_key (feat_type feat))).
  fold (type_keys inventory).
  change (@nil (string * Component.tally)) with (counts []).
  rewrite loop_counts by exact Hord.
  unfold counts, histogram_spec. cbn [app]. rewrite map_map. reflexivity.
Qed.

Lemma occurrences_cons (k' k : string) (l : list string) :
  occurrences k' (k :: l) = (if String.eqb k' k then 1 else 0) + occurrences k' l.
Proof.
  unfold occurrences. cbn [filter]. destruct (String.eqb k' k); cbn [List.length]; lia.
Qed.

Lemma sumZ_cons (x : Z) (l : list Z) : sumZ (x :: l) = x + sumZ l.
Proof. reflexivity. Qed.

Lemma sum_without (f : string -> Z) (k : string) (ks : list string) :
  NoDup ks ->
  sumZ (map f ks) =
  (if mem k ks then f k else 0)
  + sumZ (map f (filter (fun k' => negb (String.eqb k' k)) ks)).
Proof.
  intros N. induction N as [| a ks Ha N IH]; [reflexivity |].
  cbn [map filter mem existsb]. fold (mem k ks).
  rewrite sumZ_cons, IH, (String.eqb_sym a k).
  destruct (String.eqb k a) eqn:E; cbn [negb orb].
  - apply String.eqb_eq in E. subst a.
    assert (M : mem k ks = false) by (apply mem_false; exact Ha).
    rewrite M. lia.
  - cbn [map]. rewrite sumZ_cons. lia.
Qed.

Lemma sum_occurrences (l : list string) :
  sumZ (map (fun k => occurrences k l) (first_seen l)) = Z.of_nat (List.length l).
Proof.
  induction l as [| k l IH]; [reflexivity |].
  cbn [first_seen map]. rewrite sumZ_cons.
  change (List.length (k :: l)) with (S (List.length l)).
  rewrite (map_ext_in (fun k0 => occurrences k0 (k :: l)) (fun k0 => occurrences k0 l)).
  - rewrite occurrences_cons, String.eqb_refl.
    rewrite (sum_without (fun k0 => occurrences k0 l) k (first_seen l)
               (first_seen_NoDup l)) in IH.
    destruct (mem k (first_seen l)) eqn:M.
    + lia.
    + assert (Z0 : occurrences k l = 0).
      { apply occurrences_absent, mem_false. intros I.
        apply mem_false in M. apply M, first_seen_In, I. }
      lia.
  - intros k0 I. apply filter_In in I. destruct I as [_ I].
    rewrite occurrences_cons. apply negb_true_iff in I. rewrite I. lia.
Qed.

Lemma occurrences_present (k : string) (l : list string) :
  In k l -> 1 <= occurrences k l.
Proof.
  induction l as [| a l IH]; [contradiction |].
  intros [-> | I]; rewrite occurrences_cons.
  - rewrite String.eqb_refl. unfold occurrences. lia.
  - specialize (IH I). destruct (String.eqb k a); lia.
Qed.

(** X15: for an inventory whose type strings are neither array indices
    nor names inherited from [Object.prototype], the histogram lists
    every type once, every count is a number of at least 1, and the
    counts add up to the number of features. *)
Theorem featureTypeDistribution_totals (source : string -> string)
    (d : ModelCardData) (inventory : list Feature) :
  feature_inventory d = Val inventory ->
  Forall ordinary (type_keys inventory) ->
  exists points,
    Component.featureTypeDistribution source (Val d) = Ok points /\
    NoDup (map Component.type_name points) /\
    (forall p, In p points ->
       exists n, Component.type_value p = Component.Count n /\ 1 <= n) /\
    total points = Z.of_nat (List.length inventory).
Proof.
  intros Hinv Hord. exists (histogram_spec (type_keys inventory)).
  split; [apply featureTypeDistribution_counts; assumption |].
  unfold histogram_spec, total. rewrite !map_map. cbn [Component.type_name count_of
    Component.type_value].
  split; [| split].
  - rewrite map_id. apply first_seen_NoDup.
  - intros p I. apply in_map_iff in I. destruct I as (k & <- & I).
    eexists. split; [reflexivity |].
    apply occurrences_present, first_seen_In, I.
  - rewrite sum_occurrences. unfold type_keys. rewrite length_map. reflexivity.
Qed.

Lemma featureTypeDistribution_totals_witness :
  exists points,
    Component.featureTypeDistribution v8_source (Val example_document) = Ok points /\
    total points = 2.
Proof.
  destruct (featureTypeDistribution_totals v8_source example_document example_inventory
              eq_refl) as (points & E & _ & _ & T).
  - repeat constructor.
  - exists points. split; [exact E | exact T].
Defined.

(** * What the component needs *)

Lemma settles_bind {A B : Type} (c : result A) (k : A -> result B) (b1 b2 : bool) :
  settles c b1 -> (forall a, c = Ok a -> settles (k a) b2) ->
  settles (bind c k) (b1 && b2).
Proof.
  destruct b1; cbn [settles andb].
  - intros [a E] H. rewrite E. cbn [bind]. apply H, E.
  - intros -> _. reflexivity.
Qed.

Lemma throws_after {A B : Type} (c : result A) (k : A -> result B) (e : exn) :
  returns c -> (forall a, k a = Throw e) -> bind c k = Throw e.
Proof. intros [a ->] H. apply H. Qed.

(** Runs a computation that throws, past the calls that return. *)
Ltac throws :=
  cbn [bind get deref Component.get2 Component.get3];
  lazymatch goal with
  | |- Throw _ = Throw _ => reflexivity
  | |- bind _ _ = Throw _ =>
      apply throws_after; [solve_returns | intros; throws]
  end.

Ltac open_section f :=
  unfold f, Component.get3, Component.get2; cbn [get bind].

Lemma header_settles (d : ModelCardData) :
  settles (Component.header (Val d)) (required any_value (model_identification d)).
Proof.
  open_section Component.header.
  destruct (model_identification d) as [| | mi]; cbn [get bind required any_value settles];
    [reflexivity .. |].
  apply returns_Ok.
Qed.

Lemma model_identification_content_settles (d : ModelCardData) :
  settles (Component.model_identification_content (Val d))
    (required needs_ModelIdentification (model_identification d)).
Proof.
  open_section Component.model_identification_content.
  destruct (model_identification d) as [| | mi]; cbn [get bind required settles];
    [reflexivity .. |].
  unfold needs_ModelIdentification.
  destruct (mi_status mi) as [| | status]; cbn [required any_value andb settles];
    try (unfold Component.getStatusColor; throws).
  destruct (mi_session_id mi) as [| | session_id]; cbn [required any_value andb settles];
    try throws.
  solve_returns.
Qed.

Lemma training_metrics_content_settles (series : option (list Component.MetricPoint))
    (d : ModelCardData) :
  settles (Component.training_metrics_content series (Val d))
    (required needs_TrainingMetrics (training_metrics d)).
Proof.
  open_section Component.training_metrics_content.
  destruct (training_metrics d) as [| | tm]; cbn [get bind required settles];
    [reflexivity .. |].
  unfold needs_TrainingMetrics.
  destruct (tm_best_epoch tm) as [| | be]; cbn [get bind required any_value settles];
    [reflexivity .. |].
  repeat first
    [ apply when_object_returns; intros
    | apply classification_metrics_block_returns
    | apply optimal_threshold_block_returns
    | apply returns_Ok
    | progress cbn [bind]
    | apply formatValue_returns; exact I
    | apply returns_bind; [| intros ] ].
Qed.

Lemma warning_item_settles (idx : nat) (w : Warning) :
  settles (Component.warning_item idx w) (needs_Warning w).
Proof.
  unfold Component.warning_item, needs_Warning, Component.getSeverityColor.
  destruct (warn_severity w) as [| | s]; cbn [required any_value settles deref bind];
    [reflexivity .. |].
  solve_returns.
Qed.

Lemma training_dataset_content_settles (toLocaleString : number -> string)
    (types : list Component.TypePoint) (d : ModelCardData) :
  settles (Component.training_dataset_content toLocaleString types (Val d))
    (required needs_TrainingDataset (training_dataset d)).
Proof.
  open_section Component.training_dataset_content.
  destruct (training_dataset d) as [| | td]; cbn [get bind required settles];
    [reflexivity .. |].
  unfold needs_TrainingDataset.
  destruct (td_train_rows td); cbn [required any_value andb settles deref bind];
    [reflexivity .. |].
  destruct (td_val_rows td); cbn [required any_value andb settles deref bind];
    [reflexivity .. |].
  destruct (td_total_rows td); cbn [required any_value andb settles deref bind];
    [reflexivity .. |].
  destruct (td_feature_names td); cbn [required any_value andb settles deref bind];
    [reflexivity .. |].
  apply returns_Ok.
Qed.

Lemma training_configuration_content_settles (d : ModelCardData) :
  settles (Component.training_configuration_content (Val d))
    (required any_value (training_configuration d)).
Proof.
  destruct (training_configuration d) as [| | tc] eqn:H;
    cbn [required any_value settles];
    try (open_section Component.training_configuration_content; rewrite H;
         reflexivity).
  eapply training_configuration_content_returns, H.
Qed.

Lemma model_architecture_content_settles (toLocaleString : number -> string)
    (d : ModelCardData) :
  settles (Component.model_architecture_content toLocaleString (Val d))
    (required needs_ModelArchitecture (model_architecture d)).
Proof.
  open_section Component.model_architecture_content.
  destruct (model_architecture d) as [| | ma]; cbn [get bind required settles];
    [reflexivity .. |].
  unfold needs_ModelArchitecture, Component.unless_null.
  destruct (ma_predictor_layers ma), (ma_predictor_parameters ma),
    (ma_embedding_space_d_model ma);
    cbn [nullable any_value settles bind deref]; try reflexivity; apply returns_Ok.
Qed.

Lemma technical_details_content_settles (d : ModelCardData) :
  settles (Component.technical_details_content (Val d))
    (required any_value (technical_details d)).
Proof.
  open_section Component.technical_details_content.
  destruct (technical_details d) as [| | t]; cbn [get bind required any_value settles];
    [reflexivity .. |].
  apply returns_Ok.
Qed.

Lemma provenance_content_settles (d : ModelCardData) :
  settles (Component.provenance_content (Val d))
    (required needs_Provenance (provenance d)).
Proof.
  open_section Component.provenance_content.
  destruct (provenance d) as [| | p]; cbn [get bind required settles];
    [reflexivity .. |].
  unfold needs_Provenance, Component.unless_null, Component.duration_row, toFixed_of.
  destruct (prov_training_duration_minutes p);
    cbn [nullable any_value settles bind deref]; try reflexivity; solve_returns.
Qed.

(** ** The parts that read entries *)

Lemma foldM_settles {A B : Type} (f : B -> A -> B) (l : list (field A)) (b : B) :
  settles (foldM (fun b entry => a <- deref entry ;; Ok (f b a)) l b) (all_objects l).
Proof.
  revert b. induction l as [| [| | a] l IH]; intros b;
    cbn [foldM deref bind all_objects forallb truthy_object is_nullish negb andb settles];
    [apply returns_Ok | reflexivity | reflexivity | apply IH].
Qed.

Lemma mapM_entries_settles {A B : Type} (f : A -> result B) (l : list (field A)) :
  (forall a, returns (f a)) ->
  settles (mapM (fun entry => a <- deref entry ;; f a) l) (all_objects l).
Proof.
  intros F. induction l as [| [| | a] l IH];
    cbn [mapM deref bind all_objects forallb truthy_object is_nullish negb andb settles];
    [apply returns_Ok | reflexivity | reflexivity |].
  destruct (F a) as [b ->]. cbn [bind].
  fold (all_objects l). destruct (all_objects l); cbn [settles] in *.
  - destruct IH as [bs ->]. apply returns_Ok.
  - rewrite IH. reflexivity.
Qed.

Lemma mapi_entries_settles {A B : Type} (f : nat -> A -> result B) (p : A -> bool)
    (l : list (field A)) (i : nat) :
  (forall idx a, settles (f idx a) (p a)) ->
  settles (mapM (fun r => r)
             (Component.mapi_from i (fun idx entry => a <- deref entry ;; f idx a) l))
    (forallb (required p) l).
Proof.
  intros F. revert i. induction l as [| [| | a] l IH]; intros i;
    cbn [Component.mapi_from mapM deref bind forallb required andb settles];
    [apply returns_Ok | reflexivity | reflexivity |].
  apply settles_bind; [apply F | intros n _].
  rewrite <- (andb_true_r (forallb (required p) l)).
  apply settles_bind; [apply IH | intros ns _; apply returns_Ok].
Qed.

Lemma all_objects_required {A : Type} (l : list (field A)) :
  forallb (required any_value) l = all_objects l.
Proof.
  unfold all_objects. induction l as [| [| | a] l IH]; cbn; try reflexivity. exact IH.
Qed.

Lemma Raw_featureTypeDistribution_settles (source : string -> string)
    (r : RawModelCardData) :
  settles (Raw.featureTypeDistribution source (Val r))
    (required all_objects (raw_feature_inventory r)).
Proof.
  unfold Raw.featureTypeDistribution. cbn [get bind].
  destruct (raw_feature_inventory r) as [| | inventory];
    cbn [required settles deref bind]; [reflexivity .. |].
  rewrite <- (andb_true_r (all_objects inventory)).
  apply settles_bind; [| intros; apply returns_Ok].
  apply (foldM_settles
           (fun typeCounts feat =>
              Component.increment source typeCounts (property_key (feat_type feat)))).
Qed.

Lemma Raw_columnStatisticsData_settles (r : RawModelCardData) :
  settles (Raw.columnStatisticsData (Val r))
    (optional all_object_values (raw_column_statistics r)).
Proof.
  unfold Raw.columnStatisticsData. cbn [get bind].
  destruct (raw_column_statistics r) as [| | entries];
    cbn [optional settles]; try apply returns_Ok.
  rewrite <- (andb_true_r (all_object_values entries)).
  apply settles_bind; [| intros; apply returns_Ok].
  induction entries as [| [name [| | stats]] entries IH];
    cbn [mapM deref bind all_object_values forallb snd truthy_object is_nullish negb
         andb settles];
    [apply returns_Ok | reflexivity | reflexivity |].
  fold (all_object_values entries).
  destruct (all_object_values entries); cbn [settles] in *.
  - destruct IH as [points ->]. apply returns_Ok.
  - rewrite IH. reflexivity.
Qed.

Lemma Raw_model_quality_content_settles (r : RawModelCardData) :
  settles (Raw.model_quality_content (Val r))
    (required needs_RawModelQuality (raw_model_quality r)).
Proof.
  unfold Raw.model_quality_content, Component.get2. cbn [get bind].
  destruct (raw_model_quality r) as [| | mq]; cbn [get bind required settles];
    [reflexivity .. |].
  unfold needs_RawModelQuality.
  assert (A : returns
                (if truthy_string (raw_assessment mq)
                 then bind (Component.getQualityColor (raw_assessment mq))
                        (fun color =>
                           Ok (Component.tag "div"
                                 [ Component.tag "h3" [Component.Text "Assessment"];
                                   Component.badge color
                                     (Component.text_of (raw_assessment mq)) ]))
                 else Ok (Component.text_of (raw_assessment mq)))).
  { destruct (truthy_string (raw_assessment mq)); solve_returns. }
  destruct A as [block ->]. cbn [bind].
  apply settles_bind.
  - destruct (raw_recommendations mq) as [| | [| rec recs]];
      cbn [optional settles]; try apply returns_Ok.
    rewrite <- (andb_true_r (all_objects (rec :: recs))).
    apply settles_bind; [| intros; apply returns_Ok].
    rewrite <- all_objects_required.
    unfold Component.sequence, Component.mapi, Raw.recommendation_item.
    apply (mapi_entries_settles
             (fun idx rec => Ok (Component.recommendation_item idx rec)) any_value).
    intros idx a. apply returns_Ok.
  - intros recommendations_block _.
    destruct (raw_warnings mq) as [| | ws]; cbn [required settles deref bind];
      [reflexivity .. |].
    destruct ws as [| w ws]; [apply returns_Ok |].
    rewrite <- (andb_true_r (forallb (required needs_Warning) (w :: ws))).
    apply settles_bind; [| intros; apply returns_Ok].
    rewrite <- (andb_true_r (forallb (required needs_Warning) (w :: ws))).
    apply settles_bind; [| intros; apply returns_Ok].
    unfold Component.sequence, Component.mapi, Raw.warning_item.
    apply (mapi_entries_settles Component.warning_item needs_Warning).
    intros idx a. apply warning_item_settles.
Qed.

Lemma Raw_feature_inventory_content_settles (r : RawModelCardData) :
  settles (Raw.feature_inventory_content (Val r))
    (required all_objects (raw_feature_inventory r)).
Proof.
  unfold Raw.feature_inventory_content. cbn [get bind].
  destruct (raw_feature_inventory r) as [| | inventory];
    cbn [required settles deref bind]; [reflexivity .. |].
  rewrite <- (andb_true_r (all_objects inventory)).
  apply settles_bind; [| intros; apply returns_Ok].
  unfold Raw.feature_row. apply mapM_entries_settles, feature_row_returns.
Qed.

Lemma Raw_column_statistics_section_settles (expandedSections : list string)
    (series : option (list Component.ColumnPoint)) (r : RawModelCardData) :
  settles (Raw.column_statistics_section expandedSections series (Val r))
    (optional all_object_values (raw_column_statistics r)).
Proof.
  unfold Raw.column_statistics_section. cbn [get bind].
  destruct (raw_column_statistics r) as [| | entries];
    cbn [optional settles]; try apply returns_Ok.
  destruct entries as [| e entries]; [apply returns_Ok |].
  rewrite <- (andb_true_r (all_object_values (e :: entries))).
  apply settles_bind; [| intros; apply returns_Ok].
  unfold Raw.column_statistics_content.
  rewrite <- (andb_true_r (all_object_values (e :: entries))).
  apply settles_bind; [| intros; apply returns_Ok].
  generalize (e :: entries). clear e entries. intros entries.
  induction entries as [| [name [| | stats]] entries IH];
    cbn [mapM Raw.column_row deref bind all_object_values forallb snd truthy_object
         is_nullish negb andb settles];
    [apply returns_Ok | reflexivity | reflexivity |].
  destruct (column_row_returns (name, stats)) as [row ->]. cbn [bind].
  fold (all_object_values entries).
  destruct (all_object_values entries); cbn [settles] in *.
  - destruct IH as [rows ->]. apply returns_Ok.
  - rewrite IH. reflexivity.
Qed.

Lemma Raw_metricsChartData_needs (r : RawModelCardData) (x : exn) :
  Component.metricsChartData (Val (without_null_entries r)) = Throw x ->
  x = TypeError /\ raw_renders r = false.
Proof.
  unfold Component.metricsChartData, raw_renders.
  cbn [get bind model_identification training_metrics without_null_entries].
  destruct (raw_model_identification r) as [| | mi]; cbn [get bind required andb];
    try (intros H; injection H as <-; split; reflexivity).
  destruct (Component.is_not (mi_model_type mi) "Single Predictor"); [discriminate |].
  destruct (raw_training_metrics r) as [| | tm]; cbn [get bind required andb];
    try (intros H; injection H as <-; split; [reflexivity |];
         rewrite ?andb_false_r; reflexivity).
  destruct (tm_classification_metrics tm); discriminate.
Qed.

(** One step of the component on any document: the computation [L]
    settles on the condition [b]; when it throws, so does the component. *)
Ltac raw_step L b :=
  let S := fresh "S" in
  let B := fresh "B" in
  match type of L with
  | settles ?c _ => assert (S : settles c b) by exact L
  end;
  destruct b eqn:B; cbn [settles] in S;
  [ destruct S as [? S]; rewrite S; cbn [bind]
  | rewrite S; cbn [bind]; unfold raw_renders; rewrite ?B; cbn [andb];
    rewrite ?andb_false_r; try exact eq_refl ].

Lemma Raw_ModelCard_settles (source : string -> string)
    (toLocaleString : number -> string) (expandedSections : list string)
    (r : RawModelCardData) (className : option string) :
  settles (Raw.ModelCard source toLocaleString expandedSections (Val r) className)
    (raw_renders r).
Proof.
  unfold Raw.ModelCard. cbv zeta. cbn [field_map].
  destruct (Component.metricsChartData (Val (without_null_entries r)))
    as [series | x] eqn:M; cbn [bind];
    [| destruct (Raw_metricsChartData_needs r x M) as [-> ->]; exact eq_refl].
  raw_step (Raw_featureTypeDistribution_settles source r)
    (required all_objects (raw_feature_inventory r)).
  raw_step (Raw_columnStatisticsData_settles r)
    (optional all_object_values (raw_column_statistics r)).
  raw_step (header_settles (without_null_entries r))
    (required any_value (raw_model_identification r));
    [| destruct (raw_model_identification r); [exact eq_refl .. | discriminate B1]].
  raw_step (model_identification_content_settles (without_null_entries r))
    (required needs_ModelIdentification (raw_model_identification r)).
  raw_step (training_metrics_content_settles series (without_null_entries r))
    (required needs_TrainingMetrics (raw_training_metrics r)).
  raw_step (Raw_model_quality_content_settles r)
    (required needs_RawModelQuality (raw_model_quality r)).
  raw_step (training_dataset_content_settles toLocaleString x (without_null_entries r))
    (required needs_TrainingDataset (raw_training_dataset r)).
  raw_step (Raw_feature_inventory_content_settles r)
    (required all_objects (raw_feature_inventory r)).
  raw_step (training_configuration_content_settles (without_null_entries r))
    (required any_value (raw_training_configuration r)).
  raw_step (model_architecture_content_settles toLocaleString (without_null_entries r))
    (required needs_ModelArchitecture (raw_model_architecture r)).
  raw_step (technical_details_content_settles (without_null_entries r))
    (required any_value (raw_technical_details r)).
  raw_step (provenance_content_settles (without_null_entries r))
    (required needs_Provenance (raw_provenance r)).
  raw_step (Raw_column_statistics_section_settles expandedSections x0 r)
    (optional all_object_values (raw_column_statistics r)).
  unfold raw_renders.
  repeat match goal with H : _ = true |- _ => rewrite H; clear H end.
  apply returns_Ok.
Qed.

(** X16: the component returns exactly for the documents that have the
    properties it reads without a guard, and throws a TypeError, never
    anything else, for every other document: it needs the nine sections;
    a status and a session identifier; the three row counts and the
    feature names; the best epoch; the warnings; the predictor parameters
    and the training duration null or present, but not missing; and every
    entry of the feature inventory, of the recommendations and of the
    warnings, and every value of the column statistics, an object, each
    warning with a severity.  Nothing else is needed. *)
Theorem ModelCard_returns_exactly (source : string -> string)
    (toLocaleString : number -> string) (expandedSections : list string)
    (data : field RawModelCardData) (className : option string) :
  (returns (Raw.ModelCard source toLocaleString expandedSections data className)
   <-> exists r, data = Val r /\ raw_renders r = true) /\
  (Raw.ModelCard source toLocaleString expandedSections data className
     = Throw TypeError
   <-> ~ exists r, data = Val r /\ raw_renders r = true).
Proof.
  destruct data as [| | r].
  - split; split.
    + intros [card H]. discriminate H.
    + intros (r & H & _). discriminate H.
    + intros _ (r & H & _). discriminate H.
    + reflexivity.
  - split; split.
    + intros [card H]. discriminate H.
    + intros (r & H & _). discriminate H.
    + intros _ (r & H & _). discriminate H.
    + reflexivity.
  - pose proof (Raw_ModelCard_settles source toLocaleString expandedSections r className)
      as S.
    destruct (raw_renders r) eqn:R; cbn [settles] in S.
    + split; split.
      * intros _. exists r. auto.
      * intros _. exact S.
      * intros H. destruct S as [card S]. rewrite S in H. discriminate H.
      * intros N. exfalso. apply N. exists r. auto.
    + split; split.
      * intros [card H]. rewrite S in H. discriminate H.
      * intros (r' & E & R'). injection E as <-. congruence.
      * intros _ (r' & E & R'). injection E as <-. congruence.
      * intros _. exact S.
Qed.

(** The bare document renders; with [session_id] null, or with a null
    entry in the feature inventory, the component throws. *)
Lemma ModelCard_returns_exactly_witness :
  returns (Raw.ModelCard v8_source plain_locale [] (Val (with_entries bare_document))
             None) /\
  Raw.ModelCard v8_source plain_locale [] (Val (with_entries null_session_document)) None
  = Throw TypeError /\
  Raw.ModelCard v8_source plain_locale [] (Val null_feature_document) None
  = Throw TypeError.
Proof.
  split; [| split].
  - apply (ModelCard_returns_exactly v8_source plain_locale []
             (Val (with_entries bare_document)) None).
    exists (with_entries bare_document). split; reflexivity.
  - apply (ModelCard_returns_exactly v8_source plain_locale []
             (Val (with_entries null_session_document)) None).
    intros (r & E & R). injection E as <-. discriminate R.
  - apply (ModelCard_returns_exactly v8_source plain_locale []
             (Val null_feature_document) None).
    intros (r & E & R). injection E as <-. discriminate R.
Defined.

(** * The displayed model type *)

(** X17: displaying a displayed model type changes nothing: whatever
    getModelTypeDisplay answers for a model type and a target type, it
    answers the same for that answer and the same target type. *)
Theorem getModelTypeDisplay_idempotent (modelType targetType : field string)
    (shown : string) :
  Component.getModelTypeDisplay modelType targetType = Ok shown ->
  Component.getModelTypeDisplay (Val shown) targetType = Ok shown.
Proof.
  unfold Component.getModelTypeDisplay at 1.
  destruct modelType as [| | m]; cbn [truthy_string negb];
    try (intros H; apply Ok_inj in H; subst shown; reflexivity).
  destruct (String.eqb m "") eqn:E0; cbn [negb deref bind];
    [intros H; apply Ok_inj in H; subst shown; reflexivity |].
  destruct (String.eqb (toLowerCase m) "embedding space" || String.eqb (toLowerCase m) "es")
    eqn:Ees; [intros H; apply Ok_inj in H; subst shown; reflexivity |].
  destruct (String.eqb (toLowerCase m) "single predictor"
            || String.eqb (toLowerCase m) "sp") eqn:Esp.
  - destruct (String.eqb (toLowerCase (or_string targetType "")) "set") eqn:Eset;
      [intros H; apply Ok_inj in H; subst shown; reflexivity |].
    destruct (String.eqb (toLowerCase (or_string targetType "")) "scalar") eqn:Escalar;
      [intros H; apply Ok_inj in H; subst shown; reflexivity |].
    intros H. apply Ok_inj in H. subst shown.
    unfold Component.getModelTypeDisplay. cbn [truthy_string String.eqb Ascii.eqb Bool.eqb
      negb deref bind].
    change (toLowerCase "Single Predictor") with "single predictor".
    cbn [String.eqb Ascii.eqb Bool.eqb orb andb].
    rewrite Eset, Escalar. reflexivity.
  - intros H. apply Ok_inj in H. subst shown.
    unfold Component.getModelTypeDisplay. cbn [truthy_string]. rewrite E0.
    cbn [negb deref bind]. rewrite Ees, Esp. reflexivity.
Qed.

Lemma getModelTypeDisplay_idempotent_witness :
  Component.getModelTypeDisplay (Val "Classifier") (Val "set") = Ok "Classifier".
Proof.
  apply (getModelTypeDisplay_idempotent (Val "sp") (Val "set") "Classifier").
  reflexivity.
Defined.

(** * Tables *)

Lemma column_rows_keys (entries : list (string * ColumnStats))
    (rows : list Component.node) :
  mapM Component.column_row entries = Ok rows ->
  map key rows = map (fun entry => Some (fst entry)) entries.
Proof.
  revert rows. induction entries as [| [name stats] entries IH]; intros rows H.
  - apply Ok_inj in H. subst rows. reflexivity.
  - cbn [mapM] in H. invert_binds H. apply Ok_inj in H. subst rows.
    cbn [map fst]. f_equal; [| apply IH; assumption].
    match goal with E : Component.column_row _ = Ok _ |- _ =>
      unfold Component.column_row in E; invert_binds E; apply Ok_inj in E; subst
    end.
    reflexivity.
Qed.

Lemma feature_rows_keys (inventory : list Feature) (rows : list Component.node) :
  mapM Component.feature_row inventory = Ok rows ->
  map key rows = map feature_key inventory.
Proof.
  revert rows. induction inventory as [| feat inventory IH]; intros rows H.
  - apply Ok_inj in H. subst rows. reflexivity.
  - cbn [mapM] in H. invert_binds H. apply Ok_inj in H. subst rows.
    cbn [map]. f_equal; [| apply IH; assumption].
    match goal with E : Component.feature_row _ = Ok _ |- _ =>
      unfold Component.feature_row in E; invert_binds E; apply Ok_inj in E; subst
    end.
    unfold feature_key, Component.key_of. destruct (feat_name feat); reflexivity.
Qed.

(** X18: the table of the Column Statistics section has one row for
    every column of the document, keyed by the column's name, in the
    document's order: it is neither sorted nor cut to ten rows as the
    chart above it is. *)
Theorem column_statistics_table_is_complete
    (series : option (list Component.ColumnPoint))
    (entries : list (string * ColumnStats)) (content : Component.node) :
  Component.column_statistics_content series entries = Ok content ->
  map key (table_rows content) = map (fun entry => Some (fst entry)) entries.
Proof.
  unfold Component.column_statistics_content. intros H. invert_binds H.
  apply Ok_inj in H. subst content.
  unfold table_rows. cbn. rewrite app_nil_r. apply column_rows_keys. assumption.
Qed.

Lemma column_statistics_table_is_complete_witness :
  exists content,
    Component.column_statistics_content None twelve_columns = Ok content /\
    List.length (table_rows content) = 12%nat.
Proof.
  destruct (Component.column_statistics_content None twelve_columns) as [content | e] eqn:E;
    [| vm_compute in E; discriminate E].
  exists content. split; [reflexivity |].
  rewrite <- (length_map key), (column_statistics_table_is_complete _ _ _ E), length_map.
  reflexivity.
Defined.

(** X19: the table of the Feature Inventory section has one row for every
    feature of the inventory, in order, keyed by the feature's name. *)
Theorem feature_inventory_table_is_complete (d : ModelCardData)
    (inventory : list Feature) (content : Component.node) :
  feature_inventory d = Val inventory ->
  Component.feature_inventory_content (Val d) = Ok content ->
  map key (table_rows content) = map feature_key inventory.
Proof.
  unfold Component.feature_inventory_content. cbn [get bind]. intros -> H.
  cbn [deref bind] in H. invert_binds H. apply Ok_inj in H. subst content.
  unfold table_rows. cbn. rewrite app_nil_r. apply feature_rows_keys. assumption.
Qed.

Lemma feature_inventory_table_is_complete_witness :
  exists content,
    Component.feature_inventory_content (Val example_document) = Ok content /\
    map key (table_rows content) = [Some "fleet_size"; Some "primary_operation"].
Proof.
  destruct (Component.feature_inventory_content (Val example_document))
    as [content | e] eqn:E; [| vm_compute in E; discriminate E].
  exists content. split; [reflexivity |].
  rewrite (feature_inventory_table_is_complete example_document example_inventory
             content eq_refl E).
  reflexivity.
Defined.

(** * The histogram, whatever the type strings *)

Section OwnProperties.
Context {V : Type}.

Lemma own_In (o : list (string * V)) (k : string) (v : V) :
  NoDup (map fst o) -> In (k, v) o -> own o k = Some v.
Proof.
  induction o as [| [k' v'] o IH]; [contradiction |].
  cbn [map fst own]. intros N I. inversion N as [| ? ? Hk No]; subst.
  destruct I as [E | I].
  - injection E as -> ->. rewrite String.eqb_refl. reflexivity.
  - destruct (String.eqb k k') eqn:K; [| apply IH; assumption].
    apply String.eqb_eq in K. subst k'. exfalso. apply Hk.
    apply in_map_iff. exists (k, v). auto.
Qed.

Lemma own_Some (o : list (string * V)) (k : string) (v : V) :
  own o k = Some v -> In (k, v) o.
Proof.
  induction o as [| [k' v'] o IH]; [discriminate |].
  cbn [own]. destruct (String.eqb k k') eqn:K.
  - apply String.eqb_eq in K. subst k'. intros H. injection H as ->. left. reflexivity.
  - intros H. right. apply IH, H.
Qed.

Lemma own_perm (o o' : list (string * V)) (k : string) :
  Permutation o o' -> NoDup (map fst o) -> own o k = own o' k.
Proof.
  intros P N.
  assert (N' : NoDup (map fst o')).
  { apply (Permutation_NoDup (Permutation_map fst P)), N. }
  destruct (own o k) as [v |] eqn:E.
  - symmetry. apply own_In; [exact N' |].
    apply (Permutation_in _ P), own_Some, E.
  - destruct (own o' k) as [v' |] eqn:E'; [| reflexivity].
    apply own_Some in E'. apply (Permutation_in _ (Permutation_sym P)) in E'.
    rewrite (own_In _ _ _ N E') in E. discriminate E.
Qed.

Lemma replace_perm (o o' : list (string * V)) (k : string) (v : V) :
  Permutation o o' -> NoDup (map fst o) ->
  Permutation (replace o k v) (replace o' k v).
Proof.
  induction 1 as [| [k1 v1] l l' P IH | [k1 v1] [k2 v2] l | l l' l'' P1 IH1 P2 IH2];
    intros N.
  - apply Permutation_refl.
  - cbn [replace]. inversion N; subst.
    destruct (String.eqb k k1); apply perm_skip; [exact P | apply IH; assumption].
  - cbn [replace]. cbn [map fst] in N.
    inversion N as [| ? ? H1 N1]; subst.
    destruct (String.eqb k k1) eqn:K1, (String.eqb k k2) eqn:K2; try apply perm_swap.
    apply String.eqb_eq in K1, K2. subst. exfalso. apply H1. left. reflexivity.
  - eapply Permutation_trans; [apply IH1, N |].
    apply IH2. apply (Permutation_NoDup (Permutation_map fst P1)), N.
Qed.

Lemma create_index_perm (o : list (string * V)) (n : Z) (k : string) (v : V) :
  Permutation (create_index o n k v) ((k, v) :: o).
Proof.
  induction o as [| [k' v'] o IH]; [apply Permutation_refl |].
  cbn [create_index].
  destruct (array_index k') as [n' |]; [| apply Permutation_refl].
  destruct (n' <? n); [| apply Permutation_refl].
  eapply Permutation_trans; [apply perm_skip, IH | apply perm_swap].
Qed.

Lemma define_new (o : list (string * V)) (k : string) (v : V) :
  own o k = None -> Permutation (define o k v) (o ++ [(k, v)]).
Proof.
  intros H. unfold define. rewrite H.
  destruct (array_index k) as [n |]; [| apply Permutation_refl].
  eapply Permutation_trans; [apply create_index_perm | apply Permutation_cons_append].
Qed.

End OwnProperties.

Lemma counts_keys (l : list string) : map fst (counts l) = first_seen l.
Proof. unfold counts. rewrite map_map. cbn [fst]. apply map_id. Qed.

Lemma mem_first_seen (k : string) (l : list string) : mem k (first_seen l) = mem k l.
Proof.
  destruct (mem k l) eqn:E.
  - apply mem_In, first_seen_In, mem_In. exact E.
  - apply mem_false. rewrite first_seen_In. apply mem_false. exact E.
Qed.

Lemma own_counts (l : list string) (k : string) :
  own (counts l) k = if mem k l then Some (Component.Count (occurrences k l)) else None.
Proof.
  unfold counts.
  change (map (fun k0 => (k0, Component.Count (occurrences k0 l))) (first_seen l))
    with (pairs (fun k0 => Component.Count (occurrences k0 l)) (first_seen l)).
  rewrite own_pairs, mem_first_seen. reflexivity.
Qed.

Lemma counts_seen (l : list string) (k : string) :
  mem k l = true ->
  replace (counts l) k (Component.Count (occurrences k l + 1)) = counts (l ++ [k]).
Proof.
  intros E. unfold counts.
  change (map (fun k0 => (k0, Component.Count (occurrences k0 l))) (first_seen l))
    with (pairs (fun k0 => Component.Count (occurrences k0 l)) (first_seen l)).
  rewrite replace_pairs by apply first_seen_NoDup.
  rewrite first_seen_snoc, E.
  apply pairs_ext. intros k' _. rewrite occurrences_snoc.
  destruct (String.eqb k' k) eqn:K.
  - apply String.eqb_eq in K. subst. reflexivity.
  - f_equal. lia.
Qed.

Lemma counts_new (l : list string) (k : string) :
  mem k l = false ->
  counts (l ++ [k]) = (counts l ++ [(k, Component.Count 1)])%list.
Proof.
  intros E. unfold counts. rewrite first_seen_snoc, E, map_app. cbn [map]. f_equal.
  - apply map_ext_in. intros k' Hk'. rewrite occurrences_snoc.
    destruct (String.eqb k' k) eqn:K.
    + apply String.eqb_eq in K. subst k'. exfalso.
      apply (proj1 (first_seen_In k l)) in Hk'. apply (proj2 (mem_In k l)) in Hk'.
      congruence.
    + do 2 f_equal. lia.
  - rewrite occurrences_snoc, String.eqb_refl, (occurrences_absent k l E). reflexivity.
Qed.

Lemma increment_perm (source : string -> string) (o : list (string * Component.tally))
    (l : list string) (k : string) :
  inherited k = false ->
  Permutation o (counts l) ->
  Permutation (Component.increment source o k) (counts (l ++ [k])).
Proof.
  intros Hinh P.
  assert (N : NoDup (map fst o)).
  { apply (Permutation_NoDup (Permutation_map fst (Permutation_sym P))).
    rewrite counts_keys. apply first_seen_NoDup. }
  unfold Component.increment.
  rewrite (own_perm o (counts l) k P N), own_counts.
  destruct (mem k l) eqn:E.
  - rewrite <- (counts_seen l k E). unfold define.
    rewrite (own_perm o (counts l) k P N), own_counts, E.
    apply replace_perm; assumption.
  - rewrite Hinh, (counts_new l k E).
    eapply Permutation_trans.
    + apply define_new. rewrite (own_perm o (counts l) k P N), own_counts, E. reflexivity.
    + apply Permutation_app_tail, P.
Qed.

Lemma loop_perm (source : string -> string) (rest seen : list string)
    (o : list (string * Component.tally)) :
  Forall (fun k => inherited k = false) rest ->
  Permutation o (counts seen) ->
  Permutation (fold_left (Component.increment source) rest o) (counts (seen ++ rest)).
Proof.
  revert seen o. induction rest as [| k rest IH]; intros seen o H P.
  - rewrite app_nil_r. exact P.
  - inversion H as [| ? ? Hk Hrest]; subst. cbn [fold_left].
    replace (seen ++ k :: rest)%list with ((seen ++ [k]) ++ rest)%list
      by (rewrite <- app_assoc; reflexivity).
    apply IH; [exact Hrest |]. apply increment_perm; assumption.
Qed.

(** X20: for an inventory none of whose type strings is a name inherited
    from [Object.prototype] (array indices such as "1" are allowed), the
    histogram has exactly the points of the first-seen histogram, each
    distinct type with the count of its occurrences; only their order may
    differ. *)
Theorem featureTypeDistribution_counts_in_some_order (source : string -> string)
    (d : ModelCardData) (inventory : list Feature) :
  feature_inventory d = Val inventory ->
  Forall (fun k => inherited k = false) (type_keys inventory) ->
  exists points,
    Component.featureTypeDistribution source (Val d) = Ok points /\
    Permutation points (histogram_spec (type_keys inventory)).
Proof.
  intros Hinv H.
  unfold Component.featureTypeDistribution, get, deref, bind. rewrite Hinv.
  eexists. split; [reflexivity |].
  rewrite (fold_left_map (Component.increment source)
             (fun feat => property_key (feat_type feat))).
  fold (type_keys inventory).
  assert (P : Permutation
                (fold_left (Component.increment source) (type_keys inventory) [])
                (counts (type_keys inventory))).
  { apply (loop_perm source (type_keys inventory) [] []); [exact H |].
    apply Permutation_refl. }
  apply (Permutation_map
           (fun '(name, value) =>
              {| Component.type_name := name; Component.type_value := value |})) in P.
  unfold counts in P. rewrite map_map in P. exact P.
Qed.

Lemma featureTypeDistribution_counts_in_some_order_witness :
  exists points,
    Component.featureTypeDistribution v8_source
      (Val (inventory_document [typed "set"; typed "2"; typed "1"; typed "set"]))
      = Ok points /\
    Permutation points
      [ {| Component.type_name := "set"; Component.type_value := Component.Count 2 |};
        {| Component.type_name := "2"; Component.type_value := Component.Count 1 |};
        {| Component.type_name := "1"; Component.type_value := Component.Count 1 |} ].
Proof.
  apply (featureTypeDistribution_counts_in_some_order v8_source
           (inventory_document [typed "set"; typed "2"; typed "1"; typed "set"])
           [typed "set"; typed "2"; typed "1"; typed "set"] eq_refl).
  repeat constructor.
Defined.

(** * The order of the histogram *)

Lemma replace_keys {V : Type} (o : list (string * V)) (k : string) (v : V) :
  map fst (replace o k v) = map fst o.
Proof.
  induction o as [| [k' v'] o IH]; [reflexivity |].
  cbn [replace]. destruct (String.eqb k k'); cbn [map fst]; [reflexivity |].
  rewrite IH. reflexivity.
Qed.

Lemma create_index_keys {V : Type} (o : list (string * V)) (n : Z) (k : string) (v : V) :
  map fst (create_index o n k v) = insert_key n k (map fst o).
Proof.
  induction o as [| [k' v'] o IH]; [reflexivity |].
  cbn [create_index map fst insert_key].
  destruct (array_index k') as [n' |]; [| reflexivity].
  destruct (n' <? n); [| reflexivity].
  cbn [map fst]. rewrite IH. reflexivity.
Qed.

Lemma insert_key_app (n : Z) (k : string) (indices others : list string) :
  Forall (fun a => is_index a = true) indices ->
  Forall (fun a => is_index a = false) others ->
  insert_key n k (indices ++ others) = (insert_key n k indices ++ others)%list.
Proof.
  intros Hi Ho. induction Hi as [| a indices Ha Hi IH]; cbn [app insert_key].
  - destruct Ho as [| b others Hb Ho]; [reflexivity |].
    cbn [insert_key]. unfold is_index in Hb.
    destruct (array_index b); [discriminate Hb | reflexivity].
  - unfold is_index in Ha. destruct (array_index a) as [n' |]; [| discriminate Ha].
    destruct (n' <? n); [| reflexivity]. rewrite IH. reflexivity.
Qed.

Lemma insert_key_perm (n : Z) (k : string) (keys : list string) :
  Permutation (insert_key n k keys) (k :: keys).
Proof.
  induction keys as [| a keys IH]; [apply Permutation_refl |].
  cbn [insert_key]. destruct (array_index a) as [n' |]; [| apply Permutation_refl].
  destruct (n' <? n); [| apply Permutation_refl].
  eapply Permutation_trans; [apply perm_skip, IH | apply perm_swap].
Qed.

Lemma insert_key_sorted (n : Z) (k : string) (indices : list string) :
  array_index k = Some n ->
  Forall (fun a => is_index a = true) indices ->
  StronglySorted index_le indices ->
  StronglySorted index_le (insert_key n k indices).
Proof.
  intros Hk Hi S. induction S as [| a indices S IH Ha]; cbn [insert_key].
  - constructor; constructor.
  - inversion Hi as [| ? ? Ia Hi']; subst. unfold is_index in Ia.
    destruct (array_index a) as [n' |] eqn:Ea; [| discriminate Ia].
    destruct (n' <? n) eqn:L.
    + apply Z.ltb_lt in L. constructor; [apply IH, Hi' |].
      apply (Permutation_Forall (Permutation_sym (insert_key_perm n k indices))).
      constructor; [| exact Ha].
      unfold index_le. rewrite Ea, Hk. lia.
    + apply Z.ltb_ge in L. constructor; [constructor; assumption |].
      constructor.
      * unfold index_le. rewrite Ea, Hk. exact L.
      * rewrite Forall_forall in Ha, Hi' |- *. intros b Hb.
        specialize (Ha b Hb). specialize (Hi' b Hb).
        unfold index_le in Ha |- *. unfold is_index in Hi'. rewrite Ea in Ha. rewrite Hk.
        destruct (array_index b) as [m |]; [lia | exact I].
Qed.

Lemma indices_of_filter (indices seen : list string) :
  Permutation indices (filter is_index seen) ->
  Forall (fun a => is_index a = true) indices.
Proof.
  intros P. apply (Permutation_Forall (Permutation_sym P)).
  rewrite Forall_forall. intros a Ha. apply filter_In in Ha. apply Ha.
Qed.

Lemma others_of_filter (seen : list string) :
  Forall (fun a => is_index a = false) (filter (fun k => negb (is_index k)) seen).
Proof.
  rewrite Forall_forall. intros a Ha. apply filter_In in Ha.
  destruct Ha as [_ Ha]. apply negb_true_iff, Ha.
Qed.

Lemma increment_order (source : string -> string) (o : list (string * Component.tally))
    (l : list string) (k : string) :
  inherited k = false ->
  Permutation o (counts l) ->
  indices_first (map fst o) (first_seen l) ->
  indices_first (map fst (Component.increment source o k)) (first_seen (l ++ [k])).
Proof.
  intros Hinh P (indices & Keys & Pi & S).
  assert (N : NoDup (map fst o)).
  { apply (Permutation_NoDup (Permutation_map fst (Permutation_sym P))).
    rewrite counts_keys. apply first_seen_NoDup. }
  unfold Component.increment.
  rewrite (own_perm o (counts l) k P N), own_counts, first_seen_snoc.
  destruct (mem k l) eqn:E.
  - unfold define. rewrite (own_perm o (counts l) k P N), own_counts, E.
    rewrite replace_keys. exists indices. auto.
  - rewrite Hinh. unfold define, indices_first.
    rewrite (own_perm o (counts l) k P N), own_counts, E.
    rewrite !filter_app. cbn [filter].
    destruct (array_index k) as [n |] eqn:Ek.
    + assert (Ik : is_index k = true) by (unfold is_index; rewrite Ek; reflexivity).
      rewrite Ik. cbn [negb]. rewrite app_nil_r.
      exists (insert_key n k indices). split; [| split].
      * rewrite create_index_keys, Keys.
        apply insert_key_app; [eapply indices_of_filter, Pi | apply others_of_filter].
      * eapply Permutation_trans; [apply insert_key_perm |].
        eapply Permutation_trans; [apply perm_skip, Pi | apply Permutation_cons_append].
      * apply insert_key_sorted; [exact Ek | eapply indices_of_filter, Pi | exact S].
    + assert (Ik : is_index k = false) by (unfold is_index; rewrite Ek; reflexivity).
      rewrite Ik. cbn [negb]. rewrite app_nil_r.
      exists indices. split; [| split; assumption].
      rewrite map_app, Keys, <- app_assoc. reflexivity.
Qed.

Lemma loop_order (source : string -> string) (rest seen : list string)
    (o : list (string * Component.tally)) :
  Forall (fun k => inherited k = false) rest ->
  Permutation o (counts seen) ->
  indices_first (map fst o) (first_seen seen) ->
  indices_first (map fst (fold_left (Component.increment source) rest o))
    (first_seen (seen ++ rest)).
Proof.
  revert seen o. induction rest as [| k rest IH]; intros seen o H P I.
  - rewrite app_nil_r. exact I.
  - inversion H as [| ? ? Hk Hrest]; subst. cbn [fold_left].
    replace (seen ++ k :: rest)%list with ((seen ++ [k]) ++ rest)%list
      by (rewrite <- app_assoc; reflexivity).
    apply IH; [exact Hrest | apply increment_perm; assumption |].
    apply increment_order; assumption.
Qed.

(** X21: the order of the histogram.  For an inventory none of whose
    type strings is inherited from [Object.prototype], the points come
    with the types that are array indices first, in ascending numeric
    order, and then the other types in the order in which each first
    occurs in the inventory. *)
Theorem featureTypeDistribution_order (source : string -> string)
    (d : ModelCardData) (inventory : list Feature) :
  feature_inventory d = Val inventory ->
  Forall (fun k => inherited k = false) (type_keys inventory) ->
  exists points,
    Component.featureTypeDistribution source (Val d) = Ok points /\
    indices_first (map Component.type_name points) (first_seen (type_keys inventory)).
Proof.
  intros Hinv H.
  unfold Component.featureTypeDistribution, get, deref, bind. rewrite Hinv.
  eexists. split; [reflexivity |].
  rewrite (fold_left_map (Component.increment source)
             (fun feat => property_key (feat_type feat))).
  fold (type_keys inventory).
  assert (I : indices_first
                (map fst (fold_left (Component.increment source) (type_keys inventory) []))
                (first_seen (type_keys inventory))).
  { apply (loop_order source (type_keys inventory) [] []); [exact H | | ].
    - apply Permutation_refl.
    - exists []. repeat split; constructor. }
  rewrite map_map.
  erewrite map_ext; [exact I |]. intros [name value]. reflexivity.
Qed.

Lemma featureTypeDistribution_order_witness :
  exists points,
    Component.featureTypeDistribution v8_source
      (Val (inventory_document [typed "set"; typed "2"; typed "1"; typed "set"]))
      = Ok points /\
    indices_first (map Component.type_name points) ["set"; "2"; "1"].
Proof.
  apply (featureTypeDistribution_order v8_source
           (inventory_document [typed "set"; typed "2"; typed "1"; typed "set"])
           [typed "set"; typed "2"; typed "1"; typed "set"] eq_refl).
  repeat constructor.
Defined.

(** * When the classification metrics are shown *)

Lemma append_grows (g c : string) : g <> "" -> g ++ c <> c.
Proof.
  intros N E. apply (f_equal String.length) in E. rewrite length_append in E.
  destruct g as [| x g]; [apply N; reflexivity |]. cbn [String.length] in E. lia.
Qed.

Lemma grid_is_not_empty (precision recall f1 auc : string) :
  Templates.classification_metrics_grid precision recall f1 auc <> "".
Proof. unfold Templates.classification_metrics_grid. discriminate. Qed.

(** X22: for a document with model_identification and training_metrics,
    the chart series of the component is there (not null), and the
    stand-alone page has the metrics grid, exactly when model_type is the
    string "Single Predictor" and classification_metrics is an object. *)
Theorem classification_metrics_shown_exactly (d : ModelCardData)
    (mi : ModelIdentification) (tm : TrainingMetrics) :
  model_identification d = Val mi ->
  training_metrics d = Val tm ->
  ((exists series, Component.metricsChartData (Val d) = Ok (Some series)) <->
     mi_model_type mi = Val "Single Predictor" /\
     exists cm, tm_classification_metrics tm = Val cm) /\
  ((exists html, Standalone.renderTrainingMetrics (Val d) = Ok html /\
                 html <> metrics_shell) <->
     mi_model_type mi = Val "Single Predictor" /\
     exists cm, tm_classification_metrics tm = Val cm).
Proof.
  intros Hmi Htm. split.
  - unfold Component.metricsChartData. cbn [get bind]. rewrite Hmi. cbn [get bind].
    destruct (mi_model_type mi) as [| | s]; cbn [Component.is_not].
    + split; [intros [series H]; discriminate H | intros [H _]; discriminate H].
    + split; [intros [series H]; discriminate H | intros [H _]; discriminate H].
    + destruct (String.eqb s "Single Predictor") eqn:E; cbn [negb].
      * apply String.eqb_eq in E. subst s. rewrite Htm. cbn [get bind].
        destruct (tm_classification_metrics tm) as [| | cm].
        -- split; [intros [series H]; discriminate H | intros [_ [cm H]]; discriminate H].
        -- split; [intros [series H]; discriminate H | intros [_ [cm H]]; discriminate H].
        -- split; [intros _; split; [reflexivity | exists cm; reflexivity] |].
           intros _. eexists. reflexivity.
      * apply String.eqb_neq in E.
        split; [intros [series H]; discriminate H | intros [H _]; congruence].
  - unfold Standalone.renderTrainingMetrics. cbn [get bind]. rewrite Hmi, Htm.
    cbn [or_empty]. unfold or_string.
    assert (Shell : forall (P : Prop),
              (exists html, Ok (Templates.training_metrics_open ++ Templates.section_close)
                            = Ok html /\ html <> metrics_shell) -> P).
    { intros P (html & H & N). apply Ok_inj in H. subst html. exfalso. apply N.
      reflexivity. }
    destruct (mi_model_type mi) as [| | s].
    + cbn [String.eqb andb bind].
      split; [apply Shell | intros [H _]; discriminate H].
    + cbn [String.eqb andb bind].
      split; [apply Shell | intros [H _]; discriminate H].
    + destruct (String.eqb s "") eqn:E0.
      * apply String.eqb_eq in E0. subst s. cbn [String.eqb andb bind].
        split; [apply Shell | intros [H _]; discriminate H].
      * destruct (String.eqb s "Single Predictor") eqn:E; cbn [andb].
        -- apply String.eqb_eq in E. subst s.
           destruct (tm_classification_metrics tm) as [| | cm];
             cbn [truthy_object is_nullish negb bind].
           ++ split; [apply Shell | intros [_ [cm H]]; discriminate H].
           ++ split; [apply Shell | intros [_ [cm H]]; discriminate H].
           ++ split; [intros _; split; [reflexivity | exists cm; reflexivity] |].
              intros _. cbn [deref bind].
              destruct (metric_cell_returns (cm_precision cm)) as [p ->].
              destruct (metric_cell_returns (cm_recall cm)) as [r ->].
              destruct (metric_cell_returns (cm_f1 cm)) as [f ->].
              destruct (metric_cell_returns (cm_auc cm)) as [a ->].
              cbn [bind]. eexists. split; [reflexivity |].
              unfold metrics_shell. rewrite append_assoc. intros H.
              apply append_inv_head in H. revert H.
              apply append_grows, grid_is_not_empty.
        -- apply String.eqb_neq in E. cbn [bind].
           split; [apply Shell | intros [H _]; congruence].
Qed.

Lemma classification_metrics_shown_exactly_witness :
  exists series,
    Component.metricsChartData (Val (classifier_document "Single Predictor"))
    = Ok (Some series).
Proof.
  apply (classification_metrics_shown_exactly (classifier_document "Single Predictor")
           (identified_as "Single Predictor") (metrics_of example_metrics)
           eq_refl eq_refl).
  split; [reflexivity | exists example_metrics; reflexivity].
Defined.

(** * The training duration *)

Lemma num_same_eq (x y : number) : num_same x y = true -> x = y.
Proof.
  destruct x as [s1 | s1 | | s1 m1 e1], y as [s2 | s2 | | s2 m2 e2];
    cbn [num_same]; try discriminate; try reflexivity.
  - intros H. apply Bool.eqb_prop in H. subst. reflexivity.
  - intros H. apply Bool.eqb_prop in H. subst. reflexivity.
  - intros H. apply andb_true_iff in H. destruct H as [H He].
    apply andb_true_iff in H. destruct H as [Hs Hm].
    apply Bool.eqb_prop in Hs. apply Pos.eqb_eq in Hm. apply Z.eqb_eq in He.
    subst. reflexivity.
Qed.

Lemma check_from_spec (fuel : nat) (from : Z) (p : Z -> bool) :
  check_from fuel from p = true ->
  forall m, from <= m < from + Z.of_nat fuel -> p m = true.
Proof.
  revert from. induction fuel as [| f IH]; intros from H m Hm; [lia |].
  cbn [check_from] in H. apply andb_true_iff in H. destruct H as [H0 H].
  destruct (Z.eq_dec m from) as [-> | N]; [exact H0 |].
  apply (IH (from + 1) H). lia.
Qed.

Lemma durations_checked : check_from two_days 0 duration_test = true.
Proof. vm_compute. reflexivity. Qed.

(** X23: for a training duration of a whole number of minutes, below two
    days, the Training Duration row shows the whole hours, the minutes
    left over, and the total with two decimals: m minutes read
    (m div 60)h (m mod 60)m (m.00 minutes). *)
Theorem duration_row_whole_minutes (m : Z) :
  0 <= m < 2880 ->
  Component.duration_row (Val (num_of_Z m)) =
  Ok (Component.row [] "Training Duration"
        [ Component.Num (num_of_Z (m / 60)); Component.Text "h"; Component.Text " ";
          Component.Num (num_of_Z (m mod 60)); Component.Text "m (";
          Component.Text (decimal m ++ ".00"); Component.Text " minutes)" ]).
Proof.
  intros H.
  assert (W : 0 <= m < 0 + Z.of_nat two_days)
    by (unfold two_days; rewrite Z2Nat.id; lia).
  pose proof (check_from_spec two_days 0 duration_test durations_checked m W) as T.
  unfold duration_test in T. cbv zeta in T.
  apply andb_true_iff in T. destruct T as [T Ht].
  apply andb_true_iff in T. destruct T as [Th Tm].
  apply num_same_eq in Th, Tm.
  unfold Component.duration_row, toFixed_of. cbn [deref bind].
  destruct (toFixed (num_of_Z m) 2) as [s | e]; [| discriminate Ht].
  apply String.eqb_eq in Ht. subst s. cbn [bind]. rewrite Th, Tm. reflexivity.
Qed.

Lemma duration_row_whole_minutes_witness :
  Component.duration_row (Val (num_of_Z 125)) =
  Ok (Component.row [] "Training Duration"
        [ Component.Num (num_of_Z 2); Component.Text "h"; Component.Text " ";
          Component.Num (num_of_Z 5); Component.Text "m (";
          Component.Text "125.00"; Component.Text " minutes)" ]).
Proof.
  apply (duration_row_whole_minutes 125). lia.
Defined.

(** * Values the stand-alone renderer cannot tell apart *)

Lemma or_string_blank (o : field string) (d : string) :
  or_string (blank_string o) d = or_string o d.
Proof.
  unfold blank_string. destruct o as [| | s]; try reflexivity.
  cbn [truthy_string]. destruct (String.eqb s "") eqn:E; cbn [negb]; [| reflexivity].
  cbn [or_string]. rewrite E. reflexivity.
Qed.

Lemma truthy_string_blank (o : field string) :
  truthy_string (blank_string o) = truthy_string o.
Proof.
  unfold blank_string. destruct (truthy_string o) eqn:E; [exact E | reflexivity].
Qed.

Lemma blank_string_truthy (o : field string) :
  truthy_string o = true -> blank_string o = o.
Proof. unfold blank_string. intros ->. reflexivity. Qed.

Lemma or_number_blank (o : field number) (d : number) :
  or_number (blank_number o) d = or_number o d.
Proof.
  unfold blank_number. destruct o as [| | n]; try reflexivity.
  cbn [truthy_number]. destruct (num_truthy n) eqn:E; [reflexivity |].
  cbn [or_number]. rewrite E. reflexivity.
Qed.

Lemma metric_cell_blank (o : field number) :
  Standalone.metric_cell (blank_null o) = Standalone.metric_cell o.
Proof. destruct o; reflexivity. Qed.

Lemma getStatusColor_blank (o : field string) :
  Standalone.getStatusColor (blank_string o) = Standalone.getStatusColor o.
Proof. unfold Standalone.getStatusColor. rewrite or_string_blank. reflexivity. Qed.

Lemma getSeverityColor_blank (o : field string) :
  Standalone.getSeverityColor (blank_string o) = Standalone.getSeverityColor o.
Proof. unfold Standalone.getSeverityColor. rewrite or_string_blank. reflexivity. Qed.

Lemma render_warnings_blank (ws : list Warning) (html : string) :
  fold_left Standalone.render_warning (map blank_Warning ws) html
  = fold_left Standalone.render_warning ws html.
Proof.
  revert html. induction ws as [| w ws IH]; intros html; [reflexivity |].
  cbn [map fold_left]. rewrite IH. f_equal.
  unfold Standalone.render_warning, blank_Warning.
  cbn [warn_severity warn_type warn_message].
  rewrite getSeverityColor_blank, !or_string_blank. reflexivity.
Qed.

Lemma renderModelIdentification_blank (d : ModelCardData) :
  Standalone.renderModelIdentification (Val (blank d))
  = Standalone.renderModelIdentification (Val d).
Proof.
  unfold Standalone.renderModelIdentification, blank.
  cbn [get bind model_identification].
  destruct (model_identification d) as [| | mi]; try reflexivity.
  cbn [field_map blank_null or_empty blank_ModelIdentification mi_session_id mi_status
       mi_compute_cluster mi_training_date mi_job_id mi_model_type mi_target_column
       mi_target_column_type mi_framework].
  rewrite getStatusColor_blank, truthy_string_blank, !or_string_blank.
  destruct (truthy_string (mi_session_id mi)) eqn:T; [| reflexivity].
  rewrite (blank_string_truthy _ T). reflexivity.
Qed.

Lemma renderTrainingDataset_blank (toLocaleString : number -> string) (d : ModelCardData) :
  Standalone.renderTrainingDataset toLocaleString (Val (blank d))
  = Standalone.renderTrainingDataset toLocaleString (Val d).
Proof.
  unfold Standalone.renderTrainingDataset, blank.
  cbn [get bind model_identification training_dataset].
  assert (M : mi_target_column_type
                (or_empty (blank_null (field_map blank_ModelIdentification
                                         (model_identification d)))
                   no_ModelIdentification)
              = blank_string
                  (mi_target_column_type
                     (or_empty (model_identification d) no_ModelIdentification))).
  { destruct (model_identification d); reflexivity. }
  rewrite M, or_string_blank.
  destruct (training_dataset d) as [| | td]; try reflexivity.
  cbn [field_map blank_null or_empty blank_TrainingDataset td_train_rows
       td_total_features td_target_column].
  rewrite !or_number_blank, or_string_blank. reflexivity.
Qed.

Lemma renderTrainingMetrics_blank (d : ModelCardData) :
  Standalone.renderTrainingMetrics (Val (blank d))
  = Standalone.renderTrainingMetrics (Val d).
Proof.
  unfold Standalone.renderTrainingMetrics, blank.
  cbn [get bind model_identification training_metrics].
  assert (M : mi_model_type
                (or_empty (blank_null (field_map blank_ModelIdentification
                                         (model_identification d)))
                   no_ModelIdentification)
              = blank_string
                  (mi_model_type
                     (or_empty (model_identification d) no_ModelIdentification))).
  { destruct (model_identification d); reflexivity. }
  rewrite M, or_string_blank.
  destruct (String.eqb _ "Single Predictor"); cbn [andb];
    [| destruct (training_metrics d); reflexivity].
  destruct (training_metrics d) as [| | tm]; try reflexivity.
  cbn [field_map blank_null or_empty blank_TrainingMetrics tm_classification_metrics].
  destruct (tm_classification_metrics tm) as [| | cm]; try reflexivity.
  cbn [field_map blank_null truthy_object is_nullish negb deref bind
       blank_ClassificationMetrics cm_precision cm_recall cm_f1 cm_auc].
  rewrite !metric_cell_blank. reflexivity.
Qed.

Lemma renderModelQuality_blank (d : ModelCardData) :
  Standalone.renderModelQuality (Val (blank d)) = Standalone.renderModelQuality (Val d).
Proof.
  unfold Standalone.renderModelQuality, blank.
  cbn [get bind model_quality].
  destruct (model_quality d) as [| | mq]; try reflexivity.
  cbn [field_map blank_null or_empty blank_ModelQuality mq_assessment mq_warnings].
  rewrite truthy_string_blank.
  destruct (truthy_string (mq_assessment mq)) eqn:T.
  - rewrite (blank_string_truthy _ T).
    match goal with |- bind ?c _ = _ => destruct c as [html | e] end;
      cbn [bind]; [| reflexivity].
    destruct (mq_warnings mq) as [| | [| w ws]]; try reflexivity.
    cbn [field_map map blank_list truthy_object is_nullish negb Standalone.nonempty
         andb deref bind].
    change (blank_Warning w :: map blank_Warning ws) with (map blank_Warning (w :: ws)).
    rewrite render_warnings_blank. reflexivity.
  - cbn [bind].
    destruct (mq_warnings mq) as [| | [| w ws]]; try reflexivity.
    cbn [field_map map blank_list truthy_object is_nullish negb Standalone.nonempty
         andb deref bind].
    change (blank_Warning w :: map blank_Warning ws) with (map blank_Warning (w :: ws)).
    rewrite render_warnings_blank. reflexivity.
Qed.

Lemma renderHTML_blank (toLocaleString : number -> string) (now : Date)
    (d : ModelCardData) :
  Standalone.renderHTML toLocaleString now (Val (blank d))
  = Standalone.renderHTML toLocaleString now (Val d).
Proof.
  unfold Standalone.renderHTML.
  rewrite renderModelIdentification_blank, renderTrainingDataset_blank,
    renderTrainingMetrics_blank, renderModelQuality_blank.
  cbn [get bind].
  assert (M : mi_name (or_empty (model_identification (blank d)) no_ModelIdentification)
              = blank_string
                  (mi_name (or_empty (model_identification d) no_ModelIdentification))).
  { unfold blank. cbn [model_identification].
    destruct (model_identification d); reflexivity. }
  rewrite M, or_string_blank. reflexivity.
Qed.

(** X24: the stand-alone page cannot tell falsy values apart: in what it
    reads, a string that is empty, null or missing, a row or feature
    count that is 0, NaN, null or missing, a metric that is null or
    missing, a list of warnings that is empty, null or missing and a
    section that is null or missing all render alike.  Two documents that
    differ only in such values give the same page. *)
Theorem renderHTML_falsy_values_alike (toLocaleString : number -> string) (now : Date)
    (d d' : ModelCardData) :
  blank d = blank d' ->
  Standalone.renderHTML toLocaleString now (Val d)
  = Standalone.renderHTML toLocaleString now (Val d').
Proof.
  intros H. rewrite <- (renderHTML_blank _ _ d), <- (renderHTML_blank _ _ d'), H.
  reflexivity.
Qed.

Lemma renderHTML_falsy_values_alike_witness :
  Standalone.renderHTML plain_locale morning (Val example_with_blanks)
  = Standalone.renderHTML plain_locale morning (Val example_document).
Proof.
  apply renderHTML_falsy_values_alike. reflexivity.
Defined.

(** * The title of the page *)

(** X25: the stand-alone page starts with its head up to the title and
    then the model name as it is in the document, character for
    character: nothing is escaped, so markup in the name is markup in the
    page. *)
Theorem renderHTML_copies_the_name (toLocaleString : number -> string) (now : Date)
    (d : ModelCardData) (mi : ModelIdentification) (name : string) :
  model_identification d = Val mi ->
  mi_name mi = Val name ->
  name <> "" ->
  exists rest,
    Standalone.renderHTML toLocaleString now (Val d)
    = Ok (page_head ++ name ++ rest).
Proof.
  intros Hmi Hname N.
  destruct (renderModelIdentification_returns d) as [s1 E1].
  destruct (renderTrainingDataset_returns toLocaleString d) as [s2 E2].
  destruct (renderTrainingMetrics_returns d) as [s3 E3].
  destruct (renderModelQuality_returns d) as [s4 E4].
  unfold Standalone.renderHTML. rewrite E1, E2, E3, E4. cbn [get bind].
  rewrite Hmi. cbn [or_empty]. rewrite Hname. cbn [or_string].
  apply String.eqb_neq in N. rewrite N.
  unfold Templates.html_document.
  match goal with |- context [name ++ ?tail] => generalize tail end.
  intros tail. exists tail. unfold page_head. rewrite !append_assoc. reflexivity.
Qed.

Lemma renderHTML_copies_the_name_witness :
  exists rest,
    Standalone.renderHTML plain_locale morning (Val (document_named name_with_markup))
    = Ok (page_head ++ name_with_markup ++ rest).
Proof.
  apply (renderHTML_copies_the_name plain_locale morning (document_named name_with_markup)
           _ name_with_markup eq_refl eq_refl).
  discriminate.
Defined.
